(** * LDAP directory synchronisation and authentication bridge

    A shallow embedding of [api/services/ldap_service.py] (class
    [LdapService]) together with the two tables created by the migration
    [2025_08_31_1000-add_ldap_tables.py].

    The service talks to three things outside the Python process: the SQL
    database behind [db.session], the LDAP directory behind [ldap3], and the
    wall clock behind [naive_utc_now].  All three are made explicit:

    - the database is a record of tables (lists of rows, in table order);
      the SQLAlchemy session is a second copy of that record holding the
      view of the open transaction, and [db.session.commit()] copies the
      view over the durable tables;
    - the directory, the clock, the identifier generator of the database
      and the failures of database statements are oracles gathered in the
      record [Env];
    - Python exceptions are values of [Exn] carried by the outcome of a
      computation in the monad [M]. *)

From stdpp Require Import base option list gmap sets strings pretty.
From Stdlib Require Import Ascii ZArith Lia.

Open Scope Z_scope.
Open Scope string_scope.
Open Scope list_scope.

(** ** Exceptions *)

(** The exception classes of [ldap_service.py], lines 23-40, below Python's
    [Exception].  [OtherError] stands for every class that is not declared
    by the service (SQLAlchemy's errors, for example). *)
Inductive ExcClass :=
| PyException
| LdapServiceError
| LdapConnectionError
| LdapAuthError
| LdapUserNotFoundError
| OtherError.

#[global] Instance ExcClass_eq_dec : EqDecision ExcClass.
Proof. solve_decision. Defined.

(** The direct base class, as written in the [class] statements. *)
Definition base_class (c : ExcClass) : option ExcClass :=
  match c with
  | PyException => None
  | LdapServiceError => Some PyException
  | LdapConnectionError => Some LdapServiceError
  | LdapAuthError => Some LdapServiceError
  | LdapUserNotFoundError => Some LdapServiceError
  | OtherError => Some PyException
  end.

(** [issubclass c d]: what an [except d] clause catches.  The hierarchy has
    depth two, so two steps up the chain of bases are enough. *)
Definition issubclass (c d : ExcClass) : bool :=
  bool_decide (c = d)
  || bool_decide (base_class c = Some d)
  || bool_decide (base_class c ≫= base_class = Some d).

Record Exn := mkExn { exc_class : ExcClass; exc_msg : string }.

#[global] Instance Exn_eq_dec : EqDecision Exn.
Proof. solve_decision. Defined.

(** ** Rows of the tables *)

(** Timestamps are integers (seconds of a naive UTC time). *)
Definition datetime := Z.

(** Table [ldap_configs]. *)
Module LdapConfig.
Record t := mk {
  id : string;
  tenant_id : string;
  enabled : bool;
  server_url : string;
  bind_dn : string;
  bind_password : string;
  base_dn : string;
  user_filter : option string;
  user_id_attribute : string;
  user_email_attribute : string;
  user_name_attribute : string;
  sync_interval : Z;
  last_sync_at : option datetime;
  created_at : datetime;
  updated_at : datetime
}.

Definition set_last_sync_at (v : option datetime) (c : t) : t :=
  mk (id c) (tenant_id c) (enabled c) (server_url c) (bind_dn c)
     (bind_password c) (base_dn c) (user_filter c) (user_id_attribute c)
     (user_email_attribute c) (user_name_attribute c) (sync_interval c)
     v (created_at c) (updated_at c).

Definition set_updated_at (v : datetime) (c : t) : t :=
  mk (id c) (tenant_id c) (enabled c) (server_url c) (bind_dn c)
     (bind_password c) (base_dn c) (user_filter c) (user_id_attribute c)
     (user_email_attribute c) (user_name_attribute c) (sync_interval c)
     (last_sync_at c) (created_at c) v.
End LdapConfig.

(** Table [ldap_users]. *)
Module LdapUser.
Record t := mk {
  id : string;
  tenant_id : string;
  account_id : option string;
  ldap_uid : string;
  email : string;
  name : string;
  ldap_dn : string;
  enabled : bool;
  last_sync_at : datetime;
  created_at : datetime;
  updated_at : datetime
}.

Definition set_account_id (v : option string) (u : t) : t :=
  mk (id u) (tenant_id u) v (ldap_uid u) (email u) (name u) (ldap_dn u)
     (enabled u) (last_sync_at u) (created_at u) (updated_at u).
Definition set_email (v : string) (u : t) : t :=
  mk (id u) (tenant_id u) (account_id u) (ldap_uid u) v (name u) (ldap_dn u)
     (enabled u) (last_sync_at u) (created_at u) (updated_at u).
Definition set_name (v : string) (u : t) : t :=
  mk (id u) (tenant_id u) (account_id u) (ldap_uid u) (email u) v (ldap_dn u)
     (enabled u) (last_sync_at u) (created_at u) (updated_at u).
Definition set_ldap_dn (v : string) (u : t) : t :=
  mk (id u) (tenant_id u) (account_id u) (ldap_uid u) (email u) (name u) v
     (enabled u) (last_sync_at u) (created_at u) (updated_at u).
Definition set_enabled (v : bool) (u : t) : t :=
  mk (id u) (tenant_id u) (account_id u) (ldap_uid u) (email u) (name u)
     (ldap_dn u) v (last_sync_at u) (created_at u) (updated_at u).
Definition set_last_sync_at (v : datetime) (u : t) : t :=
  mk (id u) (tenant_id u) (account_id u) (ldap_uid u) (email u) (name u)
     (ldap_dn u) (enabled u) v (created_at u) (updated_at u).
Definition set_updated_at (v : datetime) (u : t) : t :=
  mk (id u) (tenant_id u) (account_id u) (ldap_uid u) (email u) (name u)
     (ldap_dn u) (enabled u) (last_sync_at u) (created_at u) v.
End LdapUser.

(** Modelled from the spec: the classes [AccountStatus], [TenantAccountRole],
    [Account] and [TenantAccountJoin] are declared in [models.account],
    which is not among the sources.  The service names one member of each
    enumeration, [AccountStatus.ACTIVE] and [TenantAccountRole.NORMAL]; the
    spec calls the latter the lowest privilege role.  Of the two classes
    only the columns the service reads or writes are kept. *)
Inductive AccountStatus := ACTIVE | OtherStatus (value : string).

Inductive TenantAccountRole := NORMAL | OtherRole (value : string).

Definition lowest_privilege_role : TenantAccountRole := NORMAL.

Module Account.
Record t := mk {
  id : string;
  name : string;
  email : string;
  status : AccountStatus;
  initialized_at : option datetime
}.
End Account.

Module TenantAccountJoin.
Record t := mk {
  tenant_id : string;
  account_id : string;
  role : TenantAccountRole
}.
End TenantAccountJoin.

(** ** The database and the session *)

Record Database := mkDatabase {
  ldap_configs : list LdapConfig.t;
  ldap_users : list LdapUser.t;
  accounts : list Account.t;
  tenant_account_joins : list TenantAccountJoin.t
}.

Definition set_ldap_configs (v : list LdapConfig.t) (d : Database) : Database :=
  mkDatabase v (ldap_users d) (accounts d) (tenant_account_joins d).
Definition set_ldap_users (v : list LdapUser.t) (d : Database) : Database :=
  mkDatabase (ldap_configs d) v (accounts d) (tenant_account_joins d).
Definition set_accounts (v : list Account.t) (d : Database) : Database :=
  mkDatabase (ldap_configs d) (ldap_users d) v (tenant_account_joins d).
Definition set_tenant_account_joins (v : list TenantAccountJoin.t) (d : Database) : Database :=
  mkDatabase (ldap_configs d) (ldap_users d) (accounts d) v.

(** What [ldap3] was asked to do, in order. *)
Inductive LdapOp :=
| OpBind (server_url dn password : string)
| OpSearch (search_base search_filter : string) (attributes : list string)
| OpUnbind.

(** The state threaded through the service.  [session] is what queries of
    the open transaction see (pending changes included, since the session
    flushes before every query); [committed] is what is durable. *)
Record World := mkWorld {
  session : Database;
  committed : Database;
  clock_reads : nat;
  db_stmts : nat;
  inserts : nat;
  ldap_log : list LdapOp
}.

Definition set_session (v : Database) (w : World) : World :=
  mkWorld v (committed w) (clock_reads w) (db_stmts w) (inserts w) (ldap_log w).
Definition set_committed (v : Database) (w : World) : World :=
  mkWorld (session w) v (clock_reads w) (db_stmts w) (inserts w) (ldap_log w).
Definition set_clock_reads (v : nat) (w : World) : World :=
  mkWorld (session w) (committed w) v (db_stmts w) (inserts w) (ldap_log w).
Definition set_db_stmts (v : nat) (w : World) : World :=
  mkWorld (session w) (committed w) (clock_reads w) v (inserts w) (ldap_log w).
Definition set_inserts (v : nat) (w : World) : World :=
  mkWorld (session w) (committed w) (clock_reads w) (db_stmts w) v (ldap_log w).
Definition set_ldap_log (v : list LdapOp) (w : World) : World :=
  mkWorld (session w) (committed w) (clock_reads w) (db_stmts w) (inserts w) v.

(** ** The directory *)

(** An entry of [conn.entries]: its distinguished name and its attributes
    as ldap3 holds them after the search, each under the name the
    directory gave it and with the list of its values.  An attribute that
    the search asked for and that the entry does not have is there with no
    value (ldap3's [return_empty_attributes], which a [Connection] has
    unless told otherwise). *)
Record Entry := mkEntry {
  entry_dn : string;
  entry_attributes : list (string * list string)
}.

(** ldap3 looks an attribute up by name without regard to case or white
    space: [''.join(item.split()).lower()] is compared with the lower case
    of each name the entry holds.  Names of attributes are ASCII. *)
Definition ascii_lower (c : ascii) : ascii :=
  let n := nat_of_ascii c in
  if ((65 <=? n) && (n <=? 90))%nat then ascii_of_nat (n + 32) else c.

Fixpoint str_lower (s : string) : string :=
  match s with
  | EmptyString => EmptyString
  | String c rest => String (ascii_lower c) (str_lower rest)
  end.

(** The characters [str.split()] splits at. *)
Definition is_blank (c : ascii) : bool :=
  let n := nat_of_ascii c in
  (((9 <=? n) && (n <=? 13)) || ((28 <=? n) && (n <=? 32)))%nat.

Fixpoint remove_blanks (s : string) : string :=
  match s with
  | EmptyString => EmptyString
  | String c rest =>
      if is_blank c then remove_blanks rest else String c (remove_blanks rest)
  end.

Definition attribute_key (item : string) : string :=
  str_lower (remove_blanks item).

(** Python's [repr] of a [str]: between single quotes, or between double
    quotes when the text holds a single quote and no double one; the quote
    in use, the backslash and the control characters are escaped.
    Characters outside ASCII are taken to be printable. *)
Definition double_quote : ascii := ascii_of_nat 34.
Definition single_quote : ascii := ascii_of_nat 39.
Definition backslash : ascii := ascii_of_nat 92.

Definition hex_digit (n : nat) : ascii :=
  if (n <? 10)%nat then ascii_of_nat (48 + n) else ascii_of_nat (87 + n).

Definition repr_char (quote c : ascii) : string :=
  let n := nat_of_ascii c in
  if bool_decide (c = backslash) then String backslash (String backslash EmptyString)
  else if bool_decide (c = quote) then String backslash (String quote EmptyString)
  else if (n =? 9)%nat then String backslash "t"
  else if (n =? 10)%nat then String backslash "n"
  else if (n =? 13)%nat then String backslash "r"
  else if ((n <? 32) || (n =? 127))%nat
       then String backslash
              (String "x" (String (hex_digit (n / 16)) (String (hex_digit (n mod 16))
                 EmptyString)))
  else String c EmptyString.

Fixpoint repr_chars (quote : ascii) (s : string) : string :=
  match s with
  | EmptyString => EmptyString
  | String c rest => repr_char quote c ++ repr_chars quote rest
  end.

Fixpoint str_contains (c : ascii) (s : string) : bool :=
  match s with
  | EmptyString => false
  | String d rest => bool_decide (c = d) || str_contains c rest
  end.

Definition py_repr (s : string) : string :=
  let quote :=
    if str_contains single_quote s && negb (str_contains double_quote s)
    then double_quote else single_quote in
  String quote (repr_chars quote s ++ String quote EmptyString).

(** [str()] of an attribute of an entry (lines 120-122): its value when it
    has exactly one, and the text of the Python list of its values
    otherwise, which is [[]] for an attribute without a value. *)
Definition attribute_str (values : list string) : string :=
  match values with
  | [v] => v
  | _ => "[" ++ String.concat ", " (py_repr <$> values) ++ "]"
  end.

(** [needle in hay] on texts. *)
Fixpoint str_within (needle hay : string) : bool :=
  String.prefix needle hay
  || match hay with
     | EmptyString => false
     | String _ rest => str_within needle rest
     end.

(** The attribute [getattr(entry, a)] finds: the first whose name is [a]
    without regard to case and white space; failing that, the first
    whose name is that with the option [;binary]; failing that, the first
    whose name holds that followed by [;range]. *)
Definition entry_attribute (e : Entry) (a : string) : option (list string) :=
  let item := attribute_key a in
  let found (test : string -> bool) : option (list string) :=
    match list_find (fun kv => test (str_lower kv.1) = true) (entry_attributes e) with
    | Some (_, (_, values)) => Some values
    | None => None
    end in
  match found (fun name => bool_decide (name = item)) with
  | Some values => Some values
  | None =>
      match found (fun name => bool_decide (name = (item ++ ";binary")%string)) with
      | Some values => Some values
      | None => found (str_within (item ++ ";range")%string)
      end
  end.

(** [str(getattr(entry, a, ''))]: the default is for a name that the entry
    does not hold at all. *)
Definition entry_getattr (e : Entry) (a : string) : string :=
  match entry_attribute e a with
  | Some values => attribute_str values
  | None => ""
  end.

(** ** The environment *)

Record Env := mkEnv {
  (** the value of the n-th call of [naive_utc_now()] *)
  utc_clock : nat -> datetime;
  (** server defaults of the n-th inserted row *)
  uuid_generate_v4 : nat -> string;
  CURRENT_TIMESTAMP : nat -> datetime;
  (** whether the n-th statement sent to the database raises *)
  db_fault : nat -> bool;
  (** [Connection(Server(url), dn, password, auto_bind=True)]:
      [None] when the bind succeeds, the text of the exception otherwise *)
  ldap_bind : string -> string -> string -> option string;
  (** [conn.search(...)] followed by [conn.entries], for a connection to
      [url]: the text of the exception, or the entries *)
  ldap_search : string -> string -> string -> list string -> string + list Entry;
  (** [conn.result['result']] after that search: the result code of the
      directory, 0 for success.  A search that the directory refuses does
      not raise (ldap3's [raise_exceptions] is off unless asked for): it
      leaves this code and the entries that came, if any.  The service
      reads neither the code nor what [conn.search] returns. *)
  ldap_result : string -> string -> string -> list string -> Z;
  (** [datetime.isoformat()] *)
  isoformat : datetime -> string
}.

(** ** The monad of the service: state and exceptions *)

Inductive Outcome (A : Type) :=
| Return (a : A)
| Raise (e : Exn).
Arguments Return {A} a.
Arguments Raise {A} e.

Definition M (A : Type) : Type := World -> Outcome A * World.

Definition ret {A} (a : A) : M A := fun w => (Return a, w).
Definition raise {A} (e : Exn) : M A := fun w => (Raise e, w).
Definition bind {A B} (m : M A) (k : A -> M B) : M B :=
  fun w => match m w with
           | (Return a, w') => k a w'
           | (Raise e, w') => (Raise e, w')
           end.
Definition modify (f : World -> World) : M unit := fun w => (Return tt, f w).

(** [try: m  except Exception as e: h e] *)
Definition try_except {A} (m : M A) (h : Exn -> M A) : M A :=
  fun w => match m w with
           | (Return a, w') => (Return a, w')
           | (Raise e, w') => h e w'
           end.

(** [try: m  finally: f] where [f] does not raise. *)
Definition try_finally {A} (m : M A) (f : M unit) : M A :=
  fun w => match m w with
           | (r, w') => (r, snd (f w'))
           end.

Notation "'let*' x := m 'in' k" := (bind m (fun x => k))
  (at level 10, x pattern, m at level 100, k at level 200).
Notation "m ;; k" := (bind m (fun _ => k))
  (at level 100, k at level 200, right associativity).

(** ** The service *)

(** Python's truth value of a [str]. *)
Definition truthy (s : string) : bool := negb (bool_decide (s = "")).

(** The dictionary [user_data] built for every entry (lines 119-124). *)
Record UserData := mkUserData {
  uid : string;
  email : string;
  name : string;
  dn : string
}.

(** The dictionary [stats] of [sync_ldap_users] (lines 150-155). *)
Record Stats := mkStats {
  total : Z;
  created : Z;
  updated : Z;
  disabled : Z
}.

Definition incr_created (s : Stats) : Stats :=
  mkStats (total s) (created s + 1) (updated s) (disabled s).
Definition incr_updated (s : Stats) : Stats :=
  mkStats (total s) (created s) (updated s + 1) (disabled s).
Definition incr_disabled (s : Stats) : Stats :=
  mkStats (total s) (created s) (updated s) (disabled s + 1).

(** Values of the dictionary returned by [get_sync_stats]. *)
Inductive PyVal := PyInt (z : Z) | PyStr (s : string) | PyNone.

Section Service.
Variable env : Env.

Definition naive_utc_now : M datetime :=
  fun w => (Return (utc_clock env (clock_reads w)),
            set_clock_reads (S (clock_reads w)) w).

(** One statement sent to the database inside the open transaction: it
    raises when the oracle says so, and otherwise reads the view of the
    session. *)
Definition db_execute {A} (read : Database -> A) : M A :=
  fun w =>
    let w' := set_db_stmts (S (db_stmts w)) w in
    if db_fault env (db_stmts w)
    then (Raise (mkExn OtherError "database error"), w')
    else (Return (read (session w)), w').

(** [db.session.commit()]: the view of the session becomes durable, or
    the statement raises and nothing does. *)
Definition commit : M unit :=
  fun w =>
    let w' := set_db_stmts (S (db_stmts w)) w in
    if db_fault env (db_stmts w)
    then (Raise (mkExn OtherError "database error"), w')
    else (Return tt, set_committed (session w) w').

(** [db.session.flush()] *)
Definition flush : M unit := db_execute (fun _ => tt).

Definition log_ldap (op : LdapOp) : M unit :=
  modify (fun w => set_ldap_log (ldap_log w ++ [op]) w).

(** An attribute assignment on the ORM object of the [i]-th row of
    [ldap_users]. *)
Definition setattr_ldap_user (i : nat) (f : LdapUser.t -> LdapUser.t) : M unit :=
  modify (fun w =>
    set_session (set_ldap_users (alter f i (ldap_users (session w))) (session w)) w).

Definition setattr_ldap_config (i : nat) (f : LdapConfig.t -> LdapConfig.t) : M unit :=
  modify (fun w =>
    set_session (set_ldap_configs (alter f i (ldap_configs (session w))) (session w)) w).

(** [db.session.add(LdapUser(...))]: the row goes to the end of the
    table with the server defaults of the migration ([id], [created_at],
    [updated_at]; [account_id] is NULL). *)
Definition add_ldap_user (tenant : string) (user_data : UserData)
    (last_sync : datetime) : M unit :=
  modify (fun w =>
    let n := inserts w in
    let row := LdapUser.mk (uuid_generate_v4 env n) tenant None
                 (uid user_data) (email user_data) (name user_data)
                 (dn user_data) true last_sync
                 (CURRENT_TIMESTAMP env n) (CURRENT_TIMESTAMP env n) in
    set_inserts (S n)
      (set_session (set_ldap_users (ldap_users (session w) ++ [row]) (session w)) w)).

(** [db.session.add(Account(...))]; the identifier is the one the
    following [flush] makes visible. *)
Definition add_account (name email : string) (status : AccountStatus)
    (initialized_at : datetime) : M Account.t :=
  fun w =>
    let n := inserts w in
    let row := Account.mk (uuid_generate_v4 env n) name email status
                 (Some initialized_at) in
    (Return row,
     set_inserts (S n)
       (set_session (set_accounts (accounts (session w) ++ [row]) (session w)) w)).

Definition add_tenant_account_join (j : TenantAccountJoin.t) : M unit :=
  modify (fun w =>
    set_session
      (set_tenant_account_joins (tenant_account_joins (session w) ++ [j]) (session w)) w).

(** Lines 46-49. *)
Definition get_ldap_config (tenant_id : string) : M (option (nat * LdapConfig.t)) :=
  db_execute (fun d =>
    list_find (fun c => LdapConfig.tenant_id c = tenant_id
                        ∧ LdapConfig.enabled c = true) (ldap_configs d)).

(** Lines 85-94. *)
Definition _create_ldap_connection (config : LdapConfig.t) : M unit :=
  log_ldap (OpBind (LdapConfig.server_url config) (LdapConfig.bind_dn config)
                   (LdapConfig.bind_password config)) ;;
  match ldap_bind env (LdapConfig.server_url config) (LdapConfig.bind_dn config)
          (LdapConfig.bind_password config) with
  | None => ret tt
  | Some e =>
      raise (mkExn LdapConnectionError ("无法连接到 LDAP 服务器: " ++ e))
  end.

(** Line 103: [config.user_filter or "(objectClass=person)"]. *)
Definition search_filter_of (config : LdapConfig.t) : string :=
  match LdapConfig.user_filter config with
  | Some f => if truthy f then f else "(objectClass=person)"
  | None => "(objectClass=person)"
  end.

Definition search_attributes (config : LdapConfig.t) : list string :=
  [LdapConfig.user_id_attribute config;
   LdapConfig.user_email_attribute config;
   LdapConfig.user_name_attribute config; "dn"].

(** [conn.search(...)] and the read of [conn.entries] (lines 106-118).
    What [conn.search] returns is dropped and [conn.result] is not read:
    a search that the directory refuses without an exception gives the
    entries that came, none as a rule, like one that it accepts. *)
Definition conn_search (config : LdapConfig.t) (search_filter : string)
    : M (list Entry) :=
  let attributes := search_attributes config in
  log_ldap (OpSearch (LdapConfig.base_dn config) search_filter attributes) ;;
  match ldap_search env (LdapConfig.server_url config) (LdapConfig.base_dn config)
          search_filter attributes with
  | inl e => raise (mkExn OtherError e)
  | inr entries => ret entries
  end.

Definition user_data_of (config : LdapConfig.t) (entry : Entry) : UserData :=
  mkUserData (entry_getattr entry (LdapConfig.user_id_attribute config))
             (entry_getattr entry (LdapConfig.user_email_attribute config))
             (entry_getattr entry (LdapConfig.user_name_attribute config))
             (entry_dn entry).

(** The loop of lines 117-130; skipped entries are only logged. *)
Fixpoint collect_users (config : LdapConfig.t) (entries : list Entry)
    (users : list UserData) : list UserData :=
  match entries with
  | [] => users
  | entry :: rest =>
      let user_data := user_data_of config entry in
      if truthy (uid user_data) && truthy (email user_data)
      then collect_users config rest (users ++ [user_data])
      else collect_users config rest users
  end.

(** Lines 96-138.  The connection is made before the [try]. *)
Definition search_ldap_users (config : LdapConfig.t) : M (list UserData) :=
  _create_ldap_connection config ;;
  try_finally
    (try_except
       (let search_filter := search_filter_of config in
        let* entries := conn_search config search_filter in
        ret (collect_users config entries []))
       (fun e => raise (mkExn LdapServiceError ("搜索用户失败: " ++ exc_msg e))))
    (log_ldap OpUnbind).

(** The body of the loop of lines 163-194.  [ldap_user] is the ORM object
    of the row found: its position in the table and its attributes as
    read by the query; the only attribute read back afterwards,
    [enabled], is not assigned in between. *)
Definition sync_one (tenant_id : string) (user_data : UserData) (stats : Stats)
    : M Stats :=
  let* ldap_user := db_execute (fun d =>
    list_find (fun u => LdapUser.tenant_id u = tenant_id
                        ∧ LdapUser.ldap_uid u = uid user_data) (ldap_users d)) in
  match ldap_user with
  | Some (i, u) =>
      setattr_ldap_user i (LdapUser.set_email (email user_data)) ;;
      setattr_ldap_user i (LdapUser.set_name (name user_data)) ;;
      setattr_ldap_user i (LdapUser.set_ldap_dn (dn user_data)) ;;
      let* now := naive_utc_now in
      setattr_ldap_user i (LdapUser.set_last_sync_at now) ;;
      let* now := naive_utc_now in
      setattr_ldap_user i (LdapUser.set_updated_at now) ;;
      (if negb (LdapUser.enabled u)
       then setattr_ldap_user i (LdapUser.set_enabled true)
       else ret tt) ;;
      ret (incr_updated stats)
  | None =>
      let* now := naive_utc_now in
      add_ldap_user tenant_id user_data now ;;
      ret (incr_created stats)
  end.

Fixpoint sync_loop (tenant_id : string) (ldap_users : list UserData)
    (stats : Stats) : M Stats :=
  match ldap_users with
  | [] => ret stats
  | user_data :: rest =>
      let* stats := sync_one tenant_id user_data stats in
      sync_loop tenant_id rest stats
  end.

(** The body of the loop of lines 196-205. *)
Definition disable_one (tenant_id : string) (uid : string) (stats : Stats)
    : M Stats :=
  let* ldap_user := db_execute (fun d =>
    list_find (fun u => LdapUser.tenant_id u = tenant_id
                        ∧ LdapUser.ldap_uid u = uid) (ldap_users d)) in
  match ldap_user with
  | Some (i, u) =>
      if LdapUser.enabled u then
        setattr_ldap_user i (LdapUser.set_enabled false) ;;
        let* now := naive_utc_now in
        setattr_ldap_user i (LdapUser.set_updated_at now) ;;
        ret (incr_disabled stats)
      else ret stats
  | None => ret stats
  end.

Fixpoint disable_loop (tenant_id : string) (uids : list string)
    (stats : Stats) : M Stats :=
  match uids with
  | [] => ret stats
  | uid :: rest =>
      let* stats := disable_one tenant_id uid stats in
      disable_loop tenant_id rest stats
  end.

(** Line 158. *)
Definition query_existing_users (tenant_id : string) : M (list LdapUser.t) :=
  db_execute (fun d =>
    filter (fun u => LdapUser.tenant_id u = tenant_id) (ldap_users d)).

(** Lines 140-214.  The two Python sets are [gset]s; the second loop
    walks the difference in the order of [elements], an enumeration
    without repetition whose order is not specified, as for a Python
    set. *)
Definition sync_ldap_users (tenant_id : string) : M Stats :=
  let* config := get_ldap_config tenant_id in
  match config with
  | None => raise (mkExn LdapServiceError "未找到启用的 LDAP 配置")
  | Some (ci, config) =>
      let* ldap_users := search_ldap_users config in
      let stats := mkStats (Z.of_nat (length ldap_users)) 0 0 0 in
      let* existing_users := query_existing_users tenant_id in
      let existing_uids : gset string :=
        list_to_set (LdapUser.ldap_uid <$> existing_users) in
      let current_uids : gset string := list_to_set (uid <$> ldap_users) in
      let* stats := sync_loop tenant_id ldap_users stats in
      let* stats := disable_loop tenant_id
                      (elements (existing_uids ∖ current_uids)) stats in
      let* now := naive_utc_now in
      setattr_ldap_config ci (LdapConfig.set_last_sync_at (Some now)) ;;
      let* now := naive_utc_now in
      setattr_ldap_config ci (LdapConfig.set_updated_at now) ;;
      commit ;;
      ret stats
  end.

(** Lines 246-287. *)
Definition _get_or_create_local_account (ldap_user : nat * LdapUser.t)
    (tenant_id : string) : M Account.t :=
  let '(i, u) := ldap_user in
  let* linked :=
    match LdapUser.account_id u with
    | Some aid =>
        if truthy aid
        then db_execute (fun d =>
               snd <$> list_find (fun a => Account.id a = aid) (accounts d))
        else ret None
    | None => ret None
    end in
  match linked with
  | Some account => ret account
  | None =>
      let* existing_account := db_execute (fun d =>
        snd <$> list_find (fun a => Account.email a = LdapUser.email u) (accounts d)) in
      match existing_account with
      | Some existing_account =>
          setattr_ldap_user i (LdapUser.set_account_id (Some (Account.id existing_account))) ;;
          let* now := naive_utc_now in
          setattr_ldap_user i (LdapUser.set_updated_at now) ;;
          commit ;;
          ret existing_account
      | None =>
          let* now := naive_utc_now in
          let* account := add_account (LdapUser.name u) (LdapUser.email u) ACTIVE now in
          flush ;;
          setattr_ldap_user i (LdapUser.set_account_id (Some (Account.id account))) ;;
          let* now := naive_utc_now in
          setattr_ldap_user i (LdapUser.set_updated_at now) ;;
          add_tenant_account_join
            (TenantAccountJoin.mk tenant_id (Account.id account) NORMAL) ;;
          commit ;;
          ret account
      end
  end.

(** The bind of lines 234-240: any exception becomes [LdapAuthError]. *)
Definition bind_as_user (config : LdapConfig.t) (dn password : string) : M unit :=
  try_except
    (log_ldap (OpBind (LdapConfig.server_url config) dn password) ;;
     match ldap_bind env (LdapConfig.server_url config) dn password with
     | None => log_ldap OpUnbind
     | Some e => raise (mkExn OtherError e)
     end)
    (fun _ => raise (mkExn LdapAuthError "LDAP 认证失败")).

(** Lines 216-244. *)
Definition authenticate_ldap_user (tenant_id email password : string)
    : M Account.t :=
  let* config := get_ldap_config tenant_id in
  match config with
  | None => raise (mkExn LdapServiceError "未找到启用的 LDAP 配置")
  | Some (_, config) =>
      let* ldap_user := db_execute (fun d =>
        list_find (fun u => LdapUser.tenant_id u = tenant_id
                            ∧ LdapUser.email u = email
                            ∧ LdapUser.enabled u = true) (ldap_users d)) in
      match ldap_user with
      | None => raise (mkExn LdapUserNotFoundError "LDAP 用户不存在或已被禁用")
      | Some ldap_user =>
          bind_as_user config (LdapUser.ldap_dn (snd ldap_user)) password ;;
          _get_or_create_local_account ldap_user tenant_id
      end
  end.

(** Lines 314-332. *)
Definition get_sync_stats (tenant_id : string) : M (gmap string PyVal) :=
  let* config := get_ldap_config tenant_id in
  match config with
  | None => ret ∅
  | Some (_, config) =>
      let* total_users := db_execute (fun d =>
        Z.of_nat (length (filter (fun u => LdapUser.tenant_id u = tenant_id)
                                 (ldap_users d)))) in
      let* enabled_users := db_execute (fun d =>
        Z.of_nat (length (filter (fun u => LdapUser.tenant_id u = tenant_id
                                           ∧ LdapUser.enabled u = true)
                                 (ldap_users d)))) in
      ret (<["total_users" := PyInt total_users]>
           (<["enabled_users" := PyInt enabled_users]>
            (<["disabled_users" := PyInt (total_users - enabled_users)]>
             (<["last_sync_at" :=
                  match LdapConfig.last_sync_at config with
                  | Some t => PyStr (isoformat env t)
                  | None => PyNone
                  end]>
              (<["sync_interval" := PyInt (LdapConfig.sync_interval config)]> ∅)))))
  end.
End Service.

(** ** The rest of the service, the tasks and the console *)

(** The dictionary [{"success": ..., "message": ...}] of
    [test_ldap_connection_task]. *)
Module TestResult.
Record t := mk {
  success : bool;
  message : string
}.
End TestResult.

(** [current_user], as far as the console reads it. *)
Record CurrentUser := mkCurrentUser {
  is_admin_or_owner : bool;
  current_tenant_id : string
}.

(** What a handler of the console raises: [NoPermissionError] of
    [services.errors.account] and werkzeug's [BadRequest]. *)
Inductive HttpError :=
| NoPermissionError
| BadRequest (description : string).

(** The dictionary the console builds for one mirrored user (lines 208-217
    and 256-265 of [ldap.py]). *)
Module UserJson.
Record t := mk {
  id : string;
  ldap_uid : string;
  email : string;
  name : string;
  enabled : bool;
  account_id : option string;
  last_sync_at : string;
  created_at : string
}.
End UserJson.

(** The dictionary returned by [LdapUsersResource.get] (lines 219-225). *)
Module UsersPage.
Record t := mk {
  users : list UserJson.t;
  total : Z;
  page : Z;
  limit : Z;
  has_more : bool
}.
End UsersPage.

(** The arguments [LdapUsersResource.get] parses (lines 192-196). *)
Record UsersArgs := mkUsersArgs {
  arg_enabled_only : bool;
  arg_page : Z;
  arg_limit : Z
}.

(** Python's [l[start:stop]] for integers of either sign: a negative index
    counts from the end, and both are clipped to the list. *)
Definition slice_index (len i : Z) : Z :=
  if (i <? 0)%Z then Z.max (i + len) 0 else Z.min i len.

Definition python_slice {A} (l : list A) (start stop : Z) : list A :=
  let len := Z.of_nat (length l) in
  let s := slice_index len start in
  let e := slice_index len stop in
  take (Z.to_nat (e - s)) (drop (Z.to_nat s) l).

Section ServiceRest.
Variable env : Env.

(** [ORDER BY ldap_users.name], which the database carries out. *)
Variable order_by_name : list LdapUser.t -> list LdapUser.t.

(** Lines 73-83 of [ldap_service.py]. *)
Definition test_ldap_connection (config : LdapConfig.t) : M (bool * string) :=
  try_except
    (log_ldap (OpBind (LdapConfig.server_url config) (LdapConfig.bind_dn config)
                      (LdapConfig.bind_password config)) ;;
     match ldap_bind env (LdapConfig.server_url config) (LdapConfig.bind_dn config)
             (LdapConfig.bind_password config) with
     | None => log_ldap OpUnbind ;; ret (true, "连接成功")
     | Some e => raise (mkExn OtherError e)
     end)
    (fun e => ret (false, ("连接失败: " ++ exc_msg e)%string)).

(** Lines 289-295. *)
Definition get_ldap_users (tenant_id : string) (enabled_only : bool)
    : M (list LdapUser.t) :=
  db_execute env (fun d =>
    let query := filter (fun u => LdapUser.tenant_id u = tenant_id) (ldap_users d) in
    let query := if enabled_only
                 then filter (fun u => LdapUser.enabled u = true) query
                 else query in
    order_by_name query).

(** Lines 297-312.  The object returned is the row as the two assignments
    leave it. *)
Definition update_ldap_user_status (tenant_id ldap_user_id : string) (enabled : bool)
    : M LdapUser.t :=
  let* ldap_user := db_execute env (fun d =>
    list_find (fun u => LdapUser.id u = ldap_user_id
                        ∧ LdapUser.tenant_id u = tenant_id) (ldap_users d)) in
  match ldap_user with
  | None => raise (mkExn LdapUserNotFoundError "LDAP 用户不存在")
  | Some (i, u) =>
      setattr_ldap_user i (LdapUser.set_enabled enabled) ;;
      let* now := naive_utc_now env in
      setattr_ldap_user i (LdapUser.set_updated_at now) ;;
      commit env ;;
      ret (LdapUser.set_updated_at now (LdapUser.set_enabled enabled u))
  end.

(** *** [tasks/ldap_sync_task.py] *)

(** [config.tenant_id] in the task: the read of a column of an object
    that the session holds.  Once the session has committed, the object is
    expired and the read loads the row again with a statement; and on a
    session whose transaction has failed and was not rolled back (the
    service never rolls back) the read raises.  The read is therefore a
    statement like any other: the database says whether it raises, and it
    gives the column otherwise. *)
Definition orm_getattr {A} (column : A) : M A :=
  db_execute env (fun _ => column).

(** The handler of lines 46-49: the error is counted, then the message
    of line 48 reads [config.tenant_id], outside any [try] of the loop. *)
Definition task_handler (config : LdapConfig.t) (counters : Z * Z) : M (Z * Z) :=
  orm_getattr (LdapConfig.tenant_id config) ;;
  ret (counters.1, counters.2 + 1).

(** The body of the loop of lines 36-49: the two counters after one
    tenant.  Inside the [try], line 38 reads [config.tenant_id] for its
    message, line 41 runs the tenant, line 42 adds its total, and line 44
    reads [config.tenant_id] again after the commit of the run.  Whatever
    these raise is caught; line 42 has then taken place or not. *)
Definition task_one (config : LdapConfig.t) (counters : Z * Z) : M (Z * Z) :=
  let* synced :=
    try_except
      (let* tenant_id := orm_getattr (LdapConfig.tenant_id config) in
       let* stats := sync_ldap_users env tenant_id in
       ret (Some (counters.1 + total stats)))
      (fun _ => ret None) in
  match synced with
  | Some total_synced =>
      try_except
        (orm_getattr (LdapConfig.tenant_id config) ;;
         ret (total_synced, counters.2))
        (fun _ => task_handler config (total_synced, counters.2))
  | None => task_handler config counters
  end.

Fixpoint task_loop (configs : list LdapConfig.t) (counters : Z * Z) : M (Z * Z) :=
  match configs with
  | [] => ret counters
  | config :: rest =>
      let* counters := task_one config counters in
      task_loop rest counters
  end.

(** Lines 17-55.  The task returns nothing; the value here is what its
    last log line reports, [total_synced] and [total_errors], or [None]
    when it returns early for want of an enabled configuration. *)
Definition sync_ldap_users_task : M (option (Z * Z)) :=
  try_except
    (let* configs := db_execute env (fun d =>
       filter (fun c => LdapConfig.enabled c = true) (ldap_configs d)) in
     match configs with
     | [] => ret None
     | _ =>
         let* counters := task_loop configs (0, 0) in
         ret (Some counters)
     end)
    (fun e => raise e).

(** Lines 58-75. *)
Definition sync_single_tenant_ldap_users_task (tenant_id : string) : M Stats :=
  try_except (sync_ldap_users env tenant_id) (fun e => raise e).

(** Lines 78-105. *)
Definition test_ldap_connection_task (tenant_id : string) : M TestResult.t :=
  try_except
    (let* config := get_ldap_config env tenant_id in
     match config with
     | None => ret (TestResult.mk false "未找到 LDAP 配置")
     | Some (_, config) =>
         let* result := test_ldap_connection config in
         ret (TestResult.mk result.1 result.2)
     end)
    (fun e => ret (TestResult.mk false ("LDAP 连接测试失败: " ++ exc_msg e))).

(** *** [controllers/console/workspace/ldap.py] *)

(** Lines 208-217 and 256-265. *)
Definition user_json (user : LdapUser.t) : UserJson.t :=
  UserJson.mk (LdapUser.id user) (LdapUser.ldap_uid user) (LdapUser.email user)
    (LdapUser.name user) (LdapUser.enabled user) (LdapUser.account_id user)
    (isoformat env (LdapUser.last_sync_at user))
    (isoformat env (LdapUser.created_at user)).

(** [LdapUsersResource.get], lines 183-229.  The permission check is
    outside the [try]; inside it every exception becomes a [BadRequest]. *)
Definition ldap_users_get (current_user : CurrentUser) (args : UsersArgs)
    : M (HttpError + UsersPage.t) :=
  if negb (is_admin_or_owner current_user) then ret (inl NoPermissionError)
  else
    try_except
      (let* users := get_ldap_users (current_tenant_id current_user)
                       (arg_enabled_only args) in
       let start := (arg_page args - 1) * arg_limit args in
       let end_ := start + arg_limit args in
       let page_users := python_slice users start end_ in
       ret (inr (UsersPage.mk (user_json <$> page_users)
                   (Z.of_nat (length users)) (arg_page args) (arg_limit args)
                   (bool_decide (end_ < Z.of_nat (length users))%Z))))
      (fun e => ret (inl (BadRequest ("获取用户列表失败: " ++ exc_msg e)))).

(** [LdapUserStatusResource.put], lines 236-269. *)
Definition ldap_user_status_put (current_user : CurrentUser) (user_id : string)
    (enabled : bool) : M (HttpError + UserJson.t) :=
  if negb (is_admin_or_owner current_user) then ret (inl NoPermissionError)
  else
    try_except
      (let* user := update_ldap_user_status (current_tenant_id current_user)
                      user_id enabled in
       ret (inr (user_json user)))
      (fun e => ret (inl (BadRequest ("更新用户状态失败: " ++ exc_msg e)))).

(** [LdapStatsResource.get], lines 302-317. *)
Definition ldap_stats_get (current_user : CurrentUser)
    : M (HttpError + gmap string PyVal) :=
  if negb (is_admin_or_owner current_user) then ret (inl NoPermissionError)
  else
    try_except
      (let* stats := get_sync_stats env (current_tenant_id current_user) in
       ret (inr stats))
      (fun e => ret (inl (BadRequest ("获取统计信息失败: " ++ exc_msg e)))).
End ServiceRest.

(** * Vocabulary of the properties *)

Ltac msimpl :=
  repeat (unfold bind, ret, raise, modify, try_except, try_finally in *;
          simpl in *).

(** A computation that leaves the durable tables alone. *)
Definition keeps_committed {A} (m : M A) : Prop :=
  forall w, committed (m w).2 = committed w.

(** A computation whose only write to the durable tables is a final
    [commit]: if it raises, the durable tables are those it started with;
    if it returns, they are the view of the session. *)
Definition all_or_nothing {A} (m : M A) : Prop :=
  forall w, match m w with
            | (Raise _, w') => committed w' = committed w
            | (Return _, w') => committed w' = session w'
            end.

(** The database answers every statement. *)
Definition no_db_fault (env : Env) : Prop := forall n, db_fault env n = false.

(** The enabled configuration of a tenant, as [get_ldap_config] finds it. *)
Definition enabled_config (tenant_id : string) (d : Database)
    : option (nat * LdapConfig.t) :=
  list_find (fun c => LdapConfig.tenant_id c = tenant_id
                      ∧ LdapConfig.enabled c = true) (ldap_configs d).

(** The directory cannot be reached with the credentials of [config]. *)
Definition unreachable (env : Env) (config : LdapConfig.t) : Prop :=
  is_Some (ldap_bind env (LdapConfig.server_url config)
             (LdapConfig.bind_dn config) (LdapConfig.bind_password config)).

(** What the directory answers to the search made for [config]. *)
Definition search_answer (env : Env) (config : LdapConfig.t) : string + list Entry :=
  ldap_search env (LdapConfig.server_url config) (LdapConfig.base_dn config)
    (search_filter_of config) (search_attributes config).

(** Fetching the remote user list fails with an exception: the bind is
    refused, or the search raises. *)
Definition fetch_fails (env : Env) (config : LdapConfig.t) : Prop :=
  unreachable env config \/ exists e, search_answer env config = inl e.

(** The mirrored user [authenticate_ldap_user] looks for. *)
Definition enabled_user (tenant_id email : string) (d : Database)
    : option (nat * LdapUser.t) :=
  list_find (fun u => LdapUser.tenant_id u = tenant_id
                      ∧ LdapUser.email u = email
                      ∧ LdapUser.enabled u = true) (ldap_users d).

(** The account a mirrored user is linked to, when the link is set and
    does not dangle. *)
Definition linked_account (d : Database) (u : LdapUser.t) : option Account.t :=
  match LdapUser.account_id u with
  | Some aid =>
      if truthy aid
      then snd <$> list_find (fun a => Account.id a = aid) (accounts d)
      else None
  | None => None
  end.

Definition account_by_email (d : Database) (email : string) : option Account.t :=
  snd <$> list_find (fun a => Account.email a = email) (accounts d).

(** What the first step of [_get_or_create_local_account] leaves behind
    when there is no usable link. *)
Definition after_link_lookup (u : LdapUser.t) (w : World) : World :=
  match LdapUser.account_id u with
  | Some aid => if truthy aid then set_db_stmts (S (db_stmts w)) w else w
  | None => w
  end.

(** *** The mirror of a tenant *)

(** The columns of the unique constraint [unique_tenant_ldap_user]. *)
Definition row_key (u : LdapUser.t) : string * string :=
  (LdapUser.tenant_id u, LdapUser.ldap_uid u).

Definition unique_tenant_ldap_user (rows : list LdapUser.t) : Prop :=
  NoDup (row_key <$> rows).

(** The row of a tenant for a uid, as both loops of [sync_ldap_users] look
    it up. *)
Definition find_user (tenant_id uid : string) (rows : list LdapUser.t)
    : option (nat * LdapUser.t) :=
  list_find (fun u => LdapUser.tenant_id u = tenant_id
                      ∧ LdapUser.ldap_uid u = uid) rows.

(** A row after the first branch of the loop of lines 163-194 has run on
    it with [user_data], the two clock reads being [t1] and [t2]. *)
Definition refreshed (user_data : UserData) (t1 t2 : datetime) (u : LdapUser.t)
    : LdapUser.t :=
  LdapUser.mk (LdapUser.id u) (LdapUser.tenant_id u) (LdapUser.account_id u)
    (LdapUser.ldap_uid u) (email user_data) (name user_data) (dn user_data)
    true t1 (LdapUser.created_at u) t2.

(** The row the second branch adds. *)
Definition created_row (env : Env) (tenant_id : string) (user_data : UserData)
    (n k : nat) : LdapUser.t :=
  LdapUser.mk (uuid_generate_v4 env n) tenant_id None (uid user_data)
    (email user_data) (name user_data) (dn user_data) true (utc_clock env k)
    (CURRENT_TIMESTAMP env n) (CURRENT_TIMESTAMP env n).

(** A row after the loop of lines 196-205 has disabled it at time [t]. *)
Definition disabled_row (t : datetime) (u : LdapUser.t) : LdapUser.t :=
  LdapUser.set_updated_at t (LdapUser.set_enabled false u).

(** What a row says, its two refreshed timestamps [last_sync_at] and
    [updated_at] apart. *)
Definition content (u : LdapUser.t) : LdapUser.t :=
  LdapUser.set_last_sync_at 0 (LdapUser.set_updated_at 0 u).

(** The state a step of either loop leaves: only the rows of [ldap_users]
    in the session and the counters move. *)
Definition with_rows (rows : list LdapUser.t) (clock_reads db_stmts inserts : nat)
    (w : World) : World :=
  mkWorld (set_ldap_users rows (session w)) (committed w) clock_reads db_stmts
    inserts (ldap_log w).

(** The rows and the two counters after the loop of lines 163-194, when no
    statement fails: [c] counts the reads of the clock and [ins] the rows
    inserted so far. *)
Fixpoint sync_rows (env : Env) (tenant_id : string) (recs : list UserData)
    (rows : list LdapUser.t) (c ins : nat) : list LdapUser.t * nat * nat :=
  match recs with
  | [] => (rows, c, ins)
  | ud :: rest =>
      match find_user tenant_id (uid ud) rows with
      | Some (i, u) =>
          sync_rows env tenant_id rest
            (<[i := refreshed ud (utc_clock env c) (utc_clock env (S c)) u]> rows)
            (S (S c)) ins
      | None =>
          sync_rows env tenant_id rest
            (rows ++ [created_row env tenant_id ud ins c]) (S c) (S ins)
      end
  end.

(** The rows and the clock counter after the loop of lines 196-205. *)
Fixpoint disable_rows (env : Env) (tenant_id : string) (uids : list string)
    (rows : list LdapUser.t) (c : nat) : list LdapUser.t * nat :=
  match uids with
  | [] => (rows, c)
  | u :: rest =>
      match find_user tenant_id u rows with
      | Some (i, r) =>
          if LdapUser.enabled r
          then disable_rows env tenant_id rest
                 (<[i := disabled_row (utc_clock env c) r]> rows) (S c)
          else disable_rows env tenant_id rest rows c
      | None => disable_rows env tenant_id rest rows c
      end
  end.

(** The rows the second loop disables: those of the tenant that are
    enabled and whose uid is among [uids]. *)
Definition to_disable (tenant_id : string) (uids : list string) (u : LdapUser.t)
    : Prop :=
  LdapUser.tenant_id u = tenant_id
  ∧ LdapUser.ldap_uid u ∈ uids
  ∧ LdapUser.enabled u = true.

#[global] Instance to_disable_dec t us u : Decision (to_disable t us u).
Proof. unfold to_disable. apply _. Defined.

(** A row before and after the second loop, which reads the clock from
    the [c]-th read on and leaves it at the [c']-th. *)
Definition disable_spec (env : Env) (tenant_id : string) (uids : list string)
    (c c' : nat) (r r' : LdapUser.t) : Prop :=
  (to_disable tenant_id uids r ->
   exists k, (c <= k < c')%nat /\ r' = disabled_row (utc_clock env k) r)
  /\ (~ to_disable tenant_id uids r -> r' = r).

(** One fetched record applied to a row: it changes the row of its uid in
    the tenant and no other. *)
Definition touch (tenant_id : string) (t1 t2 : datetime) (u : LdapUser.t)
    (ud : UserData) : LdapUser.t :=
  if decide (row_key u = (tenant_id, uid ud)) then refreshed ud t1 t2 u else u.

(** All fetched records applied to the content of a row, in order. *)
Definition touch_all (tenant_id : string) (recs : list UserData) (u : LdapUser.t)
    : LdapUser.t :=
  foldl (touch tenant_id 0 0) u recs.

(** The last fetched record with a given uid. *)
Definition last_with_uid (recs : list UserData) (u : string) : option UserData :=
  last (filter (fun ud => uid ud = u) recs).

(** *** A whole run *)

(** A fetched record that the loop of lines 117-130 keeps. *)
Definition valid_user (ud : UserData) : Prop := uid ud <> "" /\ email ud <> "".

#[global] Instance valid_user_dec ud : Decision (valid_user ud).
Proof. unfold valid_user. apply _. Defined.

(** The two sets of lines 159-160. *)
Definition existing_uids (tenant_id : string) (d : Database) : gset string :=
  list_to_set (LdapUser.ldap_uid <$>
               filter (fun u => LdapUser.tenant_id u = tenant_id) (ldap_users d)).

Definition current_uids (recs : list UserData) : gset string :=
  list_to_set (uid <$> recs).

(** The rows of a tenant. *)
Definition tenant_rows (tenant_id : string) (d : Database) : list LdapUser.t :=
  filter (fun u => LdapUser.tenant_id u = tenant_id) (ldap_users d).

(** The rows of a tenant whose uid the directory no longer has and that
    are still enabled. *)
Definition vanished_enabled (tenant_id : string) (recs : list UserData)
    (u : LdapUser.t) : Prop :=
  LdapUser.tenant_id u = tenant_id
  ∧ (LdapUser.ldap_uid u ∉ current_uids recs)
  ∧ LdapUser.enabled u = true.

#[global] Instance vanished_enabled_dec t recs u : Decision (vanished_enabled t recs u).
Proof. unfold vanished_enabled. apply _. Defined.

(** The rows of a tenant whose uid was fetched. *)
Definition fetched_row (tenant_id : string) (recs : list UserData)
    (u : LdapUser.t) : Prop :=
  LdapUser.tenant_id u = tenant_id ∧ LdapUser.ldap_uid u ∈ current_uids recs.

#[global] Instance fetched_row_dec t recs u : Decision (fetched_row t recs u).
Proof. unfold fetched_row. apply _. Defined.

(** The directory answers the search made for [config] with [entries]. *)
Definition fetch_succeeds (env : Env) (config : LdapConfig.t) (entries : list Entry)
    : Prop :=
  ldap_bind env (LdapConfig.server_url config) (LdapConfig.bind_dn config)
    (LdapConfig.bind_password config) = None
  /\ search_answer env config = inr entries.

(** The keys of the dictionary [get_sync_stats] builds. *)
Definition sync_stats_fields : gset string :=
  list_to_set ["total_users"; "enabled_users"; "disabled_users";
               "last_sync_at"; "sync_interval"].

Definition count_users (P : LdapUser.t -> bool) (tenant_id : string) (d : Database) : Z :=
  Z.of_nat (length (filter (fun u => LdapUser.tenant_id u = tenant_id ∧ P u = true)
                           (ldap_users d))).

(** *** The rest of the service *)

(** A computation that asks nothing of the directory. *)
Definition keeps_ldap_log {A} (m : M A) : Prop :=
  forall w, ldap_log (m w).2 = ldap_log w.

(** A computation that commits at most once, as its last write: if it
    raises, the durable tables are those it started with; if it returns,
    they are either those or the view of the session. *)
Definition commits_last {A} (m : M A) : Prop :=
  forall w, match m w with
            | (Raise _, w') => committed w' = committed w
            | (Return _, w') =>
                committed w' = committed w \/ committed w' = session w'
            end.

(** The bind [test_ldap_connection] and [search_ldap_users] make, with the
    credentials of the configuration. *)
Definition admin_bind (config : LdapConfig.t) : LdapOp :=
  OpBind (LdapConfig.server_url config) (LdapConfig.bind_dn config)
    (LdapConfig.bind_password config).

(** The row [update_ldap_user_status] looks for. *)
Definition find_user_by_id (tenant_id ldap_user_id : string) (rows : list LdapUser.t)
    : option (nat * LdapUser.t) :=
  list_find (fun u => LdapUser.id u = ldap_user_id
                      ∧ LdapUser.tenant_id u = tenant_id) rows.

(** The directory refuses the search made for [config]: its result code
    is not 0. *)
Definition search_refused (env : Env) (config : LdapConfig.t) : Prop :=
  ldap_result env (LdapConfig.server_url config) (LdapConfig.base_dn config)
    (search_filter_of config) (search_attributes config) <> 0.

(** The enabled configurations, as [sync_ldap_users_task] reads them. *)
Definition enabled_configs (d : Database) : list LdapConfig.t :=
  filter (fun c => LdapConfig.enabled c = true) (ldap_configs d).

(** What a run of [sync_ldap_users] for [tenant_id] may do to a row: a
    row of another tenant stays as it is, and a row of the tenant keeps
    its identifier, its tenant, its uid, its account link and its time of
    creation. *)
Definition run_keeps (tenant_id : string) (r r' : LdapUser.t) : Prop :=
  LdapUser.id r' = LdapUser.id r
  /\ LdapUser.tenant_id r' = LdapUser.tenant_id r
  /\ LdapUser.ldap_uid r' = LdapUser.ldap_uid r
  /\ LdapUser.account_id r' = LdapUser.account_id r
  /\ LdapUser.created_at r' = LdapUser.created_at r
  /\ (LdapUser.tenant_id r <> tenant_id -> r' = r).

(** A row a run for [tenant_id] adds. *)
Definition run_adds (tenant_id : string) (r : LdapUser.t) : Prop :=
  LdapUser.tenant_id r = tenant_id /\ LdapUser.account_id r = None.

(** The exception of a failed statement. *)
Definition db_error : Exn := mkExn OtherError "database error".

(** A computation that fails only when a statement does. *)
Definition raises_only_db_error {A} (m : M A) : Prop :=
  forall w e w', m w = (Raise e, w') -> e = db_error.

(** Two states with the same tables, in the session and durable, the
    same clock and the same number of inserted rows: between them only
    statements were sent and the directory was asked. *)
Definition same_tables (w w' : World) : Prop :=
  session w' = session w /\ committed w' = committed w
  /\ inserts w' = inserts w /\ clock_reads w' = clock_reads w.

(** The bind [authenticate_ldap_user] makes for a mirrored user. *)
Definition user_bind (config : LdapConfig.t) (u : LdapUser.t) (password : string)
    : LdapOp :=
  OpBind (LdapConfig.server_url config) (LdapUser.ldap_dn u) password.

(** *** The bulk task *)

(** The number of valid records the directory of a configuration gives,
    when it gives any. *)
Definition fetched_total (env : Env) (config : LdapConfig.t) : option Z :=
  match ldap_bind env (LdapConfig.server_url config) (LdapConfig.bind_dn config)
          (LdapConfig.bind_password config) with
  | Some _ => None
  | None =>
      match search_answer env config with
      | inl _ => None
      | inr entries =>
          Some (Z.of_nat (length (filter valid_user (user_data_of config <$> entries))))
      end
  end.

(** What the last log line of [sync_ldap_users_task] should report for a
    list of configurations: the valid records of the directories that
    answer, and the number of those that do not. *)
Definition task_report (env : Env) (configs : list LdapConfig.t) : Z * Z :=
  (foldr (fun c acc => default 0 (fetched_total env c) + acc) 0 configs,
   Z.of_nat (length (filter (fun c => fetched_total env c = None) configs))).

(** A configuration without the two timestamps a run writes. *)
Definition unstamped (c : LdapConfig.t) : LdapConfig.t :=
  LdapConfig.set_updated_at 0 (LdapConfig.set_last_sync_at None c).

Definition same_but_stamps (c c' : LdapConfig.t) : Prop :=
  unstamped c = unstamped c'.

(** The constraint [unique_tenant_ldap_config] of the migration. *)
Definition unique_tenant_ldap_config (configs : list LdapConfig.t) : Prop :=
  NoDup (LdapConfig.tenant_id <$> configs).

(** *** The console *)

(** The list [get_ldap_users] reads. *)
Definition listed_users (order_by_name : list LdapUser.t -> list LdapUser.t)
    (tenant_id : string) (enabled_only : bool) (d : Database) : list LdapUser.t :=
  order_by_name
    (if enabled_only
     then filter (fun u => LdapUser.enabled u = true) (tenant_rows tenant_id d)
     else tenant_rows tenant_id d).

(** ** Concrete data for the examples *)

Definition ex_config (tenant_id : string) (enabled : bool) : LdapConfig.t :=
  LdapConfig.mk ("cfg-" +:+ tenant_id) tenant_id enabled "ldap://directory"
    "cn=admin,dc=x" "secret" "dc=x" None "uid" "mail" "cn" 30 None 0 0.

(** An entry with one value for each of [uid], [mail] and [cn]; [dn],
    which the search asks for as well, is no attribute of an entry and
    comes without a value. *)
Definition ex_entry (uid mail cn dn : string) : Entry :=
  mkEntry dn [("uid", [uid]); ("mail", [mail]); ("cn", [cn]); ("dn", [])].

Definition ex_row (id tenant_id uid email name : string) (enabled : bool)
    (account_id : option string) : LdapUser.t :=
  LdapUser.mk id tenant_id account_id uid email name ("uid=" +:+ uid +:+ ",dc=x")
    enabled 1 1 1.

(** A directory that accepts the passwords in [good] (as a list of pairs of
    a distinguished name and a password) and answers every search with
    [answer]; a clock that ticks; a database without failures. *)
Definition ex_env (good : list (string * string)) (answer : string + list Entry)
    : Env :=
  mkEnv (fun n => 100 + Z.of_nat n)
        (fun n => "uuid-" +:+ pretty n)
        (fun _ => 50)
        (fun _ => false)
        (fun _ dn password =>
           if bool_decide ((dn, password) ∈ good) then None
           else Some "invalidCredentials")
        (fun _ _ _ _ => answer)
        (fun _ _ _ _ => 0)
        (fun t => pretty t).

Definition ex_admin : string * string := ("cn=admin,dc=x", "secret").

Definition ex_world (d : Database) : World := mkWorld d d 0 0 0 [].

(** Tenant [t1] has an enabled configuration and one mirrored user; tenant
    [t2] has a disabled configuration and one disabled mirrored user. *)
Definition ex_db : Database :=
  mkDatabase [ex_config "t1" true; ex_config "t2" false]
             [ex_row "r1" "t1" "u1" "a@x" "A" true None;
              ex_row "r2" "t2" "u9" "z@x" "Z" false None] [] [].

(** Three mirrored users of tenant [t1]: [u1] is linked to account [a1],
    [u2] has the email of account [a2] but no link, [u3] is linked to an
    account that no longer exists and its email is unknown. *)
Definition ex_db_accounts : Database :=
  mkDatabase [ex_config "t1" true]
             [ex_row "r1" "t1" "u1" "a@x" "A" true (Some "a1");
              ex_row "r2" "t1" "u2" "b@x" "B" true None;
              ex_row "r3" "t1" "u3" "c@x" "C" true (Some "gone")]
             [Account.mk "a1" "A" "a@x" ACTIVE (Some 0);
              Account.mk "a2" "B" "b@x" ACTIVE (Some 0)] [].

Definition ex_env_login : Env :=
  ex_env [ex_admin; ("uid=u1,dc=x", "pw1"); ("uid=u2,dc=x", "pw2");
          ("uid=u3,dc=x", "pw3")] (inr []).

(** The directory has [u2] under a new email and a new user [u4]; two of
    its entries have the empty text for uid or for email; [u1] and [u3]
    are gone. *)
Definition ex_entries : list Entry :=
  [ex_entry "u2" "new@x" "B2" "uid=u2,dc=x";
   ex_entry "" "nobody@x" "N" "cn=nobody,dc=x";
   ex_entry "u5" "" "E" "uid=u5,dc=x";
   ex_entry "u4" "d@x" "D" "uid=u4,dc=x"].

Definition ex_env_sync : Env := ex_env [ex_admin] (inr ex_entries).

Definition ex_run1 : Outcome Stats * World :=
  Eval vm_compute in sync_ldap_users ex_env_sync "t1" (ex_world ex_db_accounts).

Definition ex_run2 : Outcome Stats * World :=
  Eval vm_compute in sync_ldap_users ex_env_sync "t1" ex_run1.2.

(** Two callers of the console for tenant [t1]. *)
Definition ex_owner : CurrentUser := mkCurrentUser true "t1".
Definition ex_member : CurrentUser := mkCurrentUser false "t1".

(** The first login of [u3], whose link dangles and whose email no
    account has. *)
Definition ex_login1 : Outcome Account.t * World :=
  Eval vm_compute in
    authenticate_ldap_user ex_env_login "t1" "c@x" "pw3" (ex_world ex_db_accounts).

(** The same directory with a database whose statement number [k] of the
    run fails. *)
Definition ex_env_fault_at (k : nat) : Env :=
  mkEnv (utc_clock ex_env_sync) (uuid_generate_v4 ex_env_sync)
        (CURRENT_TIMESTAMP ex_env_sync) (fun n => bool_decide (n = k))
        (ldap_bind ex_env_sync) (ldap_search ex_env_sync) (ldap_result ex_env_sync)
        (isoformat ex_env_sync).

Definition ex_env_unreachable : Env := ex_env [] (inr []).

(** A search that raises: ldap3 does for a filter it cannot parse. *)
Definition ex_env_search_raises : Env := ex_env [ex_admin] (inl "invalid filter").

(** A directory that refuses every search with the result code 32
    ([noSuchObject], the answer for a base that does not exist): nothing
    is raised and no entry comes. *)
Definition ex_env_refused : Env :=
  mkEnv (utc_clock ex_env_sync) (uuid_generate_v4 ex_env_sync)
        (CURRENT_TIMESTAMP ex_env_sync) (db_fault ex_env_sync)
        (ldap_bind ex_env_sync) (fun _ _ _ _ => inr []) (fun _ _ _ _ => 32)
        (isoformat ex_env_sync).

(** Two tenants with an enabled configuration each; [t1] has one mirrored
    user, whom the directory of [ex_entries] no longer has. *)
Definition ex_db_two : Database :=
  mkDatabase [ex_config "t1" true; ex_config "t2" true]
             [ex_row "r1" "t1" "u1" "a@x" "A" true None] [] [].

(** Two entries as ldap3 gives them for people the directory holds
    without an email, or without a uid: the attribute was asked for and
    has no value. *)
Definition ex_entry_without_email : Entry :=
  mkEntry "uid=u7,dc=x" [("uid", ["u7"]); ("mail", []); ("cn", ["G"]); ("dn", [])].

Definition ex_entry_without_uid : Entry :=
  mkEntry "cn=h,dc=x" [("uid", []); ("mail", ["h@x"]); ("cn", ["H"]); ("dn", [])].

Definition ex_env_incomplete : Env :=
  ex_env [ex_admin] (inr [ex_entry_without_email; ex_entry_without_uid]).

(** * Properties *)

(** ** The monad *)

Lemma database_ext (d1 d2 : Database) :
  ldap_configs d1 = ldap_configs d2 -> ldap_users d1 = ldap_users d2 ->
  accounts d1 = accounts d2 -> tenant_account_joins d1 = tenant_account_joins d2 ->
  d1 = d2.
Proof. destruct d1, d2. cbn. by intros -> -> -> ->. Qed.

Lemma world_ext (w1 w2 : World) :
  session w1 = session w2 -> committed w1 = committed w2 ->
  clock_reads w1 = clock_reads w2 -> db_stmts w1 = db_stmts w2 ->
  inserts w1 = inserts w2 -> ldap_log w1 = ldap_log w2 ->
  w1 = w2.
Proof. destruct w1, w2. cbn. by intros -> -> -> -> -> ->. Qed.

Lemma keeps_ret {A} (a : A) : keeps_committed (ret a).
Proof. by intros w. Qed.

Lemma keeps_raise {A} e : keeps_committed (@raise A e).
Proof. by intros w. Qed.

Lemma keeps_bind {A B} (m : M A) (k : A -> M B) :
  keeps_committed m -> (forall a, keeps_committed (k a)) ->
  keeps_committed (bind m k).
Proof.
  intros Hm Hk w. unfold bind. specialize (Hm w).
  destruct (m w) as [[a|e] w1]; simpl in *; [|done].
  by rewrite Hk.
Qed.

Lemma keeps_modify (f : World -> World) :
  (forall w, committed (f w) = committed w) -> keeps_committed (modify f).
Proof. intros Hf w. apply Hf. Qed.

Lemma keeps_try_except {A} (m : M A) h :
  keeps_committed m -> (forall e, keeps_committed (h e)) ->
  keeps_committed (try_except m h).
Proof.
  intros Hm Hh w. unfold try_except. specialize (Hm w).
  destruct (m w) as [[a|e] w1]; simpl in *; [done|].
  by rewrite Hh.
Qed.

Lemma keeps_try_finally {A} (m : M A) f :
  keeps_committed m -> keeps_committed f -> keeps_committed (try_finally m f).
Proof.
  intros Hm Hf w. unfold try_finally. specialize (Hm w).
  destruct (m w) as [r w1]; simpl in *. by rewrite Hf.
Qed.

Lemma all_or_nothing_bind {A B} (m : M A) (k : A -> M B) :
  keeps_committed m -> (forall a, all_or_nothing (k a)) ->
  all_or_nothing (bind m k).
Proof.
  intros Hm Hk w. unfold bind. specialize (Hm w).
  destruct (m w) as [[a|e] w1]; simpl in *; [|done].
  specialize (Hk a w1). destruct (k a w1) as [[b|e] w2]; congruence.
Qed.

Lemma all_or_nothing_raise {A} e : all_or_nothing (@raise A e).
Proof. by intros w. Qed.

Section Committed.
Variable env : Env.

Lemma keeps_naive_utc_now : keeps_committed (naive_utc_now env).
Proof. by intros w. Qed.

Lemma keeps_db_execute {A} (read : Database -> A) :
  keeps_committed (db_execute env read).
Proof. intros w. unfold db_execute. by destruct (db_fault env _). Qed.

Lemma keeps_log_ldap op : keeps_committed (log_ldap op).
Proof. by intros w. Qed.

Lemma keeps_setattr_ldap_user i f : keeps_committed (setattr_ldap_user i f).
Proof. by intros w. Qed.

Lemma keeps_setattr_ldap_config i f : keeps_committed (setattr_ldap_config i f).
Proof. by intros w. Qed.

Lemma keeps_add_ldap_user t ud now : keeps_committed (add_ldap_user env t ud now).
Proof. by intros w. Qed.

Lemma all_or_nothing_commit {A} (a : A) :
  all_or_nothing (commit env ;; ret a).
Proof.
  intros w. unfold bind, commit, ret.
  by destruct (db_fault env _).
Qed.

Lemma keeps_search_ldap_users config :
  keeps_committed (search_ldap_users env config).
Proof.
  unfold search_ldap_users, _create_ldap_connection, conn_search.
  repeat first
    [ apply keeps_bind; [|intros ?]
    | apply keeps_try_finally
    | apply keeps_try_except; [|intros ?]
    | apply keeps_log_ldap
    | apply keeps_ret
    | apply keeps_raise
    | match goal with |- keeps_committed (match ?x with _ => _ end) => destruct x end ].
Qed.

Lemma keeps_sync_one t ud st : keeps_committed (sync_one env t ud st).
Proof.
  unfold sync_one.
  apply keeps_bind; [apply keeps_db_execute|intros [[i u]|]];
  repeat first
    [ apply keeps_bind; [|intros ?]
    | apply keeps_setattr_ldap_user
    | apply keeps_add_ldap_user
    | apply keeps_naive_utc_now
    | apply keeps_ret
    | match goal with |- keeps_committed (if ?x then _ else _) => destruct x end ].
Qed.

Lemma keeps_sync_loop t recs : forall st, keeps_committed (sync_loop env t recs st).
Proof.
  induction recs as [|ud rest IH]; intros st; simpl.
  - apply keeps_ret.
  - apply keeps_bind; [apply keeps_sync_one|done].
Qed.

Lemma keeps_disable_one t u st : keeps_committed (disable_one env t u st).
Proof.
  unfold disable_one.
  apply keeps_bind; [apply keeps_db_execute|intros [[i r]|]];
  repeat first
    [ apply keeps_bind; [|intros ?]
    | apply keeps_setattr_ldap_user
    | apply keeps_naive_utc_now
    | apply keeps_ret
    | match goal with |- keeps_committed (if ?x then _ else _) => destruct x end ].
Qed.

Lemma keeps_disable_loop t us : forall st, keeps_committed (disable_loop env t us st).
Proof.
  induction us as [|u rest IH]; intros st; simpl.
  - apply keeps_ret.
  - apply keeps_bind; [apply keeps_disable_one|done].
Qed.

Lemma all_or_nothing_sync_ldap_users t : all_or_nothing (sync_ldap_users env t).
Proof.
  unfold sync_ldap_users, get_ldap_config, query_existing_users.
  apply all_or_nothing_bind; [apply keeps_db_execute|].
  intros [[ci config]|]; [|apply all_or_nothing_raise].
  apply all_or_nothing_bind; [apply keeps_search_ldap_users|intros recs].
  apply all_or_nothing_bind; [apply keeps_db_execute|intros existing].
  apply all_or_nothing_bind; [apply keeps_sync_loop|intros st1].
  apply all_or_nothing_bind; [apply keeps_disable_loop|intros st2].
  apply all_or_nothing_bind; [apply keeps_naive_utc_now|intros t1].
  apply all_or_nothing_bind; [apply keeps_setattr_ldap_config|intros _].
  apply all_or_nothing_bind; [apply keeps_naive_utc_now|intros t2].
  apply all_or_nothing_bind; [apply keeps_setattr_ldap_config|intros _].
  apply all_or_nothing_commit.
Qed.
End Committed.

(** ** C1: what a run that fails leaves behind *)

Section FetchFailure.
Variable env : Env.

Lemma get_ldap_config_ok t w :
  db_fault env (db_stmts w) = false ->
  get_ldap_config env t w
  = (Return (enabled_config t (session w)), set_db_stmts (S (db_stmts w)) w).
Proof. intros H. unfold get_ldap_config, db_execute. by rewrite H. Qed.

Lemma search_ldap_users_unreachable config e w :
  ldap_bind env (LdapConfig.server_url config) (LdapConfig.bind_dn config)
    (LdapConfig.bind_password config) = Some e ->
  exists w', search_ldap_users env config w
             = (Raise (mkExn LdapConnectionError
                         ("无法连接到 LDAP 服务器: " ++ e)), w')
             /\ session w' = session w /\ committed w' = committed w.
Proof.
  intros H. unfold search_ldap_users, _create_ldap_connection. msimpl.
  rewrite H. eexists. by split.
Qed.

Lemma search_ldap_users_search_raises config e w :
  ldap_bind env (LdapConfig.server_url config) (LdapConfig.bind_dn config)
    (LdapConfig.bind_password config) = None ->
  search_answer env config = inl e ->
  exists w', search_ldap_users env config w
             = (Raise (mkExn LdapServiceError ("搜索用户失败: " ++ e)), w')
             /\ session w' = session w /\ committed w' = committed w.
Proof.
  intros Hb Hs. unfold search_ldap_users, _create_ldap_connection, conn_search.
  unfold search_answer in Hs. msimpl. rewrite Hb. simpl. rewrite Hs. simpl.
  eexists. by split.
Qed.

Lemma search_ldap_users_fails config w :
  fetch_fails env config ->
  exists e w', search_ldap_users env config w = (Raise e, w')
               /\ session w' = session w /\ committed w' = committed w
               /\ issubclass (exc_class e) LdapServiceError = true.
Proof.
  intros [[e Hb]|[e Hs]].
  - destruct (search_ldap_users_unreachable config e w Hb) as (w' & -> & ? & ?).
    by eexists _, _.
  - destruct (ldap_bind env (LdapConfig.server_url config)
                (LdapConfig.bind_dn config) (LdapConfig.bind_password config))
      as [e'|] eqn:Hb.
    + destruct (search_ldap_users_unreachable config e' w Hb) as (w' & -> & ? & ?).
      by eexists _, _.
    + destruct (search_ldap_users_search_raises config e w Hb Hs) as (w' & -> & ? & ?).
      by eexists _, _.
Qed.
End FetchFailure.

(** What a run of [sync_ldap_users] does keep, taken alone and up to the
    moment it raises.  It writes the durable tables at most once, by its
    final [commit]: whenever the run raises (at the fetch, at any
    statement of either loop, or at the commit itself) the durable tables
    are at that moment those it started with, and when it returns they
    are the view the session has reached.  When fetching the remote users
    raises (the bind is refused or the search raises), neither the
    durable tables nor the view of the session change.  Nothing is said
    here of what the session still holds after a raise in a loop, nor of
    a search that the directory refuses without an exception: the
    theorem for C1 below is about those. *)
Theorem sync_ldap_users_all_or_nothing (env : Env) (tenant_id : string) (w : World) :
  (forall e w', sync_ldap_users env tenant_id w = (Raise e, w') ->
                committed w' = committed w)
  /\ (forall stats w', sync_ldap_users env tenant_id w = (Return stats, w') ->
                       committed w' = session w')
  /\ (forall ci config,
        db_fault env (db_stmts w) = false ->
        enabled_config tenant_id (session w) = Some (ci, config) ->
        fetch_fails env config ->
        exists e w', sync_ldap_users env tenant_id w = (Raise e, w')
                     /\ session w' = session w /\ committed w' = committed w).
Proof.
  pose proof (all_or_nothing_sync_ldap_users env tenant_id w) as Ha.
  split; [|split].
  - intros e w' Heq. by rewrite Heq in Ha.
  - intros st w' Heq. by rewrite Heq in Ha.
  - intros ci config Hdb Hcfg Hfail.
    unfold sync_ldap_users, bind. rewrite get_ldap_config_ok by done.
    rewrite Hcfg.
    destruct (search_ldap_users_fails env config (set_db_stmts (S (db_stmts w)) w) Hfail)
      as (e & w' & -> & Hs & Hc & _).
    by exists e, w'.
Qed.

Lemma sync_ldap_users_all_or_nothing_witness :
  exists e w', sync_ldap_users ex_env_unreachable "t1" (ex_world ex_db) = (Raise e, w')
               /\ session w' = ex_db /\ committed w' = ex_db.
Proof.
  destruct (sync_ldap_users_all_or_nothing ex_env_unreachable "t1" (ex_world ex_db))
    as (_ & _ & H).
  apply (H 0%nat (ex_config "t1" true)).
  - reflexivity.
  - reflexivity.
  - left. vm_compute. eauto.
Defined.

(** A failure in the middle of the first loop: the fourth statement of the
    run is the lookup of the second fetched record, after the row of the
    first has been rewritten in the session.  The run raises, the session
    holds the rewritten row, and the durable tables are untouched. *)
Example sync_ldap_users_mid_loop_failure :
  exists e w',
    sync_ldap_users (ex_env_fault_at 3) "t1" (ex_world ex_db_accounts) = (Raise e, w')
    /\ exc_class e = OtherError
    /\ LdapUser.email <$> ldap_users (session w') = ["a@x"; "new@x"; "c@x"]
    /\ committed w' = ex_db_accounts.
Proof. eexists _, _. split; [by vm_compute|]. by vm_compute. Qed.

(** C1.  The code does not keep the claim, in two ways.

    (a) A run that fails in a loop is not rolled back, and the session
    goes on.  [sync_ldap_users_task] visits [t1] and [t2] of [ex_db_two];
    the one statement that fails, the sixth of the task, is the lookup of
    the second fetched record for [t1], after the row of the first has
    been added (the task has sent two statements when that run starts).
    That run raises, with the new row in the session and the durable
    tables as they were.  The task counts one error and goes on to [t2],
    whose run commits: the durable tables then hold the row the failed
    run added for [t1], while the configuration of [t1] has no
    [last_sync_at] and the user of [t1] that the directory has lost is
    still enabled.

    (b) A search that the directory refuses does not raise, since the
    service reads neither what [conn.search] returns nor [conn.result]:
    the run takes the directory to be empty, returns, disables every
    mirrored user of the tenant, stamps [last_sync_at] and commits. *)
Theorem sync_failure_is_not_all_or_nothing :
  (exists e w1 w',
     sync_ldap_users (ex_env_fault_at 5) "t1"
       (set_db_stmts 2 (ex_world ex_db_two)) = (Raise e, w1)
     /\ committed w1 = ex_db_two
     /\ LdapUser.ldap_uid <$> tenant_rows "t1" (session w1) = ["u1"; "u2"]
     /\ sync_ldap_users_task (ex_env_fault_at 5) (ex_world ex_db_two)
        = (Return (Some (2, 1)), w')
     /\ (LdapUser.ldap_uid <$> tenant_rows "t1" ex_db_two) = ["u1"]
     /\ (fun u => (LdapUser.ldap_uid u, LdapUser.enabled u))
          <$> tenant_rows "t1" (committed w')
        = [("u1", true); ("u2", true)]
     /\ (fun c => (LdapConfig.tenant_id c, LdapConfig.last_sync_at c))
          <$> ldap_configs (committed w')
        = [("t1", None); ("t2", Some 103)])
  /\ (search_refused ex_env_refused (ex_config "t1" true)
      /\ exists stats w',
           sync_ldap_users ex_env_refused "t1" (ex_world ex_db_accounts)
           = (Return stats, w')
           /\ stats = mkStats 0 0 0 3
           /\ LdapUser.enabled <$> ldap_users (committed w') = [false; false; false]
           /\ LdapConfig.last_sync_at <$> ldap_configs (committed w') = [Some 103]).
Proof.
  split.
  - eexists _, _, _. split; [by vm_compute|]. split; [by vm_compute|].
    split; [by vm_compute|]. split; [by vm_compute|]. by vm_compute.
  - split; [by vm_compute|]. eexists _, _. split; [by vm_compute|]. by vm_compute.
Qed.

(** ** C5: the kinds of error of a run *)

Section ErrorKinds.
Variable env : Env.
Hypothesis Hdb : no_db_fault env.

Lemma db_execute_ok {A} (read : Database -> A) w :
  db_execute env read w
  = (Return (read (session w)), set_db_stmts (S (db_stmts w)) w).
Proof. unfold db_execute. by rewrite Hdb. Qed.

Lemma commit_ok w :
  commit env w
  = (Return tt, set_committed (session w) (set_db_stmts (S (db_stmts w)) w)).
Proof. unfold commit. by rewrite Hdb. Qed.

Lemma sync_ldap_users_no_config t w :
  enabled_config t (session w) = None ->
  sync_ldap_users env t w
  = (Raise (mkExn LdapServiceError "未找到启用的 LDAP 配置"),
     set_db_stmts (S (db_stmts w)) w).
Proof.
  intros H. unfold sync_ldap_users, bind.
  rewrite get_ldap_config_ok by apply Hdb. by rewrite H.
Qed.

Lemma sync_ldap_users_propagates t w ci config e w1 :
  enabled_config t (session w) = Some (ci, config) ->
  search_ldap_users env config (set_db_stmts (S (db_stmts w)) w) = (Raise e, w1) ->
  sync_ldap_users env t w = (Raise e, w1).
Proof.
  intros H Hs. unfold sync_ldap_users, bind.
  rewrite get_ldap_config_ok by apply Hdb. by rewrite H, Hs.
Qed.

Lemma authenticate_no_config t email password w :
  enabled_config t (session w) = None ->
  authenticate_ldap_user env t email password w
  = (Raise (mkExn LdapServiceError "未找到启用的 LDAP 配置"),
     set_db_stmts (S (db_stmts w)) w).
Proof.
  intros H. unfold authenticate_ldap_user, bind.
  rewrite get_ldap_config_ok by apply Hdb. by rewrite H.
Qed.
Lemma bind_as_user_ok config dn password w :
  ldap_bind env (LdapConfig.server_url config) dn password = None ->
  bind_as_user env config dn password w
  = (Return tt,
     set_ldap_log (ldap_log w ++ [OpBind (LdapConfig.server_url config) dn password]
                   ++ [OpUnbind]) w).
Proof.
  intros H. unfold bind_as_user, try_except, bind, log_ldap, modify. simpl.
  rewrite H. simpl. by rewrite <- app_assoc.
Qed.

Lemma bind_as_user_fails config dn password w e :
  ldap_bind env (LdapConfig.server_url config) dn password = Some e ->
  bind_as_user env config dn password w
  = (Raise (mkExn LdapAuthError "LDAP 认证失败"),
     set_ldap_log (ldap_log w ++ [OpBind (LdapConfig.server_url config) dn password]) w).
Proof.
  intros H. unfold bind_as_user, try_except, bind, log_ldap, modify. simpl.
  by rewrite H.
Qed.

Lemma authenticate_bind_fails t email password w ci config i u e :
  enabled_config t (session w) = Some (ci, config) ->
  enabled_user t email (session w) = Some (i, u) ->
  ldap_bind env (LdapConfig.server_url config) (LdapUser.ldap_dn u) password
  = Some e ->
  exists w', authenticate_ldap_user env t email password w
             = (Raise (mkExn LdapAuthError "LDAP 认证失败"), w')
             /\ session w' = session w /\ committed w' = committed w.
Proof.
  intros Hcfg Hu Hb. unfold authenticate_ldap_user, bind.
  rewrite get_ldap_config_ok by apply Hdb. rewrite Hcfg.
  rewrite db_execute_ok. cbn [session set_db_stmts].
  unfold enabled_user in Hu. rewrite Hu. cbn [snd].
  rewrite (bind_as_user_fails _ _ _ _ e) by done.
  eexists. by split.
Qed.
End ErrorKinds.

(** C5, as the code has it.  The service declares four classes:
    [LdapServiceError] and its three subclasses [LdapConnectionError],
    [LdapAuthError] and [LdapUserNotFoundError].  A run of
    [sync_ldap_users] raises the base class [LdapServiceError] both when
    the tenant has no enabled configuration and when the search raises
    (the two differ by their message only), and
    [LdapConnectionError] when the directory cannot be reached; whatever
    [search_ldap_users] raises leaves [sync_ldap_users] unchanged, and a
    bind that fails in [authenticate_ldap_user] is raised as
    [LdapAuthError].  The three subclasses are distinct from each other
    and from their base. *)
Theorem sync_ldap_users_error_kinds (env : Env) (tenant_id : string) (w : World)
    (Hdb : no_db_fault env) :
  (enabled_config tenant_id (session w) = None ->
   exists w', sync_ldap_users env tenant_id w
              = (Raise (mkExn LdapServiceError "未找到启用的 LDAP 配置"), w'))
  /\ (forall ci config, enabled_config tenant_id (session w) = Some (ci, config) ->
       (forall e w1,
          search_ldap_users env config (set_db_stmts (S (db_stmts w)) w) = (Raise e, w1) ->
          sync_ldap_users env tenant_id w = (Raise e, w1))
       /\ (forall e,
            ldap_bind env (LdapConfig.server_url config) (LdapConfig.bind_dn config)
              (LdapConfig.bind_password config) = Some e ->
            exists w', sync_ldap_users env tenant_id w
                       = (Raise (mkExn LdapConnectionError
                                   ("无法连接到 LDAP 服务器: " ++ e)), w'))
       /\ (forall e,
            ldap_bind env (LdapConfig.server_url config) (LdapConfig.bind_dn config)
              (LdapConfig.bind_password config) = None ->
            search_answer env config = inl e ->
            exists w', sync_ldap_users env tenant_id w
                       = (Raise (mkExn LdapServiceError ("搜索用户失败: " ++ e)), w'))
       /\ (forall email password i u e,
            enabled_user tenant_id email (session w) = Some (i, u) ->
            ldap_bind env (LdapConfig.server_url config) (LdapUser.ldap_dn u)
              password = Some e ->
            exists w', authenticate_ldap_user env tenant_id email password w
                       = (Raise (mkExn LdapAuthError "LDAP 认证失败"), w')))
  /\ (forall c d, c ∈ [LdapConnectionError; LdapAuthError; LdapUserNotFoundError] ->
                  d ∈ [LdapServiceError; LdapConnectionError; LdapAuthError;
                       LdapUserNotFoundError] ->
                  issubclass c LdapServiceError = true
                  /\ (issubclass c d = true -> c = d \/ d = LdapServiceError)).
Proof.
  split; [|split].
  - intros H. eexists. by apply sync_ldap_users_no_config.
  - intros ci config Hcfg. split; [|split; [|split]].
    + intros e w1 Hs. by eapply sync_ldap_users_propagates.
    + intros e Hb.
      destruct (search_ldap_users_unreachable env config e
                  (set_db_stmts (S (db_stmts w)) w) Hb) as (w' & Hs & _).
      exists w'. by eapply sync_ldap_users_propagates.
    + intros e Hb Hs.
      destruct (search_ldap_users_search_raises env config e
                  (set_db_stmts (S (db_stmts w)) w) Hb Hs) as (w' & Hr & _).
      exists w'. by eapply sync_ldap_users_propagates.
    + intros email password i u e Hu Hb.
      destruct (authenticate_bind_fails env Hdb tenant_id email password w ci config
                  i u e Hcfg Hu Hb) as (w' & Hr & _).
      by exists w'.
  - intros c d Hc Hd.
    repeat (apply elem_of_cons in Hc as [->|Hc]); try by apply elem_of_nil in Hc.
    all: repeat (apply elem_of_cons in Hd as [->|Hd]); try by apply elem_of_nil in Hd.
    all: split; [reflexivity|]; vm_compute; intros; auto; discriminate.
Qed.

Lemma sync_ldap_users_error_kinds_witness :
  exists w', sync_ldap_users ex_env_search_raises "t2" (ex_world ex_db)
             = (Raise (mkExn LdapServiceError "未找到启用的 LDAP 配置"), w').
Proof.
  refine (proj1 (sync_ldap_users_error_kinds ex_env_search_raises "t2" (ex_world ex_db) _) _).
  - intros n. reflexivity.
  - reflexivity.
Defined.

(** C5 as the spec words it does not hold: the failure for a missing
    configuration (tenant [t2]) and the failure for a search that raises
    (tenant [t1]) are exceptions of one and the same class. *)
Lemma sync_ldap_users_error_kinds_counterexample :
  exists e1 e2 w1 w2,
    sync_ldap_users ex_env_search_raises "t2" (ex_world ex_db) = (Raise e1, w1)
    /\ sync_ldap_users ex_env_search_raises "t1" (ex_world ex_db) = (Raise e2, w2)
    /\ exc_msg e1 = "未找到启用的 LDAP 配置"
    /\ exc_msg e2 = "搜索用户失败: invalid filter"
    /\ exc_class e1 = exc_class e2.
Proof. do 4 eexists. vm_compute. repeat split. Qed.

(** ** C7: who is turned away before the directory is asked *)

Section Authenticate.
Variable env : Env.
Hypothesis Hdb : no_db_fault env.

Lemma authenticate_no_user t email password w ci config :
  enabled_config t (session w) = Some (ci, config) ->
  enabled_user t email (session w) = None ->
  authenticate_ldap_user env t email password w
  = (Raise (mkExn LdapUserNotFoundError "LDAP 用户不存在或已被禁用"),
     set_db_stmts (S (S (db_stmts w))) w).
Proof.
  intros Hcfg Hu. unfold authenticate_ldap_user, bind.
  rewrite get_ldap_config_ok by apply Hdb. rewrite Hcfg.
  rewrite db_execute_ok by done. simpl.
  unfold enabled_user in Hu. by rewrite Hu.
Qed.
End Authenticate.

(** C7, as the code has it.  For a tenant with an enabled configuration,
    [authenticate_ldap_user] raises [LdapUserNotFoundError] whenever no
    enabled mirrored user has that tenant and email (a disabled one does
    not count), whatever the password; no bind is attempted, and neither
    the session nor the durable tables change. *)
Theorem authenticate_rejects_unknown_or_disabled (env : Env)
    (tenant_id email password : string) (w : World)
    (ci : nat) (config : LdapConfig.t)
    (Hdb : no_db_fault env)
    (Hcfg : enabled_config tenant_id (session w) = Some (ci, config))
    (Hnone : forall u, u ∈ ldap_users (session w) ->
                       LdapUser.tenant_id u = tenant_id ->
                       LdapUser.email u = email ->
                       LdapUser.enabled u = false) :
  exists w',
    authenticate_ldap_user env tenant_id email password w
    = (Raise (mkExn LdapUserNotFoundError "LDAP 用户不存在或已被禁用"), w')
    /\ ldap_log w' = ldap_log w
    /\ session w' = session w
    /\ committed w' = committed w.
Proof.
  exists (set_db_stmts (S (S (db_stmts w))) w). split; [|done].
  eapply authenticate_no_user; [done..|].
  apply list_find_None, Forall_forall. intros u Hu (Ht & He & Hen).
  rewrite (Hnone u Hu Ht He) in Hen. discriminate.
Qed.

Lemma authenticate_rejects_unknown_or_disabled_witness :
  exists w',
    authenticate_ldap_user (ex_env [ex_admin] (inr [])) "t1" "z@x" "secret"
      (ex_world ex_db)
    = (Raise (mkExn LdapUserNotFoundError "LDAP 用户不存在或已被禁用"), w')
    /\ ldap_log w' = []
    /\ session w' = ex_db
    /\ committed w' = ex_db.
Proof.
  apply (authenticate_rejects_unknown_or_disabled (ex_env [ex_admin] (inr []))
           "t1" "z@x" "secret" (ex_world ex_db) 0%nat (ex_config "t1" true)).
  - intros n. reflexivity.
  - reflexivity.
  - intros u Hu Ht He. simpl in Hu.
    repeat (apply elem_of_cons in Hu as [->|Hu]); try by apply elem_of_nil in Hu.
    + discriminate He.
    + reflexivity.
Defined.

(** C7 as the spec words it does not hold: tenant [t2] has a disabled
    mirrored user with email [z@x] and no enabled one, yet the failure is
    the one for a missing configuration, of class [LdapServiceError]. *)
Lemma authenticate_rejects_counterexample :
  enabled_user "t2" "z@x" ex_db = None
  /\ exists w',
       authenticate_ldap_user (ex_env [ex_admin] (inr [])) "t2" "z@x" "secret"
         (ex_world ex_db)
       = (Raise (mkExn LdapServiceError "未找到启用的 LDAP 配置"), w')
       /\ LdapServiceError <> LdapUserNotFoundError.
Proof. split; [reflexivity|]. eexists. vm_compute. by split. Qed.

(** ** C10: the aggregate statistics *)

Lemma count_users_split t d :
  count_users (fun _ => true) t d
  = count_users LdapUser.enabled t d
    + count_users (fun u => negb (LdapUser.enabled u)) t d.
Proof.
  unfold count_users. induction (ldap_users d) as [|u l IH]; [done|].
  rewrite !filter_cons.
  destruct (LdapUser.enabled u) eqn:He;
    repeat (case_decide; simpl length); try lia; exfalso; intuition congruence.
Qed.

(** C10, as the code has it.  For a tenant with an enabled configuration
    [get_sync_stats] returns a dictionary with exactly the keys
    [total_users], [enabled_users], [disabled_users], [last_sync_at] and
    [sync_interval]; the first two count the rows of [ldap_users] of that
    tenant and the enabled ones among them, the third is their difference,
    which is the number of disabled rows of the tenant; the last two are
    read from the configuration.  For a tenant without an enabled
    configuration the dictionary is empty.  The read changes no table. *)
Theorem get_sync_stats_fields (env : Env) (tenant_id : string) (w : World)
    (Hdb : no_db_fault env) :
  exists stats w',
    get_sync_stats env tenant_id w = (Return stats, w')
    /\ session w' = session w /\ committed w' = committed w
    /\ match enabled_config tenant_id (session w) with
       | None => stats = ∅
       | Some (_, config) =>
           let total_users := count_users (fun _ => true) tenant_id (session w) in
           let enabled_users := count_users LdapUser.enabled tenant_id (session w) in
           dom stats = sync_stats_fields
           /\ stats !! "total_users" = Some (PyInt total_users)
           /\ stats !! "enabled_users" = Some (PyInt enabled_users)
           /\ stats !! "disabled_users" = Some (PyInt (total_users - enabled_users))
           /\ total_users - enabled_users
              = count_users (fun u => negb (LdapUser.enabled u)) tenant_id (session w)
           /\ stats !! "last_sync_at"
              = Some (match LdapConfig.last_sync_at config with
                      | Some t => PyStr (isoformat env t)
                      | None => PyNone
                      end)
           /\ stats !! "sync_interval" = Some (PyInt (LdapConfig.sync_interval config))
       end.
Proof.
  unfold get_sync_stats, bind.
  rewrite get_ldap_config_ok by apply Hdb.
  destruct (enabled_config tenant_id (session w)) as [[ci config]|] eqn:Hcfg.
  - rewrite !db_execute_ok by done. cbn [fst snd session committed set_db_stmts].
    eexists _, _. split; [reflexivity|]. split; [done|]. split; [done|].
    assert (Hfil : forall (P : LdapUser.t -> Prop) `{!forall u, Decision (P u)}
                     (l : list LdapUser.t),
               length (filter P l) = length (filter (fun u => P u ∧ true = true) l)).
    { intros P ? l. f_equal. apply list_filter_iff. intros u. tauto. }
    split; [|split; [|split; [|split; [|split; [|split]]]]].
    + rewrite !dom_insert_L, dom_empty_L. unfold sync_stats_fields.
      cbn [list_to_set foldr]. set_solver.
    + rewrite lookup_insert_eq. unfold count_users. by rewrite <- Hfil.
    + rewrite lookup_insert_ne by done. by rewrite lookup_insert_eq.
    + rewrite !lookup_insert_ne, lookup_insert_eq by done.
      unfold count_users. by rewrite <- Hfil.
    + rewrite count_users_split. lia.
    + rewrite !lookup_insert_ne by done. by rewrite lookup_insert_eq.
    + rewrite !lookup_insert_ne by done. by rewrite lookup_insert_eq.
  - by eexists _, _.
Qed.

Lemma get_sync_stats_fields_witness :
  exists stats w',
    get_sync_stats (ex_env [ex_admin] (inr [])) "t1" (ex_world ex_db) = (Return stats, w')
    /\ dom stats = sync_stats_fields
    /\ stats !! "disabled_users" = Some (PyInt 0).
Proof.
  destruct (get_sync_stats_fields (ex_env [ex_admin] (inr [])) "t1" (ex_world ex_db))
    as (stats & w' & Heq & _ & _ & H).
  - intros n. reflexivity.
  - exists stats, w'. split; [exact Heq|].
    change (enabled_config "t1" (session (ex_world ex_db)))
      with (Some (0%nat, ex_config "t1" true)) in H.
    destruct H as (Hdom & _ & _ & Hdis & _). split; [exact Hdom|exact Hdis].
Defined.

(** C10 as the spec words it does not hold for every tenant: tenant [t2]
    has mirrored users but no enabled configuration, and the dictionary
    returned for it has no key at all. *)
Lemma get_sync_stats_fields_counterexample :
  exists stats w',
    get_sync_stats (ex_env [ex_admin] (inr [])) "t2" (ex_world ex_db) = (Return stats, w')
    /\ stats !! "total_users" = None
    /\ dom stats <> sync_stats_fields.
Proof.
  eexists _, _. split; [vm_compute; reflexivity|]. split; [done|].
  intros H. assert (Hin : "total_users" ∈ sync_stats_fields) by (unfold sync_stats_fields; set_solver).
  rewrite <- H in Hin. by apply not_elem_of_empty in Hin.
Qed.

(** ** C6: the local account of an authenticated user *)

Section LocalAccount.
Variable env : Env.
Hypothesis Hdb : no_db_fault env.

(** The account is already linked and the link does not dangle. *)
Lemma get_or_create_linked i u t w a :
  linked_account (session w) u = Some a ->
  _get_or_create_local_account env (i, u) t w
  = (Return a, set_db_stmts (S (db_stmts w)) w).
Proof.
  unfold linked_account, _get_or_create_local_account. intros H.
  destruct (LdapUser.account_id u) as [aid|]; [|done].
  destruct (truthy aid); [|done].
  unfold bind. rewrite db_execute_ok by done. by rewrite H.
Qed.

Lemma after_link_lookup_frame u w :
  session (after_link_lookup u w) = session w
  /\ committed (after_link_lookup u w) = committed w
  /\ clock_reads (after_link_lookup u w) = clock_reads w
  /\ inserts (after_link_lookup u w) = inserts w.
Proof.
  unfold after_link_lookup.
  destruct (LdapUser.account_id u) as [aid|]; [destruct (truthy aid)|]; done.
Qed.

(** No usable link, but an account with the email of the user. *)
Lemma get_or_create_by_email i u t w a :
  linked_account (session w) u = None ->
  account_by_email (session w) (LdapUser.email u) = Some a ->
  exists w',
    _get_or_create_local_account env (i, u) t w = (Return a, w')
    /\ session w'
       = set_ldap_users
           (alter (LdapUser.set_updated_at (utc_clock env (clock_reads w))) i
              (alter (LdapUser.set_account_id (Some (Account.id a))) i
                 (ldap_users (session w)))) (session w)
    /\ committed w' = session w'.
Proof.
  unfold linked_account, account_by_email, _get_or_create_local_account.
  intros Hl He.
  assert (Hstep : exists w1,
    (match LdapUser.account_id u with
     | Some aid =>
         if truthy aid
         then db_execute env (fun d =>
                snd <$> list_find (fun a => Account.id a = aid) (accounts d))
         else ret None
     | None => ret None
     end) w = (Return None, w1) /\ w1 = after_link_lookup u w).
  { unfold after_link_lookup.
    destruct (LdapUser.account_id u) as [aid|]; [|by eexists].
    destruct (truthy aid); [|by eexists].
    rewrite db_execute_ok by done. rewrite Hl. by eexists. }
  destruct Hstep as (w1 & Hstep & ->).
  destruct (after_link_lookup_frame u w) as (Hs & Hc & Hk & Hi).
  unfold bind at 1. rewrite Hstep.
  unfold bind at 1. rewrite db_execute_ok by done. rewrite Hs, He.
  unfold bind, setattr_ldap_user, modify, naive_utc_now. simpl.
  rewrite commit_ok by done. simpl.
  rewrite Hs, Hk. eexists. split; [reflexivity|]. by split.
Qed.

(** No usable link and no account with the email: one is created. *)
Lemma get_or_create_new i u t w :
  linked_account (session w) u = None ->
  account_by_email (session w) (LdapUser.email u) = None ->
  let w0 := after_link_lookup u w in
  let account := Account.mk (uuid_generate_v4 env (inserts w))
                   (LdapUser.name u) (LdapUser.email u) ACTIVE
                   (Some (utc_clock env (clock_reads w))) in
  exists w',
    _get_or_create_local_account env (i, u) t w = (Return account, w')
    /\ session w'
       = mkDatabase (ldap_configs (session w))
           (alter (LdapUser.set_updated_at (utc_clock env (S (clock_reads w)))) i
              (alter (LdapUser.set_account_id (Some (Account.id account))) i
                 (ldap_users (session w))))
           (accounts (session w) ++ [account])
           (tenant_account_joins (session w)
            ++ [TenantAccountJoin.mk t (Account.id account) NORMAL])
    /\ committed w' = session w'.
Proof.
  unfold linked_account, account_by_email, _get_or_create_local_account.
  intros Hl He.
  assert (Hstep : exists w1,
    (match LdapUser.account_id u with
     | Some aid =>
         if truthy aid
         then db_execute env (fun d =>
                snd <$> list_find (fun a => Account.id a = aid) (accounts d))
         else ret None
     | None => ret None
     end) w = (Return None, w1) /\ w1 = after_link_lookup u w).
  { unfold after_link_lookup.
    destruct (LdapUser.account_id u) as [aid|]; [|by eexists].
    destruct (truthy aid); [|by eexists].
    rewrite db_execute_ok by done. rewrite Hl. by eexists. }
  destruct Hstep as (w1 & Hstep & ->).
  destruct (after_link_lookup_frame u w) as (Hs & Hc & Hk & Hi).
  unfold bind at 1. rewrite Hstep.
  unfold bind at 1. rewrite db_execute_ok by done. rewrite Hs, He.
  unfold bind, setattr_ldap_user, modify, naive_utc_now, add_account, flush,
    add_tenant_account_join. simpl.
  rewrite db_execute_ok by done. simpl.
  rewrite commit_ok by done. simpl.
  rewrite Hs, Hk, Hi. eexists. split; [reflexivity|]. by split.
Qed.
End LocalAccount.

Lemma list_find_snd_elem_of {A} (P : A -> Prop) `{!forall x, Decision (P x)}
    (l : list A) (a : A) :
  snd <$> list_find P l = Some a -> a ∈ l /\ P a.
Proof.
  destruct (list_find P l) as [[j b]|] eqn:Hf; [|done].
  intros [= <-]. apply list_find_Some in Hf as (Hj & Hb & _).
  split; [|done]. apply list_elem_of_lookup. eauto.
Qed.

(** C6.  Once the directory has accepted the password of the enabled
    mirrored user found for the tenant and the email,
    [authenticate_ldap_user] returns an account, and the mirrored user is
    linked to it.  The account is: the one the user is linked to, when the
    link is set and that account exists (nothing is written then);
    otherwise, when the link is unset or dangles, the first account with
    the email of the user, which is linked and no account or membership is
    added; otherwise a new account, the only one added, with status
    [ACTIVE] and the name and email of the user, together with one
    membership of the tenant with the role [NORMAL], the lowest privilege
    role.  In the last two cases the link is committed. *)
Theorem authenticate_resolves_local_account (env : Env)
    (tenant_id email password : string) (w : World)
    (ci : nat) (config : LdapConfig.t) (i : nat) (u : LdapUser.t)
    (Hdb : no_db_fault env)
    (Hcfg : enabled_config tenant_id (session w) = Some (ci, config))
    (Huser : enabled_user tenant_id email (session w) = Some (i, u))
    (Hbind : ldap_bind env (LdapConfig.server_url config) (LdapUser.ldap_dn u)
               password = None) :
  exists account w',
    authenticate_ldap_user env tenant_id email password w = (Return account, w')
    /\ LdapUser.account_id <$> ldap_users (session w') !! i
       = Some (Some (Account.id account))
    /\ account ∈ accounts (session w')
    /\ match linked_account (session w) u with
       | Some a =>
           account = a /\ session w' = session w /\ committed w' = committed w
       | None =>
           committed w' = session w'
           /\ match account_by_email (session w) (LdapUser.email u) with
              | Some a =>
                  account = a
                  /\ accounts (session w') = accounts (session w)
                  /\ tenant_account_joins (session w') = tenant_account_joins (session w)
              | None =>
                  accounts (session w') = accounts (session w) ++ [account]
                  /\ Account.status account = ACTIVE
                  /\ Account.name account = LdapUser.name u
                  /\ Account.email account = LdapUser.email u
                  /\ tenant_account_joins (session w')
                     = tenant_account_joins (session w)
                       ++ [TenantAccountJoin.mk tenant_id (Account.id account)
                             lowest_privilege_role]
              end
       end.
Proof.
  pose proof Huser as Hfind. unfold enabled_user in Hfind.
  apply list_find_Some in Hfind as (Hi & _ & _).
  unfold authenticate_ldap_user, bind.
  rewrite get_ldap_config_ok by apply Hdb. rewrite Hcfg.
  rewrite db_execute_ok by done. cbn [session set_db_stmts].
  unfold enabled_user in Huser. rewrite Huser. cbn [snd].
  rewrite (bind_as_user_ok env) by done.
  match goal with |- context [_get_or_create_local_account env (i, u) tenant_id ?x] =>
    set (w2 := x) end.
  assert (Hs2 : session w2 = session w) by done.
  assert (Hc2 : committed w2 = committed w) by done.
  destruct (linked_account (session w) u) as [a|] eqn:Hl.
  - rewrite (get_or_create_linked env Hdb i u tenant_id w2 a) by by rewrite Hs2.
    exists a, (set_db_stmts (S (db_stmts w2)) w2).
    split; [done|]. cbn [session set_db_stmts]. rewrite Hs2.
    unfold linked_account in Hl.
    destruct (LdapUser.account_id u) as [aid|] eqn:Haid; [|done].
    destruct (truthy aid); [|done].
    apply list_find_snd_elem_of in Hl as [Hin Hid].
    split; [|done]. rewrite Hi. simpl. by rewrite Haid, Hid.
  - destruct (account_by_email (session w) (LdapUser.email u)) as [a|] eqn:He.
    + destruct (get_or_create_by_email env Hdb i u tenant_id w2 a)
        as (w' & Hrun & Hs & Hc); [by rewrite Hs2..|].
      apply list_find_snd_elem_of in He as [Hin _].
      exists a, w'. split; [done|].
      split; [rewrite Hs, Hs2; cbn; by rewrite !list_lookup_alter_eq, Hi|].
      split; [by rewrite Hs, Hs2|].
      split; [done|]. by rewrite Hs, Hs2.
    + destruct (get_or_create_new env Hdb i u tenant_id w2)
        as (w' & Hrun & Hs & Hc); [by rewrite Hs2..|].
      eexists _, w'. split; [exact Hrun|].
      split; [rewrite Hs, Hs2; cbn; by rewrite !list_lookup_alter_eq, Hi|].
      split.
      { rewrite Hs. cbn. apply elem_of_app. right. by apply list_elem_of_singleton. }
      split; [done|]. by rewrite Hs, Hs2.
Qed.

(** ** The two loops of [sync_ldap_users], one step at a time *)

Section Steps.
Variable env : Env.
Hypothesis Hdb : no_db_fault env.

Lemma sync_one_found t ud st w i u :
  find_user t (uid ud) (ldap_users (session w)) = Some (i, u) ->
  sync_one env t ud st w
  = (Return (incr_updated st),
     with_rows (<[i := refreshed ud (utc_clock env (clock_reads w))
                         (utc_clock env (S (clock_reads w))) u]>
                  (ldap_users (session w)))
       (S (S (clock_reads w))) (S (db_stmts w)) (inserts w) w).
Proof.
  intros Hf. pose proof Hf as Hi. apply list_find_Some in Hi as (Hi & _ & _).
  unfold sync_one, bind. rewrite db_execute_ok by done.
  unfold find_user in Hf. rewrite Hf.
  unfold setattr_ldap_user, modify, naive_utc_now, ret, with_rows.
  destruct (LdapUser.enabled u) eqn:He; cbn.
  all: f_equal; apply world_ext; cbn; try done.
  all: apply database_ext; cbn; try done.
  all: apply list_eq; intros j; destruct (decide (i = j)) as [<-|Hne];
    [ rewrite !list_lookup_alter_eq, list_lookup_insert_eq
        by (by eapply lookup_lt_Some);
      rewrite Hi; cbn; f_equal
    | by rewrite !list_lookup_alter_ne, list_lookup_insert_ne ].
  unfold refreshed. by rewrite <- He.
Qed.

Lemma sync_one_missing t ud st w :
  find_user t (uid ud) (ldap_users (session w)) = None ->
  sync_one env t ud st w
  = (Return (incr_created st),
     with_rows (ldap_users (session w)
                ++ [created_row env t ud (inserts w) (clock_reads w)])
       (S (clock_reads w)) (S (db_stmts w)) (S (inserts w)) w).
Proof.
  intros Hf. unfold sync_one, bind. rewrite db_execute_ok by done.
  unfold find_user in Hf. by rewrite Hf.
Qed.

Lemma disable_one_enabled t u st w i r :
  find_user t u (ldap_users (session w)) = Some (i, r) ->
  LdapUser.enabled r = true ->
  disable_one env t u st w
  = (Return (incr_disabled st),
     with_rows (<[i := disabled_row (utc_clock env (clock_reads w)) r]>
                  (ldap_users (session w)))
       (S (clock_reads w)) (S (db_stmts w)) (inserts w) w).
Proof.
  intros Hf He. pose proof Hf as Hi. apply list_find_Some in Hi as (Hi & _ & _).
  unfold disable_one, bind. rewrite db_execute_ok by done.
  unfold find_user in Hf. rewrite Hf, He.
  unfold setattr_ldap_user, modify, naive_utc_now, ret, with_rows.
  f_equal. apply world_ext; cbn; try done.
  apply database_ext; cbn; try done.
  apply list_eq. intros j. destruct (decide (i = j)) as [<-|Hne].
  - rewrite !list_lookup_alter_eq, list_lookup_insert_eq
      by (by eapply lookup_lt_Some).
    by rewrite Hi.
  - by rewrite !list_lookup_alter_ne, list_lookup_insert_ne.
Qed.

Lemma disable_one_skip t u st w :
  match find_user t u (ldap_users (session w)) with
  | Some (_, r) => LdapUser.enabled r = false
  | None => True
  end ->
  disable_one env t u st w
  = (Return st,
     with_rows (ldap_users (session w)) (clock_reads w) (S (db_stmts w))
       (inserts w) w).
Proof.
  intros Hf. unfold disable_one, bind. rewrite db_execute_ok by done.
  unfold find_user in Hf.
  destruct (list_find _ _) as [[i r]|]; [rewrite Hf|];
    unfold ret, with_rows; cbn; by destruct w as [[] ?].
Qed.
End Steps.

(** ** The two loops as functions on the rows *)

Lemma with_rows_id w :
  with_rows (ldap_users (session w)) (clock_reads w) (db_stmts w) (inserts w) w = w.
Proof. by destruct w as [[] ?]. Qed.

Section Loops.
Variable env : Env.
Hypothesis Hdb : no_db_fault env.

Lemma sync_loop_run t recs : forall st w,
  let '(rows', c', ins') :=
    sync_rows env t recs (ldap_users (session w)) (clock_reads w) (inserts w) in
  let n := Z.of_nat (ins' - inserts w) in
  sync_loop env t recs st w
  = (Return (mkStats (total st) (created st + n)
               (updated st + (Z.of_nat (length recs) - n)) (disabled st)),
     with_rows rows' c' (db_stmts w + length recs) ins' w)
  /\ (inserts w <= ins' <= inserts w + length recs)%nat.
Proof.
  induction recs as [|ud rest IH]; intros st w.
  - cbn [sync_rows sync_loop]. unfold ret.
    rewrite Nat.sub_diag, Nat.add_0_r, with_rows_id. cbn.
    split; [|lia]. do 2 f_equal. destruct st. cbn. f_equal; lia.
  - cbn [sync_rows sync_loop]. unfold bind.
    destruct (find_user t (uid ud) (ldap_users (session w))) as [[i u]|] eqn:Hf.
    + rewrite (sync_one_found env Hdb t ud st w i u Hf).
      match goal with |- context [sync_loop env t rest ?st1 ?w1] =>
        specialize (IH st1 w1) end.
      cbn [with_rows session clock_reads inserts db_stmts set_ldap_users
           ldap_users] in IH.
      destruct (sync_rows env t rest _ _ _) as [[rows' c'] ins'].
      destruct IH as [-> Hins]. split; [|cbn [length]; lia].
      f_equal; [|unfold with_rows; cbn; f_equal; lia].
      f_equal. cbn [length]. f_equal; cbn; lia.
    + rewrite (sync_one_missing env Hdb t ud st w Hf).
      match goal with |- context [sync_loop env t rest ?st1 ?w1] =>
        specialize (IH st1 w1) end.
      cbn [with_rows session clock_reads inserts db_stmts set_ldap_users
           ldap_users] in IH.
      destruct (sync_rows env t rest _ _ _) as [[rows' c'] ins'].
      destruct IH as [-> Hins]. split; [|cbn [length]; lia].
      f_equal; [|unfold with_rows; cbn; f_equal; lia].
      f_equal. cbn [length]. f_equal; cbn; lia.
Qed.

Lemma disable_loop_run t us : forall st w,
  let '(rows', c') :=
    disable_rows env t us (ldap_users (session w)) (clock_reads w) in
  disable_loop env t us st w
  = (Return (mkStats (total st) (created st) (updated st)
               (disabled st + Z.of_nat (c' - clock_reads w))),
     with_rows rows' c' (db_stmts w + length us) (inserts w) w)
  /\ (clock_reads w <= c')%nat.
Proof.
  induction us as [|u rest IH]; intros st w.
  - cbn [disable_rows disable_loop]. unfold ret.
    rewrite Nat.sub_diag, Nat.add_0_r, with_rows_id. cbn.
    split; [|lia]. do 2 f_equal. destruct st. cbn. f_equal; lia.
  - cbn [disable_rows disable_loop]. unfold bind.
    destruct (find_user t u (ldap_users (session w))) as [[i r]|] eqn:Hf;
      [destruct (LdapUser.enabled r) eqn:He|].
    + rewrite (disable_one_enabled env Hdb t u st w i r Hf He).
      match goal with |- context [disable_loop env t rest ?st1 ?w1] =>
        specialize (IH st1 w1) end.
      cbn [with_rows session clock_reads inserts db_stmts set_ldap_users
           ldap_users] in IH.
      destruct (disable_rows env t rest _ _) as [rows' c'].
      destruct IH as [-> Hc]. split; [|lia].
      f_equal; [|unfold with_rows; cbn; f_equal; lia].
      f_equal. f_equal; cbn; lia.
    + rewrite (disable_one_skip env Hdb t u st w) by by rewrite Hf.
      match goal with |- context [disable_loop env t rest ?st1 ?w1] =>
        specialize (IH st1 w1) end.
      cbn [with_rows session clock_reads inserts db_stmts set_ldap_users
           ldap_users] in IH.
      destruct (disable_rows env t rest _ _) as [rows' c'].
      destruct IH as [-> Hc]. split; [|lia].
      f_equal. unfold with_rows; cbn; f_equal; lia.
    + rewrite (disable_one_skip env Hdb t u st w) by by rewrite Hf.
      match goal with |- context [disable_loop env t rest ?st1 ?w1] =>
        specialize (IH st1 w1) end.
      cbn [with_rows session clock_reads inserts db_stmts set_ldap_users
           ldap_users] in IH.
      destruct (disable_rows env t rest _ _) as [rows' c'].
      destruct IH as [-> Hc]. split; [|lia].
      f_equal. unfold with_rows; cbn; f_equal; lia.
Qed.
End Loops.

(** ** Rows and their keys *)

Lemma find_user_Some t u rows i x :
  find_user t u rows = Some (i, x) -> rows !! i = Some x /\ row_key x = (t, u).
Proof.
  intros H. apply list_find_Some in H as (Hi & [Ht Hu] & _).
  split; [done|]. unfold row_key. by rewrite Ht, Hu.
Qed.

Lemma find_user_None t u rows :
  find_user t u rows = None <-> (t, u) ∉ row_key <$> rows.
Proof.
  unfold find_user. rewrite list_find_None, Forall_forall, list_elem_of_fmap.
  split.
  - intros H (x & Hk & Hx). apply (H x Hx). by inversion Hk.
  - intros H x Hx [Ht Hu]. apply H. exists x. split; [|done].
    unfold row_key. by rewrite Ht, Hu.
Qed.

Lemma find_user_is_Some t u rows :
  (t, u) ∈ row_key <$> rows -> is_Some (find_user t u rows).
Proof.
  intros H. destruct (find_user t u rows) eqn:Hf; [done|].
  by apply find_user_None in Hf.
Qed.

Lemma row_key_refreshed ud t1 t2 u : row_key (refreshed ud t1 t2 u) = row_key u.
Proof. done. Qed.

Lemma row_key_disabled_row t u : row_key (disabled_row t u) = row_key u.
Proof. done. Qed.

Lemma row_key_content u : row_key (content u) = row_key u.
Proof. done. Qed.

Lemma row_keys_content (rows : list LdapUser.t) :
  row_key <$> (content <$> rows) = row_key <$> rows.
Proof. rewrite <- list_fmap_compose. by apply list_fmap_ext. Qed.

Lemma row_keys_insert (rows : list LdapUser.t) i x y :
  rows !! i = Some x -> row_key y = row_key x ->
  row_key <$> <[i := y]> rows = row_key <$> rows.
Proof.
  intros Hi Hk. rewrite list_fmap_insert, Hk.
  apply list_insert_id. by rewrite list_lookup_fmap, Hi.
Qed.

(** With the unique constraint, writing the row found for a key is the same
    as rewriting every row that has the key. *)
Lemma insert_unique_key (rows : list LdapUser.t) i x k (g : LdapUser.t -> LdapUser.t) :
  unique_tenant_ldap_user rows -> rows !! i = Some x -> row_key x = k ->
  <[i := g x]> rows = (fun a => if decide (row_key a = k) then g a else a) <$> rows.
Proof.
  intros Hnd Hi Hk. apply list_eq. intros j.
  rewrite list_lookup_fmap. destruct (decide (i = j)) as [<-|Hne].
  - rewrite list_lookup_insert_eq by by eapply lookup_lt_Some.
    rewrite Hi. cbn. by rewrite decide_True.
  - rewrite list_lookup_insert_ne by done.
    destruct (rows !! j) as [a|] eqn:Hj; [|done]. cbn.
    rewrite decide_False; [done|]. intros Ha. apply Hne.
    eapply (NoDup_lookup _ i j k Hnd); rewrite list_lookup_fmap.
    + by rewrite Hi, <- Hk.
    + by rewrite Hj, <- Ha.
Qed.

Lemma filter_ext_elem {A} (P Q : A -> Prop) `{!forall x, Decision (P x)}
    `{!forall x, Decision (Q x)} (l : list A) :
  (forall x, x ∈ l -> P x <-> Q x) -> filter P l = filter Q l.
Proof.
  induction l as [|a l IH]; intros Hext; [done|].
  rewrite !filter_cons.
  rewrite IH by (intros x Hx; apply Hext; by right).
  destruct (decide (P a)) as [Hp|Hp], (decide (Q a)) as [Hq|Hq]; try done.
  - exfalso. apply Hq, Hext; [by left|done].
  - exfalso. apply Hp, Hext; [by left|done].
Qed.

(** ** What the fetched records do to one row *)

Lemma row_key_touch t t1 t2 u ud : row_key (touch t t1 t2 u ud) = row_key u.
Proof. unfold touch. by case_decide. Qed.

Lemma row_key_touch_all t recs : forall u, row_key (touch_all t recs u) = row_key u.
Proof.
  unfold touch_all. induction recs as [|ud rest IH]; intros u; [done|].
  cbn. by rewrite IH, row_key_touch.
Qed.

Lemma touch_all_cons t ud rest u :
  touch_all t (ud :: rest) u = touch_all t rest (touch t 0 0 u ud).
Proof. done. Qed.

Lemma touch_all_snoc t recs ud u :
  touch_all t (recs ++ [ud]) u = touch t 0 0 (touch_all t recs u) ud.
Proof. unfold touch_all. by rewrite foldl_snoc. Qed.

Lemma touch_all_other t recs : forall u,
  (forall ud, ud ∈ recs -> row_key u <> (t, uid ud)) -> touch_all t recs u = u.
Proof.
  induction recs as [|ud rest IH]; intros u H; [done|].
  rewrite touch_all_cons. unfold touch at 1.
  rewrite decide_False by (apply H; by left).
  apply IH. intros ud' Hud'. apply H. by right.
Qed.

Lemma last_with_uid_snoc recs ud u :
  last_with_uid (recs ++ [ud]) u
  = if decide (uid ud = u) then Some ud else last_with_uid recs u.
Proof.
  unfold last_with_uid. rewrite filter_app, filter_cons, filter_nil.
  case_decide; [by rewrite last_snoc|by rewrite app_nil_r].
Qed.

Lemma last_with_uid_Some recs u ud :
  last_with_uid recs u = Some ud -> ud ∈ recs /\ uid ud = u.
Proof.
  unfold last_with_uid. intros H.
  assert (Hin : ud ∈ filter (fun ud => uid ud = u) recs).
  { apply last_Some in H as [l ->]. apply elem_of_app. right. by left. }
  by apply list_elem_of_filter in Hin as [? ?].
Qed.

Lemma last_with_uid_None recs u :
  last_with_uid recs u = None <-> u ∉ uid <$> recs.
Proof.
  unfold last_with_uid. rewrite last_None. split.
  - intros H Hin. apply list_elem_of_fmap in Hin as (ud & -> & Hud).
    assert (Hf : ud ∈ filter (fun ud' => uid ud' = uid ud) recs)
      by by apply list_elem_of_filter.
    rewrite H in Hf. by apply elem_of_nil in Hf.
  - intros H. destruct (filter _ recs) as [|ud l] eqn:Hf; [done|].
    exfalso. apply H.
    assert (Hin : ud ∈ filter (fun ud => uid ud = u) recs) by (rewrite Hf; by left).
    apply list_elem_of_filter in Hin as [<- Hin].
    apply list_elem_of_fmap. by exists ud.
Qed.

(** Over a row of the tenant whose timestamps are left out, the fetched
    records leave what the last of them with the uid of the row says, and
    enable the row. *)
Lemma touch_all_last t recs u :
  LdapUser.tenant_id u = t ->
  touch_all t recs u
  = match last_with_uid recs (LdapUser.ldap_uid u) with
    | Some ud => refreshed ud 0 0 u
    | None => u
    end.
Proof.
  intros Ht. induction recs as [|ud recs IH] using rev_ind; [done|].
  rewrite touch_all_snoc, last_with_uid_snoc, IH. unfold touch.
  assert (Hk : forall x, row_key x = row_key u ->
            (row_key x = (t, uid ud)) <-> (uid ud = LdapUser.ldap_uid u)).
  { intros x ->. unfold row_key. rewrite Ht. split; [by intros [= ->]|by intros ->]. }
  destruct (last_with_uid recs (LdapUser.ldap_uid u)) as [ud'|].
  - destruct (decide (uid ud = LdapUser.ldap_uid u)) as [He|He].
    + by rewrite decide_True by by apply Hk.
    + by rewrite decide_False by (intros ?%Hk; done).
  - destruct (decide (uid ud = LdapUser.ldap_uid u)) as [He|He].
    + by rewrite decide_True by by apply Hk.
    + by rewrite decide_False by (intros ?%Hk; done).
Qed.

Lemma content_content u : content (content u) = content u.
Proof. done. Qed.

Lemma content_refreshed ud t1 t2 u :
  content (refreshed ud t1 t2 u) = refreshed ud 0 0 (content u).
Proof. done. Qed.

Lemma touch_all_idem t recs u :
  touch_all t recs (touch_all t recs u) = touch_all t recs u.
Proof.
  destruct (decide (LdapUser.tenant_id u = t)) as [Ht|Ht].
  - rewrite (touch_all_last t recs u) by done.
    destruct (last_with_uid recs (LdapUser.ldap_uid u)) as [ud|] eqn:Hl.
    + rewrite touch_all_last by done. cbn [refreshed LdapUser.ldap_uid].
      by rewrite Hl.
    + by rewrite touch_all_last, Hl.
  - rewrite !touch_all_other; [done|..].
    all: intros ud _; rewrite ?row_key_touch_all; unfold row_key; cbn; congruence.
Qed.

(** ** The first loop on the rows *)

Lemma touch_fmap_other t ud (l : list LdapUser.t) :
  (t, uid ud) ∉ row_key <$> l -> (fun a => touch t 0 0 a ud) <$> l = l.
Proof.
  intros H. rewrite <- (list_fmap_id l) at 2. apply list_fmap_ext.
  intros j a Ha. unfold touch. rewrite decide_False; [done|].
  intros Hk. apply H. rewrite <- Hk. apply list_elem_of_fmap.
  exists a. split; [done|]. by eapply list_elem_of_lookup_2.
Qed.

Lemma touch_all_fmap_cons t ud rest (l : list LdapUser.t) :
  touch_all t (ud :: rest) <$> l
  = touch_all t rest <$> ((fun a => touch t 0 0 a ud) <$> l).
Proof. rewrite <- list_fmap_compose. by apply list_fmap_ext. Qed.

(** The rows after the first loop, timestamps apart: every fetched record
    has been applied, in order, to the rows that were there and to the
    rows [N] the loop created, one for each new uid. *)
Lemma sync_rows_content env t recs : forall rows c ins,
  unique_tenant_ldap_user rows ->
  exists N,
    content <$> (sync_rows env t recs rows c ins).1.1
    = touch_all t recs <$> ((content <$> rows) ++ N)
    /\ NoDup (row_key <$> (rows ++ N))
    /\ (forall n, n ∈ N -> exists ud, ud ∈ recs /\ row_key n = (t, uid ud))
    /\ ((sync_rows env t recs rows c ins).2 = ins + length N)%nat
    /\ (forall ud, ud ∈ recs -> (t, uid ud) ∈ row_key <$> (rows ++ N)).
Proof.
  induction recs as [|ud rest IH]; intros rows c ins Hu.
  - exists []. cbn [sync_rows fst snd]. rewrite !app_nil_r. split.
    { rewrite <- (list_fmap_id (content <$> rows)) at 1. by apply list_fmap_ext. }
    split; [done|]. split; [by intros n ?%elem_of_nil|].
    split; [cbn; lia|]. by intros ud ?%elem_of_nil.
  - cbn [sync_rows].
    destruct (find_user t (uid ud) rows) as [[i u]|] eqn:Hf.
    + apply find_user_Some in Hf as [Hi Hk].
      set (rows1 := <[i := refreshed ud (utc_clock env c) (utc_clock env (S c)) u]> rows).
      assert (Hkeys : row_key <$> rows1 = row_key <$> rows)
        by by apply (row_keys_insert rows i u).
      assert (Hu1 : unique_tenant_ldap_user rows1)
        by (unfold unique_tenant_ldap_user; by rewrite Hkeys).
      destruct (IH rows1 (S (S c)) ins Hu1) as (N & Hc & Hnd & HN & Hins & Hall).
      assert (Hnd' : NoDup (row_key <$> (rows ++ N)))
        by (rewrite fmap_app, <- Hkeys, <- fmap_app; done).
      assert (Hin : (t, uid ud) ∈ row_key <$> rows).
      { rewrite <- Hk. apply list_elem_of_fmap. exists u. split; [done|].
        by eapply list_elem_of_lookup_2. }
      exists N. split; [|split; [done|split; [|split; [done|]]]].
      * rewrite Hc, touch_all_fmap_cons, !fmap_app. do 2 f_equal.
        -- unfold rows1. rewrite list_fmap_insert, content_refreshed.
           apply (insert_unique_key (content <$> rows) i (content u) (t, uid ud)
                    (refreshed ud 0 0)).
           ++ unfold unique_tenant_ldap_user. by rewrite row_keys_content.
           ++ by rewrite list_lookup_fmap, Hi.
           ++ done.
        -- symmetry. apply touch_fmap_other. intros HinN.
           rewrite fmap_app in Hnd'. apply NoDup_app in Hnd' as (_ & Hdis & _).
           by apply (Hdis _ Hin).
      * intros n Hn. destruct (HN n Hn) as (ud' & ? & ?).
        exists ud'. split; [by right|done].
      * intros ud' [->|Hud']%elem_of_cons.
        -- rewrite fmap_app. apply elem_of_app. by left.
        -- rewrite fmap_app, <- Hkeys, <- fmap_app. by apply Hall.
    + apply find_user_None in Hf.
      set (new := created_row env t ud ins c).
      assert (Hu1 : unique_tenant_ldap_user (rows ++ [new])).
      { unfold unique_tenant_ldap_user. rewrite fmap_app.
        apply NoDup_app. split; [done|]. split; [|apply NoDup_singleton].
        intros k Hk [->|?%elem_of_nil]%elem_of_cons; done. }
      destruct (IH (rows ++ [new]) (S c) (S ins) Hu1) as (N & Hc & Hnd & HN & Hins & Hall).
      exists (content new :: N).
      assert (Happ : rows ++ content new :: N = rows ++ [content new] ++ N) by done.
      assert (Hnd' : NoDup (row_key <$> (rows ++ content new :: N))).
      { rewrite <- app_assoc in Hnd. by rewrite !fmap_app in *. }
      split; [|split; [done|split; [|split]]].
      * rewrite Hc, touch_all_fmap_cons. f_equal.
        rewrite !fmap_app, <- app_assoc. cbn [fmap list_fmap app].
        f_equal; [symmetry; apply touch_fmap_other; by rewrite row_keys_content|].
        f_equal; [unfold touch; by rewrite decide_True|].
        symmetry. apply touch_fmap_other. intros HinN.
        rewrite fmap_app in Hnd. apply NoDup_app in Hnd as (_ & Hdis & _).
        apply (Hdis (t, uid ud)); [|done].
        rewrite fmap_app. apply elem_of_app. right. by left.
      * intros n [->|Hn]%elem_of_cons.
        -- exists ud. split; [by left|done].
        -- destruct (HN n Hn) as (ud' & ? & ?). exists ud'. split; [by right|done].
      * rewrite Hins. cbn [length]. lia.
      * intros ud' [->|Hud']%elem_of_cons.
        -- rewrite fmap_app. apply elem_of_app. right. by left.
        -- specialize (Hall ud' Hud'). rewrite <- app_assoc in Hall.
           by rewrite !fmap_app in *.
Qed.

Lemma sync_rows_unique env t recs rows c ins :
  unique_tenant_ldap_user rows ->
  unique_tenant_ldap_user (sync_rows env t recs rows c ins).1.1.
Proof.
  intros Hu. destruct (sync_rows_content env t recs rows c ins Hu)
    as (N & Hc & Hnd & _).
  unfold unique_tenant_ldap_user. rewrite <- row_keys_content, Hc.
  rewrite <- list_fmap_compose.
  rewrite (list_fmap_ext (row_key ∘ touch_all t recs) row_key _)
    by (intros; apply row_key_touch_all).
  by rewrite fmap_app, row_keys_content, <- fmap_app.
Qed.

Lemma sync_rows_untouched env t recs : forall rows c ins i r,
  rows !! i = Some r ->
  (forall ud, ud ∈ recs -> row_key r <> (t, uid ud)) ->
  (sync_rows env t recs rows c ins).1.1 !! i = Some r.
Proof.
  induction recs as [|ud rest IH]; intros rows c ins i r Hi Hk; [done|].
  cbn [sync_rows].
  assert (Hk' : forall ud', ud' ∈ rest -> row_key r <> (t, uid ud'))
    by (intros ud' ?; apply Hk; by right).
  destruct (find_user t (uid ud) rows) as [[j u]|] eqn:Hf.
  - apply find_user_Some in Hf as [Hj Hu].
    apply IH; [|done]. rewrite list_lookup_insert_ne; [done|].
    intros ->. rewrite Hi in Hj. injection Hj as ->.
    apply (Hk ud); [by left|done].
  - apply IH; [|done]. by apply lookup_app_l_Some.
Qed.

Lemma sync_rows_clock env t recs : forall rows c ins,
  (c <= (sync_rows env t recs rows c ins).1.2)%nat.
Proof.
  induction recs as [|ud rest IH]; intros rows c ins; [done|].
  cbn [sync_rows]. destruct (find_user t (uid ud) rows) as [[j u]|].
  - specialize (IH (<[j := refreshed ud (utc_clock env c) (utc_clock env (S c)) u]> rows)
                  (S (S c)) ins). lia.
  - specialize (IH (rows ++ [created_row env t ud ins c]) (S c) (S ins)). lia.
Qed.

(** ** The second loop on the rows *)

Lemma unique_lookup (rows : list LdapUser.t) i j x y :
  unique_tenant_ldap_user rows -> rows !! i = Some x -> rows !! j = Some y ->
  row_key x = row_key y -> i = j.
Proof.
  intros Hu Hi Hj Hk.
  eapply (NoDup_lookup _ i j (row_key x) Hu); rewrite list_lookup_fmap.
  - by rewrite Hi.
  - by rewrite Hj, Hk.
Qed.

Lemma to_disable_cons_other t u us r :
  row_key r <> (t, u) -> to_disable t (u :: us) r <-> to_disable t us r.
Proof.
  intros Hk. unfold to_disable. rewrite elem_of_cons. split.
  - intros (Ht & [Hu|Hu] & He); [|done]. destruct Hk. unfold row_key. by rewrite Ht, Hu.
  - intros (? & ? & ?). auto.
Qed.

Lemma disable_rows_spec env t us : forall rows c,
  unique_tenant_ldap_user rows ->
  Forall2 (disable_spec env t us c (disable_rows env t us rows c).2)
    rows (disable_rows env t us rows c).1
  /\ (c <= (disable_rows env t us rows c).2)%nat.
Proof.
  induction us as [|u rest IH]; intros rows c Hu.
  - cbn. split; [|done]. apply Forall2_same_length_lookup. split; [done|].
    intros i r r' Hr Hr'. rewrite Hr in Hr'. injection Hr' as <-.
    split; [|done]. by intros (_ & ?%elem_of_nil & _).
  - cbn [disable_rows].
    destruct (find_user t u rows) as [[i r0]|] eqn:Hf;
      [destruct (LdapUser.enabled r0) eqn:He|].
    + apply find_user_Some in Hf as [Hi Hk].
      set (rows1 := <[i := disabled_row (utc_clock env c) r0]> rows).
      assert (Hu1 : unique_tenant_ldap_user rows1).
      { unfold unique_tenant_ldap_user, rows1.
        by rewrite (row_keys_insert rows i r0). }
      destruct (IH rows1 (S c) Hu1) as [HF Hc]. split; [|lia].
      apply Forall2_same_length_lookup in HF as [Hlen HF].
      apply Forall2_same_length_lookup. split.
      { rewrite <- Hlen. unfold rows1. by rewrite length_insert. }
      intros j r r' Hr Hr'. destruct (decide (i = j)) as [<-|Hne].
      * rewrite Hi in Hr. injection Hr as <-.
        assert (H1 : rows1 !! i = Some (disabled_row (utc_clock env c) r0)).
        { unfold rows1. apply list_lookup_insert_eq. by eapply lookup_lt_Some. }
        destruct (HF i _ _ H1 Hr') as [_ Hsame].
        rewrite Hsame by (by intros (_ & _ & ?)).
        split.
        -- intros _. exists c. split; [lia|done].
        -- intros Hn. destruct Hn. injection Hk as Ht Huid.
           split; [done|]. split; [|done]. rewrite Huid. by left.
      * assert (H1 : rows1 !! j = Some r)
          by (unfold rows1; by rewrite list_lookup_insert_ne).
        destruct (HF j _ _ H1 Hr') as [Hch Hsame].
        assert (Hkr : row_key r <> (t, u)).
        { rewrite <- Hk. intros Heq. apply Hne. symmetry.
          by eapply (unique_lookup rows j i r r0). }
        split.
        -- intros Hd%to_disable_cons_other; [|done].
           destruct (Hch Hd) as (k & Hk1 & ->). exists k. split; [lia|done].
        -- intros Hn. apply Hsame. by rewrite <- (to_disable_cons_other t u rest r).
    + apply find_user_Some in Hf as [Hi Hk].
      destruct (IH rows c Hu) as [HF Hc]. split; [|done].
      apply Forall2_same_length_lookup in HF as [Hlen HF].
      apply Forall2_same_length_lookup. split; [done|].
      intros j r r' Hr Hr'. destruct (HF j r r' Hr Hr') as [Hch Hsame].
      destruct (decide (row_key r = (t, u))) as [Hkr|Hkr].
      * assert (j = i) as -> by (eapply (unique_lookup rows j i r r0); congruence).
        rewrite Hi in Hr. injection Hr as <-.
        split; [intros (_ & _ & ?); congruence|].
        intros _. apply Hsame. intros (_ & _ & ?). congruence.
      * split.
        -- intros Hd%to_disable_cons_other; [|done]. by apply Hch.
        -- intros Hn. apply Hsame. by rewrite <- (to_disable_cons_other t u rest r).
    + apply find_user_None in Hf.
      destruct (IH rows c Hu) as [HF Hc]. split; [|done].
      apply Forall2_same_length_lookup in HF as [Hlen HF].
      apply Forall2_same_length_lookup. split; [done|].
      intros j r r' Hr Hr'. destruct (HF j r r' Hr Hr') as [Hch Hsame].
      assert (Hkr : row_key r <> (t, u)).
      { intros Hkr. apply Hf. rewrite <- Hkr. apply list_elem_of_fmap.
        exists r. split; [done|]. by eapply list_elem_of_lookup_2. }
      split.
      * intros Hd%to_disable_cons_other; [|done]. by apply Hch.
      * intros Hn. apply Hsame. by rewrite <- (to_disable_cons_other t u rest r).
Qed.

Lemma filter_none {A} (l : list A) : filter (fun _ : A => False) l = [].
Proof. induction l as [|a l IH]; [done|]. rewrite filter_cons. by case_decide. Qed.

Lemma to_disable_nil t r : ~ to_disable t [] r.
Proof. by intros (_ & ?%elem_of_nil & _). Qed.

Lemma unique_middle (l1 l2 : list LdapUser.t) x a :
  unique_tenant_ldap_user (l1 ++ x :: l2) -> a ∈ l1 ++ l2 ->
  row_key a <> row_key x.
Proof.
  unfold unique_tenant_ldap_user. rewrite fmap_app, fmap_cons.
  intros Hnd Ha Hk. apply NoDup_app in Hnd as (_ & Hdis & Hnd2).
  apply NoDup_cons in Hnd2 as [Hx _].
  apply elem_of_app in Ha as [Ha|Ha].
  - apply (Hdis (row_key a)).
    + apply list_elem_of_fmap. by exists a.
    + rewrite Hk. by left.
  - apply Hx. rewrite <- Hk. apply list_elem_of_fmap. by exists a.
Qed.

(** The second loop reads the clock once for every row it disables. *)
Lemma disable_rows_count env t us : forall rows c,
  unique_tenant_ldap_user rows ->
  (disable_rows env t us rows c).2
  = (c + length (filter (to_disable t us) rows))%nat.
Proof.
  induction us as [|u rest IH]; intros rows c Hu.
  - cbn [disable_rows snd].
    rewrite (filter_ext_elem (to_disable t []) (fun _ => False) rows)
      by (intros x _; split; [apply to_disable_nil|done]).
    rewrite filter_none. cbn. lia.
  - cbn [disable_rows].
    destruct (find_user t u rows) as [[i r0]|] eqn:Hf;
      [destruct (LdapUser.enabled r0) eqn:He|].
    + apply find_user_Some in Hf as [Hi Hk].
      assert (Hu1 : unique_tenant_ldap_user
                      (<[i := disabled_row (utc_clock env c) r0]> rows)).
      { unfold unique_tenant_ldap_user. by rewrite (row_keys_insert rows i r0). }
      rewrite IH by done.
      rewrite insert_take_drop by by eapply lookup_lt_Some.
      rewrite <- (take_drop_middle rows i r0 Hi) at 3.
      rewrite <- (take_drop_middle rows i r0 Hi) in Hu.
      rewrite !filter_app, !filter_cons.
      rewrite decide_False by (intros (_ & _ & ?); done).
      rewrite decide_True.
      2:{ injection Hk as Ht Huid. split; [done|]. split; [|done].
          rewrite Huid. by left. }
      rewrite (filter_ext_elem (to_disable t (u :: rest)) (to_disable t rest) (take i rows)).
      2:{ intros a Ha. apply to_disable_cons_other. rewrite <- Hk.
          eapply unique_middle; [exact Hu|]. apply elem_of_app. by left. }
      rewrite (filter_ext_elem (to_disable t (u :: rest)) (to_disable t rest)
                 (drop (S i) rows)).
      2:{ intros a Ha. apply to_disable_cons_other. rewrite <- Hk.
          eapply unique_middle; [exact Hu|]. apply elem_of_app. by right. }
      rewrite !length_app. cbn [length]. lia.
    + apply find_user_Some in Hf as [Hi Hk].
      rewrite IH by done. do 2 f_equal. symmetry. apply filter_ext_elem.
      intros a Ha. destruct (decide (row_key a = (t, u))) as [Hka|Hka].
      * apply list_elem_of_lookup in Ha as [j Hj].
        assert (j = i) as -> by (eapply (unique_lookup rows j i a r0); congruence).
        rewrite Hi in Hj. injection Hj as <-.
        split; intros (_ & _ & ?); congruence.
      * by apply to_disable_cons_other.
    + apply find_user_None in Hf.
      rewrite IH by done. do 2 f_equal. symmetry. apply filter_ext_elem.
      intros a Ha. apply to_disable_cons_other. intros Hka. apply Hf.
      rewrite <- Hka. apply list_elem_of_fmap. by exists a.
Qed.

Lemma disable_rows_unique env t us rows c :
  unique_tenant_ldap_user rows ->
  unique_tenant_ldap_user (disable_rows env t us rows c).1.
Proof.
  intros Hu. destruct (disable_rows_spec env t us rows c Hu) as [HF _].
  unfold unique_tenant_ldap_user.
  replace (row_key <$> (disable_rows env t us rows c).1) with (row_key <$> rows);
    [done|].
  apply list_eq. intros j. rewrite !list_lookup_fmap.
  apply Forall2_same_length_lookup in HF as [Hlen HF].
  destruct (rows !! j) as [r|] eqn:Hr.
  - destruct (lookup_lt_is_Some_2 (disable_rows env t us rows c).1 j) as [r' Hr'].
    { rewrite <- Hlen. by eapply lookup_lt_Some. }
    rewrite Hr'. cbn. f_equal.
    destruct (HF j r r' Hr Hr') as [Hch Hsame].
    destruct (decide (to_disable t us r)) as [Hd|Hd].
    + by destruct (Hch Hd) as (k & _ & ->).
    + by rewrite Hsame.
  - apply lookup_ge_None in Hr. rewrite Hlen in Hr.
    apply lookup_ge_None in Hr. by rewrite Hr.
Qed.

Lemma disable_rows_noop env t us rows c :
  unique_tenant_ldap_user rows ->
  (forall r, r ∈ rows -> ~ to_disable t us r) ->
  disable_rows env t us rows c = (rows, c).
Proof.
  intros Hu Hno.
  pose proof (disable_rows_count env t us rows c Hu) as Hcount.
  destruct (disable_rows_spec env t us rows c Hu) as [HF _].
  destruct (disable_rows env t us rows c) as [rows' c']. cbn in *. f_equal.
  - symmetry. apply list_eq_Forall2.
    apply Forall2_same_length_lookup in HF as [Hlen HF].
    apply Forall2_same_length_lookup. split; [done|].
    intros j r r' Hr Hr'. destruct (HF j r r' Hr Hr') as [_ Hsame].
    symmetry. apply Hsame, Hno. by eapply list_elem_of_lookup_2.
  - rewrite Hcount.
    rewrite (filter_ext_elem (to_disable t us) (fun _ => False) rows)
      by (intros x Hx; split; [by apply Hno|done]).
    rewrite filter_none. cbn. lia.
Qed.

(** ** A whole run of [sync_ldap_users] *)

Lemma collect_users_filter config entries : forall users,
  collect_users config entries users
  = users ++ filter valid_user (user_data_of config <$> entries).
Proof.
  induction entries as [|e rest IH]; intros users; cbn [collect_users fmap list_fmap].
  - by rewrite filter_nil, app_nil_r.
  - rewrite filter_cons. unfold truthy.
    destruct (decide (valid_user (user_data_of config e))) as [[Hu He]|Hn].
    + rewrite !bool_decide_eq_false_2 by done. cbn.
      by rewrite IH, <- app_assoc.
    + destruct (bool_decide (uid (user_data_of config e) = "")) eqn:H1;
        [cbn; by rewrite IH|].
      destruct (bool_decide (email (user_data_of config e) = "")) eqn:H2;
        [cbn; by rewrite IH|].
      apply bool_decide_eq_false in H1, H2. by destruct Hn.
Qed.

Lemma list_find_alter_same {A} (P : A -> Prop) `{!forall x, Decision (P x)}
    (f : A -> A) (l : list A) i x :
  (forall y, P (f y) <-> P y) ->
  list_find P l = Some (i, x) -> list_find P (alter f i l) = Some (i, f x).
Proof.
  intros Hf (Hi & Hp & Hlt)%list_find_Some. apply list_find_Some.
  split; [by rewrite list_lookup_alter_eq, Hi|]. split; [by apply Hf|].
  intros j y Hj Hji. rewrite list_lookup_alter_ne in Hj by lia. by eapply Hlt.
Qed.

Section Run.
Variable env : Env.
Hypothesis Hdb : no_db_fault env.

Lemma search_ldap_users_ok config entries w :
  fetch_succeeds env config entries ->
  search_ldap_users env config w
  = (Return (filter valid_user (user_data_of config <$> entries)),
     set_ldap_log
       (ldap_log w
        ++ [OpBind (LdapConfig.server_url config) (LdapConfig.bind_dn config)
              (LdapConfig.bind_password config);
            OpSearch (LdapConfig.base_dn config) (search_filter_of config)
              (search_attributes config);
            OpUnbind]) w).
Proof.
  intros [Hb Hs]. unfold search_answer in Hs.
  unfold search_ldap_users, _create_ldap_connection, conn_search,
    try_finally, try_except, bind, log_ldap, modify, ret.
  rewrite Hb. cbn. rewrite Hs. cbn.
  rewrite collect_users_filter. cbn [app]. f_equal.
  apply world_ext; cbn; try done. by rewrite <- !app_assoc.
Qed.

(** What a run that meets no failure returns and leaves, in terms of the
    two loops on the rows. *)
Lemma sync_ldap_users_ok t w ci config entries :
  enabled_config t (session w) = Some (ci, config) ->
  fetch_succeeds env config entries ->
  let recs := filter valid_user (user_data_of config <$> entries) in
  let A := sync_rows env t recs (ldap_users (session w)) (clock_reads w) (inserts w) in
  let us := elements (existing_uids t (session w) ∖ current_uids recs) in
  let B := disable_rows env t us A.1.1 A.1.2 in
  let n := Z.of_nat (A.2 - inserts w) in
  exists w',
    sync_ldap_users env t w
    = (Return (mkStats (Z.of_nat (length recs)) n (Z.of_nat (length recs) - n)
                 (Z.of_nat (B.2 - A.1.2))), w')
    /\ session w'
       = mkDatabase
           (alter (LdapConfig.set_updated_at (utc_clock env (S B.2))) ci
              (alter (LdapConfig.set_last_sync_at (Some (utc_clock env B.2))) ci
                 (ldap_configs (session w))))
           B.1 (accounts (session w)) (tenant_account_joins (session w))
    /\ committed w' = session w'
    /\ clock_reads w' = S (S B.2)
    /\ inserts w' = A.2.
Proof.
  intros Hcfg Hfetch recs A us B n.
  unfold sync_ldap_users, bind. rewrite get_ldap_config_ok by apply Hdb.
  rewrite Hcfg. rewrite (search_ldap_users_ok config entries) by done.
  unfold query_existing_users. rewrite db_execute_ok by done.
  fold recs.
  match goal with |- context [sync_loop env t recs ?st ?w1] =>
    pose proof (sync_loop_run env Hdb t recs st w1) as HA end.
  cbn [session set_ldap_log set_db_stmts clock_reads inserts] in HA.
  fold A in HA. destruct A as [[rowsA cA] insA] eqn:HeqA.
  destruct HA as [HA HinsA]. cbn [session set_ldap_log set_db_stmts].
  rewrite HA.
  match goal with |- context [disable_loop env t ?l ?st ?w1] =>
    pose proof (disable_loop_run env Hdb t l st w1) as HB end.
  cbn [with_rows session set_ldap_users ldap_users clock_reads] in HB.
  change (list_to_set (LdapUser.ldap_uid <$> filter _ (ldap_users (session w))))
    with (existing_uids t (session w)) in HB |- *.
  change (list_to_set (uid <$> recs)) with (current_uids recs) in HB |- *.
  fold us in HB |- *. cbn [fst snd] in B. fold B in HB.
  destruct B as [rowsB cB] eqn:HeqB. destruct HB as [HB HcB].
  rewrite HB.
  unfold naive_utc_now, setattr_ldap_config, modify, ret.
  cbn [with_rows clock_reads set_clock_reads session set_session].
  rewrite commit_ok by done.
  eexists. split; [reflexivity|]. cbn. done.
Qed.
End Run.

(** ** The sets of uids *)

Lemma elem_of_existing_uids t d u :
  u ∈ existing_uids t d <-> (t, u) ∈ row_key <$> ldap_users d.
Proof.
  unfold existing_uids. rewrite elem_of_list_to_set, !list_elem_of_fmap. split.
  - intros (r & -> & [Ht Hr]%list_elem_of_filter). exists r. split; [|done].
    unfold row_key. by rewrite <- Ht.
  - intros (r & Hk & Hr). injection Hk as Ht Hu. exists r. split; [done|].
    by apply list_elem_of_filter.
Qed.

Lemma elem_of_current_uids recs u :
  u ∈ current_uids recs <-> exists ud, ud ∈ recs /\ uid ud = u.
Proof.
  unfold current_uids. rewrite elem_of_list_to_set, list_elem_of_fmap.
  split; intros (ud & ? & ?); exists ud; done.
Qed.

Lemma not_current_key t recs r :
  LdapUser.ldap_uid r ∉ current_uids recs ->
  forall ud, ud ∈ recs -> row_key r <> (t, uid ud).
Proof.
  intros Hn ud Hud [= _ Hu]. apply Hn, elem_of_current_uids. by exists ud.
Qed.

Lemma sync_rows_keys env t recs rows c ins :
  unique_tenant_ldap_user rows ->
  exists N,
    row_key <$> (sync_rows env t recs rows c ins).1.1 = row_key <$> (rows ++ N)
    /\ NoDup (row_key <$> (rows ++ N))
    /\ (forall n, n ∈ N -> exists ud, ud ∈ recs /\ row_key n = (t, uid ud))
    /\ ((sync_rows env t recs rows c ins).2 = ins + length N)%nat
    /\ (forall ud, ud ∈ recs -> (t, uid ud) ∈ row_key <$> (rows ++ N))
    /\ content <$> (sync_rows env t recs rows c ins).1.1
       = touch_all t recs <$> ((content <$> rows) ++ N).
Proof.
  intros Hu. destruct (sync_rows_content env t recs rows c ins Hu)
    as (N & Hc & Hnd & HN & Hins & Hall).
  exists N. split; [|done].
  rewrite <- row_keys_content, Hc, <- list_fmap_compose.
  rewrite (list_fmap_ext (row_key ∘ touch_all t recs) row_key _)
    by (intros; apply row_key_touch_all).
  by rewrite !fmap_app, row_keys_content.
Qed.

Lemma disable_rows_keys env t us rows c :
  unique_tenant_ldap_user rows ->
  row_key <$> (disable_rows env t us rows c).1 = row_key <$> rows.
Proof.
  intros Hu. destruct (disable_rows_spec env t us rows c Hu) as [HF _].
  apply list_eq. intros j. rewrite !list_lookup_fmap.
  apply Forall2_same_length_lookup in HF as [Hlen HF].
  destruct (rows !! j) as [r|] eqn:Hr.
  - destruct (lookup_lt_is_Some_2 (disable_rows env t us rows c).1 j) as [r' Hr'].
    { rewrite <- Hlen. by eapply lookup_lt_Some. }
    rewrite Hr'. cbn. f_equal.
    destruct (HF j r r' Hr Hr') as [Hch Hsame].
    destruct (decide (to_disable t us r)) as [Hd|Hd].
    + by destruct (Hch Hd) as (k & _ & ->).
    + by rewrite Hsame.
  - apply lookup_ge_None in Hr. rewrite Hlen in Hr.
    apply lookup_ge_None in Hr. by rewrite Hr.
Qed.

(** ** C3: rows are disabled, never deleted *)

Lemma find_user_unique t u (rows : list LdapUser.t) i x :
  unique_tenant_ldap_user rows -> rows !! i = Some x -> row_key x = (t, u) ->
  find_user t u rows = Some (i, x).
Proof.
  intros Hu Hi Hk.
  destruct (find_user_is_Some t u rows) as [[j y] Hf].
  { rewrite <- Hk. apply list_elem_of_fmap. exists x. split; [done|].
    by eapply list_elem_of_lookup_2. }
  pose proof Hf as [Hj Hky]%find_user_Some.
  assert (j = i) as -> by (eapply (unique_lookup rows j i y x); congruence).
  rewrite Hi in Hj. by injection Hj as ->.
Qed.

Lemma keys_tenant_count t : forall (l1 l2 : list LdapUser.t),
  row_key <$> l1 = row_key <$> l2 ->
  length (filter (fun u => LdapUser.tenant_id u = t) l1)
  = length (filter (fun u => LdapUser.tenant_id u = t) l2).
Proof.
  induction l1 as [|a l1 IH]; intros [|b l2] Hk; try done.
  cbn in Hk. injection Hk as Ht _ Hk. rewrite !filter_cons.
  specialize (IH l2 Hk).
  destruct (decide (LdapUser.tenant_id a = t)), (decide (LdapUser.tenant_id b = t));
    cbn; congruence.
Qed.

(** The first loop leaves alone the rows the second loop will disable. *)
Lemma sync_rows_filter_vanished env t us recs : forall rows c ins,
  (forall u, u ∈ us -> u ∉ current_uids recs) ->
  filter (to_disable t us) (sync_rows env t recs rows c ins).1.1
  = filter (to_disable t us) rows.
Proof.
  induction recs as [|ud rest IH]; intros rows c ins Hus; [done|].
  assert (Hus' : forall u, u ∈ us -> u ∉ current_uids rest).
  { intros u Hu Hin. apply (Hus u Hu). apply elem_of_current_uids.
    apply elem_of_current_uids in Hin as (ud' & ? & ?). exists ud'. split; [by right|done]. }
  assert (Hud : uid ud ∉ us).
  { intros Hin. apply (Hus _ Hin), elem_of_current_uids. exists ud. split; [by left|done]. }
  cbn [sync_rows]. destruct (find_user t (uid ud) rows) as [[i u]|] eqn:Hf.
  - apply find_user_Some in Hf as [Hi Hk]. injection Hk as Ht Hu.
    rewrite IH by done.
    rewrite insert_take_drop by by eapply lookup_lt_Some.
    rewrite <- (take_drop_middle rows i u Hi) at 3.
    rewrite !filter_app, !filter_cons.
    rewrite !decide_False; [done|..].
    all: intros (_ & Hin & _); cbn in Hin; by rewrite Hu in Hin.
  - rewrite IH by done. rewrite filter_app, filter_cons, filter_nil.
    rewrite decide_False; [by rewrite app_nil_r|].
    intros (_ & Hin & _). by cbn in Hin.
Qed.

Section NeverDeleted.
Variable env : Env.
Hypothesis Hdb : no_db_fault env.

Lemma to_disable_vanished t d recs r :
  r ∈ ldap_users d ->
  to_disable t (elements (existing_uids t d ∖ current_uids recs)) r
  <-> vanished_enabled t recs r.
Proof.
  intros Hr. unfold to_disable, vanished_enabled.
  rewrite elem_of_elements, elem_of_difference, elem_of_existing_uids.
  split; [by intros (Ht & [_ Hn] & He)|].
  intros (Ht & Hn & He). split; [done|]. split; [|done].
  split; [|done]. apply list_elem_of_fmap. exists r. split; [|done].
  unfold row_key. by rewrite Ht.
Qed.

Lemma sync_ldap_users_rows t w ci config entries :
  enabled_config t (session w) = Some (ci, config) ->
  fetch_succeeds env config entries ->
  unique_tenant_ldap_user (ldap_users (session w)) ->
  let recs := filter valid_user (user_data_of config <$> entries) in
  let us := elements (existing_uids t (session w) ∖ current_uids recs) in
  let A := sync_rows env t recs (ldap_users (session w)) (clock_reads w) (inserts w) in
  let B := disable_rows env t us A.1.1 A.1.2 in
  exists stats w',
    sync_ldap_users env t w = (Return stats, w')
    /\ ldap_users (session w') = B.1
    /\ clock_reads w' = S (S B.2)
    /\ committed w' = session w'
    /\ total stats = Z.of_nat (length recs)
    /\ created stats = Z.of_nat (A.2 - inserts w)
    /\ updated stats = total stats - created stats
    /\ disabled stats = Z.of_nat (length (filter (vanished_enabled t recs)
                                            (ldap_users (session w))))
    /\ unique_tenant_ldap_user A.1.1
    /\ unique_tenant_ldap_user B.1
    /\ (clock_reads w <= A.1.2 <= B.2)%nat
    /\ Forall2 (disable_spec env t us A.1.2 B.2) A.1.1 B.1.
Proof.
  intros Hcfg Hfetch Hu recs us A B.
  destruct (sync_ldap_users_ok env Hdb t w ci config entries Hcfg Hfetch)
    as (w' & Hrun & Hs & Hc & Hclk & Hins).
  fold recs A us B in Hrun, Hs, Hclk, Hins.
  assert (HuA : unique_tenant_ldap_user A.1.1) by by apply sync_rows_unique.
  destruct (disable_rows_spec env t us A.1.1 A.1.2 HuA) as [HF HcB].
  fold B in HF, HcB.
  eexists _, w'. split; [exact Hrun|]. cbn [total created updated disabled].
  split; [by rewrite Hs|]. split; [done|]. split; [done|]. split; [done|].
  split; [done|]. split; [done|]. split.
  { unfold B. rewrite disable_rows_count by done.
    assert (Hfil : filter (to_disable t us) A.1.1
                   = filter (vanished_enabled t recs) (ldap_users (session w))).
    { unfold A. rewrite sync_rows_filter_vanished.
      - apply filter_ext_elem. intros r Hr. by apply to_disable_vanished.
      - intros u [_ Hn]%elem_of_elements%elem_of_difference. done. }
    rewrite Hfil. f_equal. lia. }
  split; [done|]. split; [by apply disable_rows_unique|].
  split; [|done]. split; [apply sync_rows_clock|done].
Qed.
End NeverDeleted.

(** C3.  A run of [sync_ldap_users] that meets no failure deletes no row:
    for every tenant the number of its rows does not decrease.  For every
    uid of the tenant that the directory no longer has, the row is still
    found under that uid at the same place; if it was enabled it is now
    the same row with [enabled] false and [updated_at] set to a time read
    from the clock during the run (its [account_id], uid, email, name,
    distinguished name and the rest are unchanged); if it was disabled it
    is unchanged.  [disabled] counts exactly the rows of the tenant that
    were enabled and whose uid the directory no longer has. *)
Theorem sync_disables_and_never_deletes (env : Env) (tenant_id : string) (w : World)
    (ci : nat) (config : LdapConfig.t) (entries : list Entry)
    (Hdb : no_db_fault env)
    (Hcfg : enabled_config tenant_id (session w) = Some (ci, config))
    (Hfetch : fetch_succeeds env config entries)
    (Huniq : unique_tenant_ldap_user (ldap_users (session w))) :
  let recs := filter valid_user (user_data_of config <$> entries) in
  exists stats w',
    sync_ldap_users env tenant_id w = (Return stats, w')
    /\ (forall t, (length (tenant_rows t (session w))
                   <= length (tenant_rows t (session w')))%nat)
    /\ (forall u, u ∈ existing_uids tenant_id (session w) ∖ current_uids recs ->
         exists i r,
           find_user tenant_id u (ldap_users (session w)) = Some (i, r)
           /\ if LdapUser.enabled r
              then exists k,
                     (clock_reads w <= k < clock_reads w')%nat
                     /\ find_user tenant_id u (ldap_users (session w'))
                        = Some (i, disabled_row (utc_clock env k) r)
              else find_user tenant_id u (ldap_users (session w')) = Some (i, r))
    /\ disabled stats
       = Z.of_nat (length (filter (vanished_enabled tenant_id recs)
                                  (ldap_users (session w))))
    /\ committed w' = session w'.
Proof.
  intros recs.
  destruct (sync_ldap_users_rows env Hdb tenant_id w ci config entries Hcfg Hfetch Huniq)
    as (stats & w' & Hrun & Hrows & Hclk & Hc & _ & _ & _ & Hdis & HuA & HuB & Hclock & HF).
  fold recs in Hrows, Hdis, HuA, HuB, Hclock, HF.
  set (us := elements (existing_uids tenant_id (session w) ∖ current_uids recs)) in *.
  set (A := sync_rows env tenant_id recs (ldap_users (session w)) (clock_reads w)
              (inserts w)) in *.
  set (B := disable_rows env tenant_id us A.1.1 A.1.2) in *.
  exists stats, w'. split; [done|]. split; [|split; [|done]].
  - intros t. unfold tenant_rows. rewrite Hrows.
    destruct (sync_rows_keys env tenant_id recs (ldap_users (session w))
                (clock_reads w) (inserts w) Huniq) as (N & Hk & _).
    rewrite (keys_tenant_count t B.1 (ldap_users (session w) ++ N)).
    + rewrite filter_app, length_app. lia.
    + unfold B. by rewrite disable_rows_keys.
  - intros u Hu. pose proof Hu as [Hex Hnc]%elem_of_difference.
    apply elem_of_existing_uids, find_user_is_Some in Hex as [[i r] Hf].
    exists i, r. split; [done|].
    apply find_user_Some in Hf as [Hi Hk]. pose proof Hk as [= Ht Huid].
    assert (HA : A.1.1 !! i = Some r).
    { apply sync_rows_untouched; [done|]. apply not_current_key. by rewrite Huid. }
    apply Forall2_same_length_lookup in HF as [Hlen HF].
    destruct (lookup_lt_is_Some_2 B.1 i) as [r' HB].
    { rewrite <- Hlen. by eapply lookup_lt_Some. }
    destruct (HF i r r' HA HB) as [Hch Hsame]. rewrite Hrows.
    destruct (LdapUser.enabled r) eqn:He.
    + destruct Hch as (k & Hk1 & ->).
      { split; [done|]. split; [|done]. rewrite Huid. by apply elem_of_elements. }
      exists k. split; [|by apply find_user_unique].
      rewrite Hclk. clear -Hclock Hk1. unfold B, A, us, recs in *. lia.
    + rewrite Hsame in HB by (intros (_ & _ & ?); congruence).
      by apply find_user_unique.
Qed.

(** ** C4: the row of a known uid is updated in place *)

(** The first loop creates one row for every fetched uid that the tenant
    did not have. *)
Lemma sync_rows_created env t recs d c ins :
  unique_tenant_ldap_user (ldap_users d) ->
  ((sync_rows env t recs (ldap_users d) c ins).2 - ins)%nat
  = size (current_uids recs ∖ existing_uids t d).
Proof.
  intros Hu.
  destruct (sync_rows_keys env t recs (ldap_users d) c ins Hu)
    as (N & _ & Hnd & HN & -> & Hall & _).
  replace (ins + length N - ins)%nat with (length N) by lia.
  rewrite fmap_app in Hnd. apply NoDup_app in Hnd as (_ & Hdis & HndN).
  assert (Hkey : forall n, n ∈ N -> row_key n = (t, LdapUser.ldap_uid n)).
  { intros n Hn. destruct (HN n Hn) as (ud & _ & Hk). injection Hk as Ht _.
    unfold row_key. by rewrite Ht. }
  assert (HndU : NoDup (LdapUser.ldap_uid <$> N)).
  { apply NoDup_fmap_2_strong; [|by eapply NoDup_fmap_1].
    intros x y Hx Hy Hxy.
    assert (Hk : row_key x = row_key y) by (rewrite !Hkey by done; by rewrite Hxy).
    apply list_elem_of_lookup in Hx as [i Hi], Hy as [j Hj].
    assert (i = j) as -> by by eapply (unique_lookup N i j x y).
    congruence. }
  rewrite <- (length_fmap LdapUser.ldap_uid N).
  rewrite <- (size_list_to_set (C := gset string) (LdapUser.ldap_uid <$> N)) by done.
  f_equal. apply set_eq. intros u.
  rewrite elem_of_list_to_set, elem_of_difference, elem_of_existing_uids,
    elem_of_current_uids, list_elem_of_fmap.
  split.
  - intros (n & -> & Hn). destruct (HN n Hn) as (ud & Hud & Hk).
    pose proof Hk as [= _ Hu']. split; [by exists ud|].
    intros Hin. apply (Hdis _ Hin). rewrite <- Hkey by done.
    apply list_elem_of_fmap. by exists n.
  - intros [(ud & Hud & <-) Hnot].
    specialize (Hall ud Hud). rewrite fmap_app in Hall.
    apply elem_of_app in Hall as [Hin|Hin]; [done|].
    apply list_elem_of_fmap in Hin as (n & Hk & Hn).
    exists n. split; [|done]. rewrite Hkey in Hk by done. by injection Hk.
Qed.

(** C4.  In a run of [sync_ldap_users] that meets no failure, every fetched
    record whose uid already has a row in the tenant leaves that row where
    it was, found under the same uid, with the same [id], [account_id] and
    [created_at]; its email, name and distinguished name are those of the
    last fetched record with that uid (the record itself, unless a later
    one repeats its uid) and it is enabled, whether it was before or not.
    No second row comes to exist for a pair of tenant and uid.  [created]
    is the number of distinct fetched uids that had no row, and [updated]
    counts every other fetched record: a record whose uid had a row is
    counted in [updated], never in [created]. *)
Theorem sync_updates_existing_rows_in_place (env : Env) (tenant_id : string)
    (w : World) (ci : nat) (config : LdapConfig.t) (entries : list Entry)
    (Hdb : no_db_fault env)
    (Hcfg : enabled_config tenant_id (session w) = Some (ci, config))
    (Hfetch : fetch_succeeds env config entries)
    (Huniq : unique_tenant_ldap_user (ldap_users (session w))) :
  let recs := filter valid_user (user_data_of config <$> entries) in
  exists stats w',
    sync_ldap_users env tenant_id w = (Return stats, w')
    /\ (forall ud0 i r,
         ud0 ∈ recs ->
         find_user tenant_id (uid ud0) (ldap_users (session w)) = Some (i, r) ->
         exists ud r',
           last_with_uid recs (uid ud0) = Some ud
           /\ find_user tenant_id (uid ud0) (ldap_users (session w')) = Some (i, r')
           /\ LdapUser.id r' = LdapUser.id r
           /\ LdapUser.account_id r' = LdapUser.account_id r
           /\ LdapUser.created_at r' = LdapUser.created_at r
           /\ LdapUser.email r' = email ud
           /\ LdapUser.name r' = name ud
           /\ LdapUser.ldap_dn r' = dn ud
           /\ LdapUser.enabled r' = true)
    /\ unique_tenant_ldap_user (ldap_users (session w'))
    /\ total stats = Z.of_nat (length recs)
    /\ created stats
       = Z.of_nat (size (current_uids recs ∖ existing_uids tenant_id (session w)))
    /\ updated stats = total stats - created stats.
Proof.
  intros recs.
  destruct (sync_ldap_users_rows env Hdb tenant_id w ci config entries Hcfg Hfetch Huniq)
    as (stats & w' & Hrun & Hrows & Hclk & Hc & Htot & Hcre & Hupd & _ & HuA & HuB
        & Hclock & HF).
  fold recs in Hrows, Htot, Hcre, HuA, HuB, HF.
  set (us := elements (existing_uids tenant_id (session w) ∖ current_uids recs)) in *.
  set (A := sync_rows env tenant_id recs (ldap_users (session w)) (clock_reads w)
              (inserts w)) in *.
  set (B := disable_rows env tenant_id us A.1.1 A.1.2) in *.
  exists stats, w'. split; [done|]. split; [|split; [by rewrite Hrows|]].
  - intros ud0 i r Hud0 Hf. apply find_user_Some in Hf as [Hi Hk].
    pose proof Hk as [= Ht Huid].
    destruct (last_with_uid recs (uid ud0)) as [ud|] eqn:Hlast.
    2:{ apply last_with_uid_None in Hlast. destruct Hlast.
        apply list_elem_of_fmap. by exists ud0. }
    destruct (sync_rows_keys env tenant_id recs (ldap_users (session w))
                (clock_reads w) (inserts w) Huniq) as (N & _ & _ & _ & _ & _ & Hcont).
    fold A in Hcont.
    assert (HcA : (content <$> A.1.1) !! i
                  = Some (refreshed ud 0 0 (content r))).
    { rewrite Hcont, list_lookup_fmap, lookup_app_l
        by (rewrite length_fmap; by eapply lookup_lt_Some).
      rewrite list_lookup_fmap, Hi. cbn. f_equal.
      rewrite touch_all_last by done. cbn. by rewrite Huid, Hlast. }
    rewrite list_lookup_fmap in HcA.
    destruct (A.1.1 !! i) as [a|] eqn:HA; [|done].
    apply (inj Some) in HcA.
    apply Forall2_same_length_lookup in HF as [Hlen HF].
    destruct (lookup_lt_is_Some_2 B.1 i) as [r' HB].
    { rewrite <- Hlen. by eapply lookup_lt_Some. }
    destruct (HF i a r' HA HB) as [_ Hsame].
    assert (Hua : LdapUser.ldap_uid a = uid ud0).
    { change (LdapUser.ldap_uid (content a) = uid ud0). by rewrite HcA. }
    rewrite Hsame in HB.
    2:{ intros (_ & [_ Hn]%elem_of_elements%elem_of_difference & _).
        apply Hn, elem_of_current_uids. by exists ud0. }
    exists ud, a. split; [done|]. rewrite Hrows. split.
    { apply find_user_unique; [done..|]. unfold row_key. rewrite Hua.
      change (LdapUser.tenant_id a) with (LdapUser.tenant_id (content a)).
      rewrite HcA. cbn. by rewrite Ht. }
    change (LdapUser.id (content a) = LdapUser.id r
            /\ LdapUser.account_id (content a) = LdapUser.account_id r
            /\ LdapUser.created_at (content a) = LdapUser.created_at r
            /\ LdapUser.email (content a) = email ud
            /\ LdapUser.name (content a) = name ud
            /\ LdapUser.ldap_dn (content a) = dn ud
            /\ LdapUser.enabled (content a) = true).
    by rewrite HcA.
  - split; [done|]. split; [|done]. rewrite Hcre. f_equal.
    apply (sync_rows_created env tenant_id recs (session w)). done.
Qed.

(** ** C8: which records the fetch skips *)

(** After the first loop every row of the tenant whose uid was fetched
    says what the last fetched record with that uid says. *)
Lemma sync_rows_current env t recs rows c ins a ud :
  unique_tenant_ldap_user rows ->
  a ∈ (sync_rows env t recs rows c ins).1.1 ->
  LdapUser.tenant_id a = t ->
  last_with_uid recs (LdapUser.ldap_uid a) = Some ud ->
  content a = refreshed ud 0 0 (content a).
Proof.
  intros Hu Ha Ht Hlast.
  destruct (sync_rows_keys env t recs rows c ins Hu) as (N & _ & _ & _ & _ & _ & Hc).
  assert (Hin : content a ∈ content <$> (sync_rows env t recs rows c ins).1.1)
    by (apply list_elem_of_fmap; by exists a).
  rewrite Hc in Hin. apply list_elem_of_fmap in Hin as (x & Hx & _).
  assert (Hkx : row_key x = row_key a)
    by (rewrite <- (row_key_content a), Hx; by rewrite row_key_touch_all).
  injection Hkx as Htx Hux.
  rewrite touch_all_last in Hx by congruence.
  rewrite Hux, Hlast in Hx. by rewrite Hx.
Qed.

Lemma valid_user_fetched config (entries : list Entry) ud :
  ud ∈ filter valid_user (user_data_of config <$> entries) ->
  uid ud <> "" /\ email ud <> "".
Proof. by intros [? _]%list_elem_of_filter. Qed.

(** The uids the tenant has rows for after both loops. *)
Lemma sync_run_existing env t recs d c ins us u :
  unique_tenant_ldap_user (ldap_users d) ->
  (t, u) ∈ row_key <$>
             (disable_rows env t us (sync_rows env t recs (ldap_users d) c ins).1.1
                (sync_rows env t recs (ldap_users d) c ins).1.2).1
  <-> u ∈ existing_uids t d ∨ u ∈ current_uids recs.
Proof.
  intros Hu.
  destruct (sync_rows_keys env t recs (ldap_users d) c ins Hu)
    as (N & Hk & _ & HN & _ & Hall & _).
  rewrite disable_rows_keys by by apply sync_rows_unique.
  rewrite Hk, fmap_app, elem_of_app, elem_of_existing_uids. split.
  - intros [Hin|Hin]; [by left|right].
    apply list_elem_of_fmap in Hin as (n & Hkn & Hn).
    destruct (HN n Hn) as (ud & Hud & Hkud).
    apply elem_of_current_uids. exists ud. split; [done|]. congruence.
  - intros [Hin|Hin]; [by left|].
    apply elem_of_current_uids in Hin as (ud & Hud & <-).
    rewrite <- elem_of_app, <- fmap_app. by apply Hall.
Qed.

(** A row after the second loop is a row after the first, disabled or
    not. *)
Lemma disable_rows_elem env t us rows c r' :
  unique_tenant_ldap_user rows ->
  r' ∈ (disable_rows env t us rows c).1 ->
  exists a, a ∈ rows
            /\ ((to_disable t us a /\ exists k, r' = disabled_row (utc_clock env k) a)
                \/ (~ to_disable t us a /\ r' = a)).
Proof.
  intros Hu [i Hi]%list_elem_of_lookup.
  destruct (disable_rows_spec env t us rows c Hu) as [HF _].
  apply Forall2_same_length_lookup in HF as [Hlen HF].
  destruct (lookup_lt_is_Some_2 rows i) as [a Ha].
  { rewrite Hlen. by eapply lookup_lt_Some. }
  exists a. split; [by eapply list_elem_of_lookup_2|].
  destruct (HF i a r' Ha Hi) as [Hch Hsame].
  destruct (decide (to_disable t us a)) as [Hd|Hd].
  - left. split; [done|]. destruct (Hch Hd) as (k & _ & ->). by exists k.
  - right. split; [done|]. by apply Hsame.
Qed.

(** What the loop of lines 117-130 does skip.  [search_ldap_users]
    returns, in order, exactly the fetched records whose uid and email,
    as [str()] gives them, are both not the empty text; it raises nothing
    for the others.  [total] is the number of the records returned.  After
    the run the uids the tenant has rows for are those it had and those
    of the records returned, so a record that was skipped has produced no
    row; and every row under a fetched uid has a non-empty uid and a
    non-empty email. *)
Theorem sync_skips_invalid_records (env : Env) (tenant_id : string) (w : World)
    (ci : nat) (config : LdapConfig.t) (entries : list Entry)
    (Hdb : no_db_fault env)
    (Hcfg : enabled_config tenant_id (session w) = Some (ci, config))
    (Hfetch : fetch_succeeds env config entries)
    (Huniq : unique_tenant_ldap_user (ldap_users (session w))) :
  let recs := filter valid_user (user_data_of config <$> entries) in
  (forall w0, exists w1, search_ldap_users env config w0 = (Return recs, w1))
  /\ exists stats w',
       sync_ldap_users env tenant_id w = (Return stats, w')
       /\ total stats = Z.of_nat (length recs)
       /\ existing_uids tenant_id (session w')
          = existing_uids tenant_id (session w) ∪ current_uids recs
       /\ (forall r, r ∈ ldap_users (session w') ->
                     LdapUser.tenant_id r = tenant_id ->
                     LdapUser.ldap_uid r ∈ current_uids recs ->
                     LdapUser.ldap_uid r <> "" /\ LdapUser.email r <> "").
Proof.
  intros recs. split.
  { intros w0. eexists. by apply search_ldap_users_ok. }
  destruct (sync_ldap_users_rows env Hdb tenant_id w ci config entries Hcfg Hfetch Huniq)
    as (stats & w' & Hrun & Hrows & _ & _ & Htot & _ & _ & _ & HuA & _ & _ & HF).
  fold recs in Hrows, Htot, HuA, HF.
  set (us := elements (existing_uids tenant_id (session w) ∖ current_uids recs)) in *.
  set (A := sync_rows env tenant_id recs (ldap_users (session w)) (clock_reads w)
              (inserts w)) in *.
  set (B := disable_rows env tenant_id us A.1.1 A.1.2) in *.
  destruct (sync_rows_keys env tenant_id recs (ldap_users (session w))
              (clock_reads w) (inserts w) Huniq) as (N & Hk & _ & HN & _ & Hall & _).
  fold A in Hk.
  exists stats, w'. split; [done|]. split; [done|]. split.
  - apply set_eq. intros u.
    rewrite elem_of_union, (elem_of_existing_uids tenant_id (session w')), Hrows.
    by apply sync_run_existing.
  - intros r Hr Ht Hcur. rewrite Hrows in Hr.
    apply list_elem_of_lookup in Hr as [i Hi].
    apply Forall2_same_length_lookup in HF as [Hlen HF].
    destruct (lookup_lt_is_Some_2 A.1.1 i) as [a HA].
    { rewrite Hlen. by eapply lookup_lt_Some. }
    destruct (HF i a r HA Hi) as [Hch Hsame].
    assert (Hkey : row_key r = row_key a).
    { destruct (decide (to_disable tenant_id us a)) as [Hd|Hd].
      - by destruct (Hch Hd) as (k & _ & ->).
      - by rewrite Hsame. }
    injection Hkey as Hta Hua.
    rewrite Hsame in Hi.
    2:{ intros (_ & [_ Hn]%elem_of_elements%elem_of_difference & _).
        apply Hn. by rewrite <- Hua. }
    rewrite Hsame in Hcur |- *.
    2,3: intros (_ & [_ Hn]%elem_of_elements%elem_of_difference & _);
         apply Hn; by rewrite <- Hua.
    destruct (last_with_uid recs (LdapUser.ldap_uid a)) as [ud|] eqn:Hlast.
    2:{ apply last_with_uid_None in Hlast. destruct Hlast.
        apply elem_of_current_uids in Hcur as (ud & ? & ?).
        apply list_elem_of_fmap. by exists ud. }
    pose proof (sync_rows_current env tenant_id recs (ldap_users (session w))
                  (clock_reads w) (inserts w) a ud Huniq) as Hcont.
    fold A in Hcont. specialize (Hcont (list_elem_of_lookup_2 _ _ _ HA)).
    rewrite <- Hta in Hcont. specialize (Hcont Ht Hlast).
    apply last_with_uid_Some in Hlast as [Hud Huid].
    apply valid_user_fetched in Hud as [Hu1 Hu2].
    split; [by rewrite <- Huid|].
    change (LdapUser.email (content a) <> ""). by rewrite Hcont.
Qed.

(** ** C2: a second run over an unchanged directory *)

Section Idempotence.
Variable env : Env.
Hypothesis Hdb : no_db_fault env.

(** A run leaves the configuration in place, with new timestamps only. *)
Lemma sync_ldap_users_config t w ci config entries stats w' :
  enabled_config t (session w) = Some (ci, config) ->
  fetch_succeeds env config entries ->
  sync_ldap_users env t w = (Return stats, w') ->
  exists config',
    enabled_config t (session w') = Some (ci, config')
    /\ fetch_succeeds env config' entries
    /\ user_data_of config' = user_data_of config
    /\ accounts (session w') = accounts (session w)
    /\ tenant_account_joins (session w') = tenant_account_joins (session w).
Proof.
  intros Hcfg Hfetch Hrun.
  destruct (sync_ldap_users_ok env Hdb t w ci config entries Hcfg Hfetch)
    as (w'' & Hrun' & Hs & _).
  rewrite Hrun in Hrun'. injection Hrun' as _ <-.
  unfold enabled_config in *. rewrite Hs. cbn [ldap_configs accounts
    tenant_account_joins].
  match goal with
  | |- context [alter (LdapConfig.set_updated_at ?t2) ci
                  (alter (LdapConfig.set_last_sync_at ?t1) ci _)] =>
      exists (LdapConfig.set_updated_at t2 (LdapConfig.set_last_sync_at t1 config))
  end.
  split; [|split; [exact Hfetch|done]].
  apply (list_find_alter_same _ (LdapConfig.set_updated_at _)); [done|].
  apply (list_find_alter_same _ (LdapConfig.set_last_sync_at _)); [done|].
  exact Hcfg.
Qed.

(** After a run no enabled row of the tenant has a uid that the
    directory does not have. *)
Lemma sync_run_none_vanished t recs d c ins r :
  unique_tenant_ldap_user (ldap_users d) ->
  let A := sync_rows env t recs (ldap_users d) c ins in
  let us := elements (existing_uids t d ∖ current_uids recs) in
  r ∈ (disable_rows env t us A.1.1 A.1.2).1 ->
  ~ vanished_enabled t recs r.
Proof.
  intros Hu A us Hr (Ht & Hn & He).
  assert (HuA : unique_tenant_ldap_user A.1.1) by by apply sync_rows_unique.
  assert (Hkey : (t, LdapUser.ldap_uid r)
                 ∈ row_key <$> (disable_rows env t us A.1.1 A.1.2).1).
  { apply list_elem_of_fmap. exists r. split; [|done]. unfold row_key. by rewrite Ht. }
  apply sync_run_existing in Hkey as [Hex|Hcur]; [|done..].
  destruct (disable_rows_elem env t us A.1.1 A.1.2 r HuA Hr)
    as (a & Ha & [[Hd (k & ->)]|[Hd ->]]); [done|].
  apply Hd. split; [done|]. split; [|done].
  apply elem_of_elements, elem_of_difference. done.
Qed.

(** After a run the fetched records have nothing left to change in the
    rows, timestamps apart. *)
Lemma sync_run_fixed t recs d c ins r :
  unique_tenant_ldap_user (ldap_users d) ->
  let A := sync_rows env t recs (ldap_users d) c ins in
  let us := elements (existing_uids t d ∖ current_uids recs) in
  r ∈ (disable_rows env t us A.1.1 A.1.2).1 ->
  touch_all t recs (content r) = content r.
Proof.
  intros Hu A us Hr.
  assert (HuA : unique_tenant_ldap_user A.1.1) by by apply sync_rows_unique.
  destruct (decide (LdapUser.tenant_id r = t)) as [Ht|Ht].
  2:{ apply touch_all_other. intros ud _ [= ? _]. done. }
  rewrite touch_all_last by done. cbn [content LdapUser.ldap_uid
    LdapUser.set_last_sync_at LdapUser.set_updated_at].
  destruct (last_with_uid recs (LdapUser.ldap_uid r)) as [ud|] eqn:Hlast; [|done].
  destruct (disable_rows_elem env t us A.1.1 A.1.2 r HuA Hr)
    as (a & Ha & [[Hd (k & ->)]|[Hd ->]]).
  - destruct Hd as (_ & [_ Hn]%elem_of_elements%elem_of_difference & _).
    destruct Hn. apply last_with_uid_Some in Hlast as [Hud Huid].
    apply elem_of_current_uids. by exists ud.
  - symmetry. by eapply (sync_rows_current env t recs (ldap_users d) c ins).
Qed.
End Idempotence.

(** When the fetched uids are distinct and each has a row, the rows of the
    tenant under a fetched uid are as many as the fetched records. *)
Lemma fetched_rows_count t recs (rows : list LdapUser.t) :
  unique_tenant_ldap_user rows ->
  (forall u, u ∈ current_uids recs -> (t, u) ∈ row_key <$> rows) ->
  NoDup (uid <$> recs) ->
  length (filter (fetched_row t recs) rows) = length recs.
Proof.
  intros Hu Hall Hnd.
  rewrite <- (length_fmap uid recs).
  rewrite <- (size_list_to_set (C := gset string) (uid <$> recs)) by done.
  rewrite <- (length_fmap LdapUser.ldap_uid (filter (fetched_row t recs) rows)).
  rewrite <- (size_list_to_set (C := gset string)
                (LdapUser.ldap_uid <$> filter (fetched_row t recs) rows)).
  - f_equal. apply set_eq. intros u.
    rewrite !elem_of_list_to_set, list_elem_of_fmap. split.
    + intros (r & -> & [[_ Hcur] _]%list_elem_of_filter).
      unfold current_uids in Hcur. by apply elem_of_list_to_set in Hcur.
    + intros Hcur. apply (elem_of_list_to_set (C := gset string)) in Hcur.
      pose proof (Hall u Hcur) as (r & Hk & Hr)%list_elem_of_fmap.
      injection Hk as Ht Huid. exists r. split; [done|].
      apply list_elem_of_filter. split; [|done]. split; [done|]. by rewrite <- Huid.
  - apply NoDup_fmap_2_strong.
    + intros x y [[Htx _] Hx]%list_elem_of_filter [[Hty _] Hy]%list_elem_of_filter Hxy.
      apply list_elem_of_lookup in Hx as [i Hi], Hy as [j Hj].
      assert (i = j) as ->.
      { eapply (unique_lookup rows i j x y); [done..|]. unfold row_key. congruence. }
      congruence.
    + apply NoDup_filter. by eapply NoDup_fmap_1.
Qed.

(** C2, as the code has it.  When [sync_ldap_users] runs twice in a row
    for a tenant, the directory answering the same entries and no
    statement failing, the second run creates and disables nothing:
    [created] and [disabled] are 0, and [updated] equals [total], the
    number of valid fetched records; when no two of them share a uid,
    that is the number of rows of the tenant whose uid was fetched (the
    rows the run refreshes), not the number of all its rows.  Every row
    of [ldap_users] has after the second run the content it had after the
    first, its two timestamps [last_sync_at] and [updated_at] apart;
    accounts and memberships are not touched. *)
Theorem sync_twice_is_idempotent (env : Env) (tenant_id : string) (w : World)
    (ci : nat) (config : LdapConfig.t) (entries : list Entry)
    (Hdb : no_db_fault env)
    (Hcfg : enabled_config tenant_id (session w) = Some (ci, config))
    (Hfetch : fetch_succeeds env config entries)
    (Huniq : unique_tenant_ldap_user (ldap_users (session w))) :
  let recs := filter valid_user (user_data_of config <$> entries) in
  exists stats1 w1 stats2 w2,
    sync_ldap_users env tenant_id w = (Return stats1, w1)
    /\ sync_ldap_users env tenant_id w1 = (Return stats2, w2)
    /\ created stats2 = 0
    /\ disabled stats2 = 0
    /\ total stats2 = Z.of_nat (length recs)
    /\ updated stats2 = total stats2
    /\ (NoDup (uid <$> recs) ->
        updated stats2
        = Z.of_nat (length (filter (fetched_row tenant_id recs)
                                   (ldap_users (session w1)))))
    /\ content <$> ldap_users (session w2) = content <$> ldap_users (session w1)
    /\ accounts (session w2) = accounts (session w1)
    /\ tenant_account_joins (session w2) = tenant_account_joins (session w1).
Proof.
  intros recs.
  destruct (sync_ldap_users_rows env Hdb tenant_id w ci config entries Hcfg Hfetch Huniq)
    as (stats1 & w1 & Hrun1 & Hrows1 & _ & _ & _ & _ & _ & _ & _ & HuB1 & _ & _).
  fold recs in Hrows1, HuB1.
  destruct (sync_ldap_users_config env Hdb tenant_id w ci config entries stats1 w1
              Hcfg Hfetch Hrun1) as (config1 & Hcfg1 & Hfetch1 & Hud1 & _).
  assert (Huniq1 : unique_tenant_ldap_user (ldap_users (session w1)))
    by by rewrite Hrows1.
  destruct (sync_ldap_users_rows env Hdb tenant_id w1 ci config1 entries Hcfg1 Hfetch1
              Huniq1)
    as (stats2 & w2 & Hrun2 & Hrows2 & _ & _ & Htot2 & Hcre2 & Hupd2 & Hdis2 & HuA2
        & _ & _ & _).
  destruct (sync_ldap_users_config env Hdb tenant_id w1 ci config1 entries stats2 w2
              Hcfg1 Hfetch1 Hrun2) as (config2 & _ & _ & _ & Hacc & Hjoins).
  rewrite Hud1 in Hrows2, Htot2, Hcre2, Hdis2, HuA2. fold recs in Hrows2, Htot2, Hcre2, Hdis2, HuA2.
  set (A2 := sync_rows env tenant_id recs (ldap_users (session w1)) (clock_reads w1)
               (inserts w1)) in *.
  set (us2 := elements (existing_uids tenant_id (session w1) ∖ current_uids recs)) in *.
  (* nothing is created *)
  assert (Hsub : current_uids recs ∖ existing_uids tenant_id (session w1) = ∅).
  { apply set_eq. intros u. rewrite elem_of_difference, elem_of_existing_uids, Hrows1.
    split; [|by intros ?%not_elem_of_empty]. intros [Hcur Hnot]. destruct Hnot.
    apply sync_run_existing; [done|]. by right. }
  assert (Hcreated : (A2.2 - inserts w1 = 0)%nat).
  { unfold A2. rewrite (sync_rows_created env tenant_id recs (session w1)) by done.
    by rewrite Hsub, size_empty. }
  (* nothing is disabled *)
  assert (Hnone : forall r, r ∈ ldap_users (session w1) ->
                            ~ vanished_enabled tenant_id recs r).
  { intros r Hr. rewrite Hrows1 in Hr.
    exact (sync_run_none_vanished env tenant_id recs (session w) (clock_reads w)
             (inserts w) r Huniq Hr). }
  assert (Hfil : filter (vanished_enabled tenant_id recs) (ldap_users (session w1)) = []).
  { rewrite (filter_ext_elem _ (fun _ => False)); [apply filter_none|].
    intros r Hr. split; [by apply Hnone|done]. }
  assert (HB2 : disable_rows env tenant_id us2 A2.1.1 A2.1.2 = (A2.1.1, A2.1.2)).
  { apply disable_rows_noop; [done|]. intros r Hr Hd.
    assert (Hin : r ∈ filter (to_disable tenant_id us2) A2.1.1)
      by by apply list_elem_of_filter.
    unfold A2 in Hin. rewrite sync_rows_filter_vanished in Hin.
    2:{ intros u [_ Hn]%elem_of_elements%elem_of_difference. done. }
    apply list_elem_of_filter in Hin as [Hd' Hr'].
    apply (Hnone r Hr'). by apply (to_disable_vanished tenant_id (session w1) recs r). }
  (* the rows keep their content *)
  assert (Hcontent : content <$> A2.1.1 = content <$> ldap_users (session w1)).
  { destruct (sync_rows_keys env tenant_id recs (ldap_users (session w1))
                (clock_reads w1) (inserts w1) Huniq1) as (N & _ & _ & _ & HN & _ & Hc).
    fold A2 in HN, Hc.
    assert (N = []) as -> by (apply length_zero_iff_nil; lia).
    rewrite Hc, app_nil_r, <- list_fmap_compose.
    apply list_fmap_ext. intros i r Hi. cbn.
    apply (sync_run_fixed env tenant_id recs (session w) (clock_reads w) (inserts w)); [done|].
    rewrite <- Hrows1. by eapply list_elem_of_lookup_2. }
  exists stats1, w1, stats2, w2.
  split; [done|]. split; [done|]. split; [by rewrite Hcre2, Hcreated|].
  split; [by rewrite Hdis2, Hfil|]. split; [done|].
  assert (Hupdated : updated stats2 = total stats2)
    by (rewrite Hupd2, Hcre2, Hcreated; lia).
  split; [done|]. split.
  { intros Hnd. rewrite Hupdated, Htot2. f_equal. symmetry.
    apply fetched_rows_count; [done| |done].
    intros u Hcur. rewrite Hrows1. apply sync_run_existing; [done|]. by right. }
  split; [|done]. by rewrite Hrows2, HB2.
Qed.

Lemma ex_no_db_fault good answer : no_db_fault (ex_env good answer).
Proof. by intros n. Qed.

Lemma ex_fetch_succeeds :
  fetch_succeeds ex_env_sync (ex_config "t1" true) ex_entries.
Proof. by split. Qed.

Lemma ex_unique : unique_tenant_ldap_user (ldap_users ex_db_accounts).
Proof.
  unfold unique_tenant_ldap_user.
  apply (bool_decide_unpack (NoDup (row_key <$> ldap_users ex_db_accounts))).
  by vm_compute.
Qed.

Lemma sync_twice_is_idempotent_witness :
  exists stats1 w1 stats2 w2,
    sync_ldap_users ex_env_sync "t1" (ex_world ex_db_accounts) = (Return stats1, w1)
    /\ sync_ldap_users ex_env_sync "t1" w1 = (Return stats2, w2)
    /\ created stats2 = 0
    /\ disabled stats2 = 0
    /\ updated stats2 = 2.
Proof.
  destruct (sync_twice_is_idempotent ex_env_sync "t1" (ex_world ex_db_accounts)
              0%nat (ex_config "t1" true) ex_entries)
    as (s1 & w1 & s2 & w2 & H1 & H2 & Hc & Hd & Ht & Hu & _).
  - apply ex_no_db_fault.
  - reflexivity.
  - apply ex_fetch_succeeds.
  - apply ex_unique.
  - exists s1, w1, s2, w2. split; [exact H1|]. split; [exact H2|].
    split; [exact Hc|]. split; [exact Hd|]. rewrite Hu, Ht. reflexivity.
Defined.

(** C2 as the spec words it does not hold: after the first run the tenant
    has four mirrored users, two of them disabled because the directory
    no longer has them; the second run counts in [updated] the two that
    were fetched, not the four that exist. *)
Lemma sync_twice_counterexample :
  exists stats1 w1 stats2 w2,
    sync_ldap_users ex_env_sync "t1" (ex_world ex_db_accounts) = (Return stats1, w1)
    /\ sync_ldap_users ex_env_sync "t1" w1 = (Return stats2, w2)
    /\ updated stats2 = 2
    /\ Z.of_nat (length (tenant_rows "t1" (session w1))) = 4
    /\ updated stats2 <> Z.of_nat (length (tenant_rows "t1" (session w1))).
Proof.
  assert (H1 : sync_ldap_users ex_env_sync "t1" (ex_world ex_db_accounts) = ex_run1)
    by (vm_compute; reflexivity).
  assert (H2 : sync_ldap_users ex_env_sync "t1" ex_run1.2 = ex_run2)
    by (vm_compute; reflexivity).
  eexists _, ex_run1.2, _, ex_run2.2.
  split; [rewrite H1; reflexivity|]. split; [rewrite H2; reflexivity|].
  split; [reflexivity|]. split; [reflexivity|]. by vm_compute.
Qed.

Lemma sync_disables_and_never_deletes_witness :
  exists stats w',
    sync_ldap_users ex_env_sync "t1" (ex_world ex_db_accounts) = (Return stats, w')
    /\ disabled stats = 2
    /\ (length (tenant_rows "t1" ex_db_accounts)
        <= length (tenant_rows "t1" (session w')))%nat.
Proof.
  destruct (sync_disables_and_never_deletes ex_env_sync "t1" (ex_world ex_db_accounts)
              0%nat (ex_config "t1" true) ex_entries)
    as (stats & w' & Hrun & Hlen & _ & Hdis & _).
  - apply ex_no_db_fault.
  - reflexivity.
  - apply ex_fetch_succeeds.
  - apply ex_unique.
  - exists stats, w'. split; [exact Hrun|]. split; [|exact (Hlen "t1")].
    rewrite Hdis. reflexivity.
Defined.

Lemma sync_updates_existing_rows_in_place_witness :
  exists stats w',
    sync_ldap_users ex_env_sync "t1" (ex_world ex_db_accounts) = (Return stats, w')
    /\ created stats = 1
    /\ updated stats = 1.
Proof.
  destruct (sync_updates_existing_rows_in_place ex_env_sync "t1"
              (ex_world ex_db_accounts) 0%nat (ex_config "t1" true) ex_entries)
    as (stats & w' & Hrun & _ & _ & Htot & Hcre & Hupd).
  - apply ex_no_db_fault.
  - reflexivity.
  - apply ex_fetch_succeeds.
  - apply ex_unique.
  - exists stats, w'. split; [exact Hrun|].
    assert (Hc : created stats = 1) by (rewrite Hcre; reflexivity).
    split; [exact Hc|]. rewrite Hupd, Htot, Hc. reflexivity.
Defined.

Lemma sync_skips_invalid_records_witness :
  exists stats w',
    sync_ldap_users ex_env_sync "t1" (ex_world ex_db_accounts) = (Return stats, w')
    /\ total stats = 2.
Proof.
  destruct (sync_skips_invalid_records ex_env_sync "t1" (ex_world ex_db_accounts)
              0%nat (ex_config "t1" true) ex_entries)
    as (_ & stats & w' & Hrun & Htot & _).
  - apply ex_no_db_fault.
  - reflexivity.
  - apply ex_fetch_succeeds.
  - apply ex_unique.
  - exists stats, w'. split; [exact Hrun|]. rewrite Htot. reflexivity.
Defined.

(** C8.  The code does not keep the claim.  The test of line 126 is made
    on [str()] of the attribute, and of an attribute without a value
    that is the text [[]], which counts as present: an entry that the
    directory holds without an email, or without a uid, is not skipped.
    Both entries of [ex_env_incomplete] are returned by
    [search_ldap_users], both are counted in [total], and each gets a
    row, one with the email [[]] and one with the uid [[]]. *)
Theorem sync_keeps_records_without_uid_or_email :
  (search_ldap_users ex_env_incomplete (ex_config "t1" true) (ex_world ex_db)).1
  = Return [mkUserData "u7" "[]" "G" "uid=u7,dc=x";
            mkUserData "[]" "h@x" "H" "cn=h,dc=x"]
  /\ exists stats w',
       sync_ldap_users ex_env_incomplete "t1" (ex_world ex_db) = (Return stats, w')
       /\ total stats = 2
       /\ created stats = 2
       /\ (fun u => (LdapUser.ldap_uid u, LdapUser.email u, LdapUser.enabled u))
            <$> tenant_rows "t1" (committed w')
          = [("u1", "a@x", false); ("u7", "[]", true); ("[]", "h@x", true)].
Proof.
  split; [by vm_compute|]. eexists _, _. split; [by vm_compute|]. by vm_compute.
Qed.

Lemma authenticate_resolves_local_account_witness :
  exists account w',
    authenticate_ldap_user ex_env_login "t1" "c@x" "pw3" (ex_world ex_db_accounts)
    = (Return account, w')
    /\ account ∈ accounts (session w')
    /\ length (accounts (session w')) = 3%nat.
Proof.
  destruct (authenticate_resolves_local_account ex_env_login "t1" "c@x" "pw3"
              (ex_world ex_db_accounts) 0%nat (ex_config "t1" true) 2%nat
              (ex_row "r3" "t1" "u3" "c@x" "C" true (Some "gone")))
    as (account & w' & Hrun & _ & Hin & Hcase).
  - apply ex_no_db_fault.
  - reflexivity.
  - reflexivity.
  - reflexivity.
  - exists account, w'. split; [exact Hrun|]. split; [exact Hin|].
    change (linked_account (session (ex_world ex_db_accounts))
              (ex_row "r3" "t1" "u3" "c@x" "C" true (Some "gone")))
      with (@None Account.t) in Hcase.
    destruct Hcase as [_ Hcase].
    change (account_by_email (session (ex_world ex_db_accounts))
              (LdapUser.email (ex_row "r3" "t1" "u3" "c@x" "C" true (Some "gone"))))
      with (@None Account.t) in Hcase.
    destruct Hcase as [Hacc _]. rewrite Hacc. reflexivity.
Defined.

(** * Further properties of the service, the tasks and the console *)

(** ** The connection to the directory is released *)

(** [search_ldap_users] changes no table and sends no statement.  When
    the bind is refused it raises [LdapConnectionError] and nothing was
    opened; when the bind is accepted the connection is closed again
    whether the search returns or raises.  A search that raises becomes
    an [LdapServiceError].  A search that returns gives, whatever result
    code the directory sent with it, the entries that came, in order,
    less those whose uid or email [str()] renders as the empty text (an
    attribute without a value is rendered [[]] and does not count as
    empty). *)
Theorem search_ldap_users_releases_connection (env : Env) (config : LdapConfig.t)
    (w : World) :
  exists r w',
    search_ldap_users env config w = (r, w')
    /\ session w' = session w /\ committed w' = committed w
    /\ db_stmts w' = db_stmts w
    /\ match ldap_bind env (LdapConfig.server_url config) (LdapConfig.bind_dn config)
               (LdapConfig.bind_password config) with
       | Some e =>
           r = Raise (mkExn LdapConnectionError ("无法连接到 LDAP 服务器: " ++ e))
           /\ ldap_log w' = ldap_log w ++ [admin_bind config]
       | None =>
           ldap_log w'
           = ldap_log w ++ [admin_bind config;
                            OpSearch (LdapConfig.base_dn config)
                              (search_filter_of config) (search_attributes config);
                            OpUnbind]
           /\ match search_answer env config with
              | inr entries =>
                  r = Return (filter valid_user (user_data_of config <$> entries))
              | inl e =>
                  r = Raise (mkExn LdapServiceError ("搜索用户失败: " ++ e))
              end
       end.
Proof.
  unfold search_ldap_users, _create_ldap_connection, conn_search, search_answer,
    try_finally, try_except, bind, log_ldap, modify, ret, raise, admin_bind.
  destruct (ldap_bind env _ _ _) as [e|]; cbn.
  - by eexists _, _.
  - destruct (ldap_search env _ _ _ _) as [e|entries]; cbn.
    + eexists _, _. split; [done|]. cbn. by rewrite <- !app_assoc.
    + eexists _, _. split; [done|]. cbn. rewrite <- !app_assoc.
      by rewrite collect_users_filter.
Qed.

Lemma test_ldap_connection_run env config w :
  test_ldap_connection env config w
  = match ldap_bind env (LdapConfig.server_url config) (LdapConfig.bind_dn config)
            (LdapConfig.bind_password config) with
    | None =>
        (Return (true, "连接成功"),
         set_ldap_log (ldap_log w ++ [admin_bind config; OpUnbind]) w)
    | Some e =>
        (Return (false, ("连接失败: " ++ e)%string),
         set_ldap_log (ldap_log w ++ [admin_bind config]) w)
    end.
Proof.
  unfold test_ldap_connection, try_except, bind, log_ldap, modify, ret, raise,
    admin_bind.
  destruct (ldap_bind env _ _ _) as [e|]; cbn; [done|].
  by rewrite <- !app_assoc.
Qed.

(** [test_ldap_connection] never raises and changes no table: it binds
    with the credentials of the configuration, unbinds when the bind was
    accepted, and never searches; its boolean is true exactly when the
    bind was accepted. *)
Theorem test_ldap_connection_never_raises (env : Env) (config : LdapConfig.t)
    (w : World) :
  exists ok msg w',
    test_ldap_connection env config w = (Return (ok, msg), w')
    /\ (ok = true <->
        ldap_bind env (LdapConfig.server_url config) (LdapConfig.bind_dn config)
          (LdapConfig.bind_password config) = None)
    /\ ldap_log w'
       = ldap_log w ++ admin_bind config :: (if ok then [OpUnbind] else [])
    /\ session w' = session w /\ committed w' = committed w
    /\ db_stmts w' = db_stmts w.
Proof.
  unfold test_ldap_connection, try_except, bind, log_ldap, modify, ret, raise,
    admin_bind.
  destruct (ldap_bind env _ _ _) as [e|]; cbn.
  - eexists false, _, _. split; [done|]. by split.
  - eexists true, _, _. split; [done|]. split; [done|]. cbn.
    by rewrite <- !app_assoc.
Qed.

(** [test_ldap_connection_task] never raises, whatever the database and
    the directory do, and changes no table.  It reports success exactly
    when the lookup of the configuration went through, the tenant has an
    enabled configuration and the directory accepted its credentials; the
    only call to the directory is that bind (and its unbind): the task
    never searches. *)
Theorem test_ldap_connection_task_never_raises (env : Env) (tenant_id : string)
    (w : World) :
  exists r w',
    test_ldap_connection_task env tenant_id w = (Return r, w')
    /\ session w' = session w /\ committed w' = committed w
    /\ (TestResult.success r = true <->
        db_fault env (db_stmts w) = false
        /\ exists ci config,
             enabled_config tenant_id (session w) = Some (ci, config)
             /\ ldap_bind env (LdapConfig.server_url config)
                  (LdapConfig.bind_dn config) (LdapConfig.bind_password config)
                = None)
    /\ exists ops, ldap_log w' = ldap_log w ++ ops
                   /\ forall base flt attrs, OpSearch base flt attrs ∉ ops.
Proof.
  unfold test_ldap_connection_task, try_except, bind at 1, get_ldap_config,
    db_execute.
  destruct (db_fault env (db_stmts w)) eqn:Hf.
  - eexists _, _. split; [done|]. split; [done|]. split; [done|]. split.
    + cbn. split; [done|]. by intros [? _].
    + exists []. split; [by rewrite app_nil_r|]. by intros ??? ?%elem_of_nil.
  - fold (enabled_config tenant_id (session w)).
    destruct (enabled_config tenant_id (session w)) as [[ci config]|] eqn:Hcfg.
    + unfold bind.
      pose proof (test_ldap_connection_run env config
                    (set_db_stmts (S (db_stmts w)) w)) as Hrun.
      destruct (ldap_bind env (LdapConfig.server_url config)
                  (LdapConfig.bind_dn config) (LdapConfig.bind_password config))
        as [e|] eqn:Hb; rewrite Hrun;
        (eexists _, _; split; [done|]; split; [done|]; split; [done|]; cbn; split).
      * split; [done|]. intros [_ (ci' & config' & [= <- <-] & Hb')]. congruence.
      * exists [admin_bind config]. split; [done|]. intros base flt attrs Hin.
        by apply list_elem_of_singleton in Hin.
      * split; [|done]. intros _. split; [done|]. by exists ci, config.
      * exists [admin_bind config; OpUnbind]. split; [done|].
        intros base flt attrs Hin.
        apply elem_of_cons in Hin as [Hin|Hin]; [done|].
        by apply list_elem_of_singleton in Hin.
    + eexists _, _. split; [done|]. split; [done|]. split; [done|]. split.
      * cbn. split; [done|]. by intros [_ (ci & config & ? & _)].
      * exists []. split; [by rewrite app_nil_r|]. by intros ??? ?%elem_of_nil.
Qed.

(** ** The administrative switch of one mirrored user *)

Section Status.
Variable env : Env.

Lemma update_ldap_user_status_missing t uid flag w :
  db_fault env (db_stmts w) = false ->
  find_user_by_id t uid (ldap_users (session w)) = None ->
  update_ldap_user_status env t uid flag w
  = (Raise (mkExn LdapUserNotFoundError "LDAP 用户不存在"),
     set_db_stmts (S (db_stmts w)) w).
Proof.
  intros Hf Hnone. unfold update_ldap_user_status, bind, db_execute.
  rewrite Hf. unfold find_user_by_id in Hnone. by rewrite Hnone.
Qed.

Lemma update_ldap_user_status_found t uid flag w i u :
  no_db_fault env ->
  find_user_by_id t uid (ldap_users (session w)) = Some (i, u) ->
  let u' := LdapUser.set_updated_at (utc_clock env (clock_reads w))
              (LdapUser.set_enabled flag u) in
  exists w',
    update_ldap_user_status env t uid flag w = (Return u', w')
    /\ session w' = set_ldap_users (<[i := u']> (ldap_users (session w))) (session w)
    /\ committed w' = session w'
    /\ ldap_log w' = ldap_log w
    /\ clock_reads w' = S (clock_reads w)
    /\ inserts w' = inserts w.
Proof.
  intros Hdb Hf u'. pose proof Hf as (Hi & _ & _)%list_find_Some.
  unfold update_ldap_user_status, bind. rewrite db_execute_ok by done.
  unfold find_user_by_id in Hf. rewrite Hf.
  unfold setattr_ldap_user, modify, naive_utc_now. cbn.
  rewrite commit_ok by done. cbn.
  eexists. split; [reflexivity|]. cbn. split; [|done].
  apply database_ext; cbn; try done.
  apply list_eq. intros j. destruct (decide (i = j)) as [<-|Hne].
  - rewrite !list_lookup_alter_eq, list_lookup_insert_eq
      by (by eapply lookup_lt_Some).
    by rewrite Hi.
  - by rewrite !list_lookup_alter_ne, list_lookup_insert_ne.
Qed.
End Status.

(** [update_ldap_user_status] is scoped to the tenant: when no row of the
    tenant has the identifier (the identifier is unknown, or it is the
    identifier of a user of another tenant), it raises
    [LdapUserNotFoundError] and changes neither the session nor the
    durable tables. *)
Theorem update_ldap_user_status_unknown (env : Env)
    (tenant_id ldap_user_id : string) (enabled : bool) (w : World)
    (Hdb : db_fault env (db_stmts w) = false)
    (Hnone : forall u, u ∈ ldap_users (session w) ->
                       LdapUser.id u = ldap_user_id ->
                       LdapUser.tenant_id u <> tenant_id) :
  exists w',
    update_ldap_user_status env tenant_id ldap_user_id enabled w
    = (Raise (mkExn LdapUserNotFoundError "LDAP 用户不存在"), w')
    /\ session w' = session w /\ committed w' = committed w.
Proof.
  exists (set_db_stmts (S (db_stmts w)) w). split; [|done].
  apply update_ldap_user_status_missing; [done|].
  apply list_find_None, Forall_forall. intros u Hu [Hid Ht].
  by apply (Hnone u Hu Hid).
Qed.

Lemma update_ldap_user_status_unknown_witness :
  exists w',
    update_ldap_user_status ex_env_sync "t1" "r2" false (ex_world ex_db)
    = (Raise (mkExn LdapUserNotFoundError "LDAP 用户不存在"), w')
    /\ session w' = ex_db /\ committed w' = ex_db.
Proof.
  apply (update_ldap_user_status_unknown ex_env_sync "t1" "r2" false (ex_world ex_db)).
  - reflexivity.
  - intros u Hu Hid. simpl in Hu.
    repeat (apply elem_of_cons in Hu as [->|Hu]); try by apply elem_of_nil in Hu.
    + discriminate Hid.
    + discriminate.
Defined.

(** When the tenant has a row with the identifier, [update_ldap_user_status]
    writes [enabled] and [updated_at] of that row and nothing else: every
    other column of the row, every other row, the configurations, the
    accounts and the memberships are as before, the change is committed,
    and the row returned is the row written. *)
Theorem update_ldap_user_status_writes_one_row (env : Env)
    (tenant_id ldap_user_id : string) (enabled : bool) (w : World)
    (i : nat) (u : LdapUser.t)
    (Hdb : no_db_fault env)
    (Hfind : find_user_by_id tenant_id ldap_user_id (ldap_users (session w))
             = Some (i, u)) :
  exists u' w',
    update_ldap_user_status env tenant_id ldap_user_id enabled w = (Return u', w')
    /\ u' = LdapUser.mk (LdapUser.id u) (LdapUser.tenant_id u) (LdapUser.account_id u)
               (LdapUser.ldap_uid u) (LdapUser.email u) (LdapUser.name u)
               (LdapUser.ldap_dn u) enabled (LdapUser.last_sync_at u)
               (LdapUser.created_at u) (utc_clock env (clock_reads w))
    /\ ldap_users (session w') !! i = Some u'
    /\ (forall j, j <> i -> ldap_users (session w') !! j = ldap_users (session w) !! j)
    /\ ldap_configs (session w') = ldap_configs (session w)
    /\ accounts (session w') = accounts (session w)
    /\ tenant_account_joins (session w') = tenant_account_joins (session w)
    /\ committed w' = session w'.
Proof.
  destruct (update_ldap_user_status_found env tenant_id ldap_user_id enabled w i u
              Hdb Hfind) as (w' & Hrun & Hs & Hc & _).
  pose proof Hfind as (Hi & _ & _)%list_find_Some.
  eexists _, w'. split; [exact Hrun|]. split; [done|]. rewrite Hc, Hs. cbn.
  split; [apply list_lookup_insert_eq; by eapply lookup_lt_Some|].
  split; [|done]. intros j Hj. by apply list_lookup_insert_ne.
Qed.

Lemma update_ldap_user_status_writes_one_row_witness :
  exists u' w',
    update_ldap_user_status ex_env_sync "t1" "r1" false (ex_world ex_db) = (Return u', w')
    /\ LdapUser.enabled u' = false
    /\ LdapUser.email u' = "a@x".
Proof.
  destruct (update_ldap_user_status_writes_one_row ex_env_sync "t1" "r1" false
              (ex_world ex_db) 0%nat (ex_row "r1" "t1" "u1" "a@x" "A" true None))
    as (u' & w' & Hrun & -> & _).
  - apply ex_no_db_fault.
  - reflexivity.
  - eexists _, w'. split; [exact Hrun|]. by split.
Defined.

(** A user the administrator has switched off cannot authenticate: when
    the row switched off was the only enabled row of the tenant with its
    email, [authenticate_ldap_user] afterwards raises
    [LdapUserNotFoundError] for every password, without asking the
    directory. *)
Theorem switched_off_user_cannot_authenticate (env : Env)
    (tenant_id ldap_user_id : string) (w : World)
    (ci : nat) (config : LdapConfig.t) (i : nat) (u : LdapUser.t)
    (Hdb : no_db_fault env)
    (Hcfg : enabled_config tenant_id (session w) = Some (ci, config))
    (Hfind : find_user_by_id tenant_id ldap_user_id (ldap_users (session w))
             = Some (i, u))
    (Honly : forall j r, ldap_users (session w) !! j = Some r ->
                         LdapUser.tenant_id r = tenant_id ->
                         LdapUser.email r = LdapUser.email u ->
                         LdapUser.enabled r = true -> j = i) :
  exists u' w1,
    update_ldap_user_status env tenant_id ldap_user_id false w = (Return u', w1)
    /\ forall password, exists w2,
         authenticate_ldap_user env tenant_id (LdapUser.email u) password w1
         = (Raise (mkExn LdapUserNotFoundError "LDAP 用户不存在或已被禁用"), w2)
         /\ ldap_log w2 = ldap_log w1
         /\ session w2 = session w1.
Proof.
  destruct (update_ldap_user_status_found env tenant_id ldap_user_id false w i u
              Hdb Hfind) as (w1 & Hrun & Hs & _).
  pose proof Hfind as (Hi & _ & _)%list_find_Some.
  eexists _, w1. split; [exact Hrun|]. intros password.
  exists (set_db_stmts (S (S (db_stmts w1))) w1). split; [|done].
  apply (authenticate_no_user env Hdb _ _ _ _ ci config).
  - unfold enabled_config. by rewrite Hs.
  - apply list_find_None, Forall_forall. intros r Hr (Ht & He & Hen).
    rewrite Hs in Hr. cbn in Hr. apply list_elem_of_lookup in Hr as [j Hj].
    destruct (decide (j = i)) as [->|Hne].
    + rewrite list_lookup_insert_eq in Hj by (by eapply lookup_lt_Some).
      injection Hj as <-. discriminate Hen.
    + rewrite list_lookup_insert_ne in Hj by done.
      by apply Hne, (Honly j r).
Qed.

Lemma switched_off_user_cannot_authenticate_witness :
  exists u' w1,
    update_ldap_user_status ex_env_login "t1" "r1" false (ex_world ex_db_accounts)
    = (Return u', w1)
    /\ exists w2,
         authenticate_ldap_user ex_env_login "t1" "a@x" "pw1" w1
         = (Raise (mkExn LdapUserNotFoundError "LDAP 用户不存在或已被禁用"), w2).
Proof.
  destruct (switched_off_user_cannot_authenticate ex_env_login "t1" "r1"
              (ex_world ex_db_accounts) 0%nat (ex_config "t1" true) 0%nat
              (ex_row "r1" "t1" "u1" "a@x" "A" true (Some "a1")))
    as (u' & w1 & Hrun & Hauth).
  - apply ex_no_db_fault.
  - reflexivity.
  - reflexivity.
  - intros j r Hj _ He _.
    destruct j as [|[|[|j]]]; [done|..]; cbn in Hj.
    + injection Hj as <-. discriminate He.
    + injection Hj as <-. discriminate He.
    + discriminate Hj.
  - exists u', w1. split; [exact Hrun|].
    destruct (Hauth "pw1") as (w2 & H2 & _). by exists w2.
Defined.

(** ** What a run leaves alone *)

Lemma run_keeps_refl t r : run_keeps t r r.
Proof. by repeat split. Qed.

Lemma run_keeps_trans t r1 r2 r3 :
  run_keeps t r1 r2 -> run_keeps t r2 r3 -> run_keeps t r1 r3.
Proof.
  intros (Ha1&Ht&Ha3&Ha4&Ha5&Hs1) (Hb1&Hb2&Hb3&Hb4&Hb5&Hs2).
  repeat split; try congruence.
  intros Hne. rewrite <- (Hs1 Hne). apply Hs2. by rewrite Ht.
Qed.

Lemma Forall2_run_keeps_refl t (rows : list LdapUser.t) :
  Forall2 (run_keeps t) rows rows.
Proof. apply Forall2_same_length_lookup_2; [done|]. intros i x y Hx Hy.
  rewrite Hx in Hy. injection Hy as <-. apply run_keeps_refl. Qed.

Lemma Forall2_run_keeps_trans t (l1 l2 l3 : list LdapUser.t) :
  Forall2 (run_keeps t) l1 l2 -> Forall2 (run_keeps t) l2 l3 ->
  Forall2 (run_keeps t) l1 l3.
Proof.
  intros H12. revert l3.
  induction H12 as [|x y l l' Hxy _ IH]; intros l3 H23; inversion H23; subst.
  - constructor.
  - constructor; [by eapply run_keeps_trans|auto].
Qed.

Lemma Forall2_run_keeps_insert t (rows : list LdapUser.t) i u u' :
  rows !! i = Some u -> run_keeps t u u' ->
  Forall2 (run_keeps t) rows (<[i := u']> rows).
Proof.
  intros Hi Hk. apply Forall2_same_length_lookup_2; [by rewrite length_insert|].
  intros j x y Hx Hy. destruct (decide (i = j)) as [<-|Hne].
  - rewrite list_lookup_insert_eq in Hy by (by eapply lookup_lt_Some).
    injection Hy as <-. rewrite Hi in Hx. by injection Hx as <-.
  - rewrite list_lookup_insert_ne in Hy by done. rewrite Hx in Hy.
    injection Hy as <-. apply run_keeps_refl.
Qed.

Lemma sync_rows_keeps env t recs (rows : list LdapUser.t) c ins :
  exists rows' news,
    (sync_rows env t recs rows c ins).1.1 = rows' ++ news
    /\ Forall2 (run_keeps t) rows rows'
    /\ Forall (run_adds t) news.
Proof.
  revert rows c ins. induction recs as [|ud recs IH]; intros rows c ins; cbn.
  - exists rows, []. rewrite app_nil_r. split; [done|].
    split; [apply Forall2_run_keeps_refl|constructor].
  - destruct (find_user t (uid ud) rows) as [[i u]|] eqn:Hf.
    + apply list_find_Some in Hf as (Hi & [Ht Hu] & _).
      destruct (IH (<[i := refreshed ud (utc_clock env c) (utc_clock env (S c)) u]> rows)
                  (S (S c)) ins) as (rows' & news & -> & H2 & Hn).
      exists rows', news. split; [done|]. split; [|done].
      eapply Forall2_run_keeps_trans; [|exact H2].
      eapply Forall2_run_keeps_insert; [done|].
      repeat split. intros Hne. by destruct Hne.
    + destruct (IH (rows ++ [created_row env t ud ins c]) (S c) (S ins))
        as (rows' & news & -> & H2 & Hn).
      apply Forall2_app_inv_l in H2 as (ra & rb & Ha & Hb & ->).
      inversion Hb as [|x y ? ? Hxy Hnil]; subst. inversion Hnil; subst.
      exists ra, (y :: news). split; [by rewrite <- app_assoc|].
      split; [done|]. constructor; [|done].
      destruct Hxy as (_ & Ht & _ & Ha' & _ & _). by split.
Qed.

Lemma disable_rows_keeps env t us (rows : list LdapUser.t) c :
  Forall2 (run_keeps t) rows (disable_rows env t us rows c).1.
Proof.
  revert rows c. induction us as [|u us IH]; intros rows c; cbn.
  - apply Forall2_run_keeps_refl.
  - destruct (find_user t u rows) as [[i r]|] eqn:Hf; [|apply IH].
    destruct (LdapUser.enabled r); [|apply IH].
    apply list_find_Some in Hf as (Hi & [Ht _] & _).
    eapply Forall2_run_keeps_trans; [|apply IH].
    eapply Forall2_run_keeps_insert; [done|].
    repeat split. intros Hne. by destruct Hne.
Qed.

Lemma sync_run_keeps env (Hdb : no_db_fault env) t w ci config entries :
  enabled_config t (session w) = Some (ci, config) ->
  fetch_succeeds env config entries ->
  exists stats w' rows' news,
    sync_ldap_users env t w = (Return stats, w')
    /\ ldap_users (session w') = rows' ++ news
    /\ Forall2 (run_keeps t) (ldap_users (session w)) rows'
    /\ Forall (run_adds t) news
    /\ ldap_configs (session w')
       = alter (LdapConfig.set_updated_at
                  (utc_clock env (Nat.pred (clock_reads w')))) ci
           (alter (LdapConfig.set_last_sync_at
                     (Some (utc_clock env (Nat.pred (Nat.pred (clock_reads w')))))) ci
              (ldap_configs (session w)))
    /\ accounts (session w') = accounts (session w)
    /\ tenant_account_joins (session w') = tenant_account_joins (session w)
    /\ committed w' = session w'.
Proof.
  intros Hcfg Hfetch.
  destruct (sync_ldap_users_ok env Hdb t w ci config entries Hcfg Hfetch)
    as (w' & Hrun & Hs & Hc & Hclk & _).
  set (recs := filter valid_user (user_data_of config <$> entries)) in *.
  set (A := sync_rows env t recs (ldap_users (session w)) (clock_reads w) (inserts w)) in *.
  set (us := elements (existing_uids t (session w) ∖ current_uids recs)) in *.
  set (B := disable_rows env t us A.1.1 A.1.2) in *.
  destruct (sync_rows_keeps env t recs (ldap_users (session w)) (clock_reads w)
              (inserts w)) as (ra & na & HA & Hka & Hna).
  fold A in HA.
  pose proof (disable_rows_keeps env t us A.1.1 A.1.2) as HB. fold B in HB.
  rewrite HA in HB. apply Forall2_app_inv_l in HB as (rb & nb & Hkb & Hnb & HBeq).
  eexists _, w', rb, nb. split; [exact Hrun|]. rewrite Hc, Hs, Hclk. cbn.
  split; [done|]. split; [by eapply Forall2_run_keeps_trans|].
  split; [|done].
  clear -Hna Hnb. revert nb Hnb. induction Hna as [|x l [Hx1 Hx2] _ IH];
    intros nb Hnb; inversion Hnb as [|? y ? ? Hxy Hrest]; subst; constructor.
  - destruct Hxy as (_ & Ht & _ & Ha & _). split; congruence.
  - by apply IH.
Qed.

(** A run of [sync_ldap_users] for one tenant that meets no failure
    leaves every other tenant alone: the mirrored users of another tenant
    are the same rows in the same order, a configuration of another tenant
    is unchanged, and so are all accounts and memberships. *)
Theorem sync_leaves_other_tenants_alone (env : Env) (tenant_id : string)
    (w : World) (ci : nat) (config : LdapConfig.t) (entries : list Entry)
    (Hdb : no_db_fault env)
    (Hcfg : enabled_config tenant_id (session w) = Some (ci, config))
    (Hfetch : fetch_succeeds env config entries) :
  exists stats w',
    sync_ldap_users env tenant_id w = (Return stats, w')
    /\ (forall other, other <> tenant_id ->
          tenant_rows other (session w') = tenant_rows other (session w))
    /\ (forall j c, ldap_configs (session w) !! j = Some c ->
                    LdapConfig.tenant_id c <> tenant_id ->
                    ldap_configs (session w') !! j = Some c)
    /\ length (ldap_configs (session w')) = length (ldap_configs (session w))
    /\ accounts (session w') = accounts (session w)
    /\ tenant_account_joins (session w') = tenant_account_joins (session w).
Proof.
  destruct (sync_run_keeps env Hdb tenant_id w ci config entries Hcfg Hfetch)
    as (stats & w' & rows' & news & Hrun & Hrows & Hk & Hn & Hcs & Ha & Hj & _).
  exists stats, w'. split; [done|]. split; [|split; [|split; [|done]]].
  - intros other Hne. unfold tenant_rows. rewrite Hrows, filter_app.
    assert (Hnone : filter (fun u => LdapUser.tenant_id u = other) news = []).
    { rewrite <- (filter_none news). apply filter_ext_elem. intros x Hx.
      destruct (proj1 (Forall_forall _ _) Hn x Hx) as [Ht _].
      split; [congruence|done]. }
    rewrite Hnone, app_nil_r.
    clear -Hk Hne. induction Hk as [|x y l l' Hxy _ IH]; [done|].
    destruct Hxy as (_ & Ht & _ & _ & _ & Hsame). rewrite !filter_cons.
    destruct (decide (LdapUser.tenant_id x = other)) as [Hx|Hx].
    + rewrite Hsame by congruence. rewrite decide_True by done. by rewrite IH.
    + rewrite decide_False by congruence. done.
  - intros j c Hj' Hne. rewrite Hcs.
    apply list_find_Some in Hcfg as (Hci & [Ht _] & _).
    destruct (decide (ci = j)) as [->|Hcj]; [congruence|].
    by rewrite !list_lookup_alter_ne.
  - by rewrite Hcs, !length_alter.
Qed.

Lemma sync_leaves_other_tenants_alone_witness :
  exists stats w',
    sync_ldap_users ex_env_sync "t1" (ex_world ex_db) = (Return stats, w')
    /\ tenant_rows "t2" (session w')
       = [ex_row "r2" "t2" "u9" "z@x" "Z" false None].
Proof.
  destruct (sync_leaves_other_tenants_alone ex_env_sync "t1" (ex_world ex_db)
              0%nat (ex_config "t1" true) ex_entries)
    as (stats & w' & Hrun & Hrows & _).
  - apply ex_no_db_fault.
  - reflexivity.
  - apply ex_fetch_succeeds.
  - exists stats, w'. split; [exact Hrun|]. by rewrite (Hrows "t2").
Defined.

(** A run of [sync_ldap_users] that meets no failure neither links nor
    unlinks an account, and deletes or moves no row: every row that was
    there is at the same place afterwards with its identifier, its tenant,
    its uid, its link to an account and its time of creation, and every
    row that came after the old ones belongs to the tenant and has no
    account. *)
Theorem sync_never_touches_account_links (env : Env) (tenant_id : string)
    (w : World) (ci : nat) (config : LdapConfig.t) (entries : list Entry)
    (Hdb : no_db_fault env)
    (Hcfg : enabled_config tenant_id (session w) = Some (ci, config))
    (Hfetch : fetch_succeeds env config entries) :
  exists stats w',
    sync_ldap_users env tenant_id w = (Return stats, w')
    /\ (forall j r, ldap_users (session w) !! j = Some r ->
          exists r', ldap_users (session w') !! j = Some r'
                     /\ LdapUser.id r' = LdapUser.id r
                     /\ LdapUser.tenant_id r' = LdapUser.tenant_id r
                     /\ LdapUser.ldap_uid r' = LdapUser.ldap_uid r
                     /\ LdapUser.account_id r' = LdapUser.account_id r
                     /\ LdapUser.created_at r' = LdapUser.created_at r)
    /\ (forall j r', ldap_users (session w') !! j = Some r' ->
          (length (ldap_users (session w)) <= j)%nat ->
          LdapUser.tenant_id r' = tenant_id /\ LdapUser.account_id r' = None).
Proof.
  destruct (sync_run_keeps env Hdb tenant_id w ci config entries Hcfg Hfetch)
    as (stats & w' & rows' & news & Hrun & Hrows & Hk & Hn & _).
  exists stats, w'. split; [done|]. rewrite Hrows.
  apply Forall2_same_length_lookup in Hk as [Hlen Hk]. split.
  - intros j r Hj.
    destruct (lookup_lt_is_Some_2 rows' j) as [r' Hr'].
    { rewrite <- Hlen. by eapply lookup_lt_Some. }
    exists r'. split; [by apply lookup_app_l_Some|].
    destruct (Hk j r r' Hj Hr') as (?&?&?&?&?&_). done.
  - intros j r' Hj Hle. rewrite lookup_app_r in Hj by lia.
    apply list_elem_of_lookup_2 in Hj.
    by apply (proj1 (Forall_forall _ _) Hn).
Qed.

Lemma sync_never_touches_account_links_witness :
  exists stats w' r',
    sync_ldap_users ex_env_sync "t1" (ex_world ex_db_accounts) = (Return stats, w')
    /\ ldap_users (session w') !! 0%nat = Some r'
    /\ LdapUser.account_id r' = Some "a1".
Proof.
  destruct (sync_never_touches_account_links ex_env_sync "t1"
              (ex_world ex_db_accounts) 0%nat (ex_config "t1" true) ex_entries)
    as (stats & w' & Hrun & Hold & _).
  - apply ex_no_db_fault.
  - reflexivity.
  - apply ex_fetch_succeeds.
  - destruct (Hold 0%nat (ex_row "r1" "t1" "u1" "a@x" "A" true (Some "a1")))
      as (r' & Hr' & _ & _ & _ & Ha & _); [reflexivity|].
    by exists stats, w', r'.
Defined.

(** ** The mirror after a run *)

Section AfterRun.
Variable env : Env.
Hypothesis Hdb : no_db_fault env.

Lemma sync_run_after t w ci config entries :
  enabled_config t (session w) = Some (ci, config) ->
  fetch_succeeds env config entries ->
  unique_tenant_ldap_user (ldap_users (session w)) ->
  let recs := filter valid_user (user_data_of config <$> entries) in
  exists stats w' config',
    sync_ldap_users env t w = (Return stats, w')
    /\ enabled_config t (session w') = Some (ci, config')
    /\ LdapConfig.last_sync_at config'
       = Some (utc_clock env (Nat.pred (Nat.pred (clock_reads w'))))
    /\ LdapConfig.sync_interval config' = LdapConfig.sync_interval config
    /\ unique_tenant_ldap_user (ldap_users (session w'))
    /\ (forall u, (t, u) ∈ row_key <$> ldap_users (session w')
                  <-> u ∈ existing_uids t (session w) ∨ u ∈ current_uids recs)
    /\ (forall r, r ∈ ldap_users (session w') -> LdapUser.tenant_id r = t ->
                  (LdapUser.enabled r = true
                   <-> LdapUser.ldap_uid r ∈ current_uids recs))
    /\ (forall r ud, r ∈ ldap_users (session w') -> LdapUser.tenant_id r = t ->
                     last_with_uid recs (LdapUser.ldap_uid r) = Some ud ->
                     LdapUser.email r = email ud
                     /\ LdapUser.name r = name ud
                     /\ LdapUser.ldap_dn r = dn ud).
Proof.
  intros Hcfg Hfetch Huniq recs.
  destruct (sync_ldap_users_rows env Hdb t w ci config entries Hcfg Hfetch Huniq)
    as (stats & w' & Hrun & Hrows & Hclk & _ & _ & _ & _ & _ & HuA & HuB & _ & _).
  destruct (sync_ldap_users_ok env Hdb t w ci config entries Hcfg Hfetch)
    as (w'' & Hrun' & Hs & _).
  fold recs in Hrows, HuA, HuB, Hclk, Hrun', Hs.
  set (us := elements (existing_uids t (session w) ∖ current_uids recs)) in *.
  set (A := sync_rows env t recs (ldap_users (session w)) (clock_reads w)
              (inserts w)) in *.
  set (B := disable_rows env t us A.1.1 A.1.2) in *.
  rewrite Hrun in Hrun'. injection Hrun' as _ <-.
  assert (Helem : forall r, r ∈ B.1 -> LdapUser.tenant_id r = t ->
            exists a, a ∈ A.1.1 /\ LdapUser.tenant_id a = t
                      /\ LdapUser.ldap_uid a = LdapUser.ldap_uid r
                      /\ LdapUser.email a = LdapUser.email r
                      /\ LdapUser.name a = LdapUser.name r
                      /\ LdapUser.ldap_dn a = LdapUser.ldap_dn r
                      /\ (LdapUser.ldap_uid r ∈ current_uids recs -> r = a)).
  { intros r Hr Ht.
    destruct (disable_rows_elem env t us A.1.1 A.1.2 r HuA Hr)
      as (a & Ha & [[Hd [k ->]]|[_ ->]]).
    - exists a. repeat split; try done.
      intros Hcur. destruct Hd as (_ & Hin & _).
      apply elem_of_elements, elem_of_difference in Hin as [_ Hn]. by destruct Hn.
    - by exists a. }
  exists stats, w',
    (LdapConfig.set_updated_at (utc_clock env (S B.2))
       (LdapConfig.set_last_sync_at (Some (utc_clock env B.2)) config)).
  split; [done|]. split.
  { unfold enabled_config in *. rewrite Hs. cbn [ldap_configs].
    apply (list_find_alter_same _ (LdapConfig.set_updated_at _)); [done|].
    by apply (list_find_alter_same _ (LdapConfig.set_last_sync_at _)). }
  split; [by rewrite Hclk|]. split; [done|]. rewrite Hrows.
  split; [done|]. split; [|split].
  - intros u. apply (sync_run_existing env t recs (session w)); done.
  - intros r Hr Ht. split.
    + intros Hen. destruct (decide (LdapUser.ldap_uid r ∈ current_uids recs)) as [|Hn];
        [done|].
      destruct (sync_run_none_vanished env t recs (session w) (clock_reads w)
                  (inserts w) r Huniq Hr). by repeat split.
    + intros Hcur. destruct (Helem r Hr Ht) as (a & Ha & Hta & Hua & _ & _ & _ & Heq).
      specialize (Heq Hcur). subst a.
      destruct (last_with_uid recs (LdapUser.ldap_uid r)) as [ud|] eqn:Hlast.
      2:{ apply last_with_uid_None in Hlast. destruct Hlast.
          unfold current_uids in Hcur. by apply elem_of_list_to_set in Hcur. }
      pose proof (sync_rows_current env t recs (ldap_users (session w))
                    (clock_reads w) (inserts w) r ud Huniq Ha Ht Hlast) as Hc.
      change (LdapUser.enabled (content r) = true). by rewrite Hc.
  - intros r ud Hr Ht Hlast.
    destruct (Helem r Hr Ht) as (a & Ha & Hta & Hua & He & Hn & Hd & _).
    rewrite <- Hua in Hlast.
    pose proof (sync_rows_current env t recs (ldap_users (session w))
                  (clock_reads w) (inserts w) a ud Huniq Ha Hta Hlast) as Hc.
    rewrite <- He, <- Hn, <- Hd.
    change (LdapUser.email (content a) = email ud
            /\ LdapUser.name (content a) = name ud
            /\ LdapUser.ldap_dn (content a) = dn ud).
    by rewrite Hc.
Qed.
End AfterRun.

Lemma uids_of_rows_size t (rows : list LdapUser.t) (P : LdapUser.t -> Prop)
    `{!forall r, Decision (P r)} (S : gset string) :
  unique_tenant_ldap_user rows ->
  (forall r, r ∈ rows -> P r -> LdapUser.tenant_id r = t) ->
  (forall u, u ∈ S <-> exists r, r ∈ rows /\ P r /\ LdapUser.ldap_uid r = u) ->
  length (filter P rows) = size S.
Proof.
  intros Hu Ht HS.
  rewrite <- (length_fmap LdapUser.ldap_uid (filter P rows)).
  rewrite <- (size_list_to_set (C := gset string)
                (LdapUser.ldap_uid <$> filter P rows)).
  - f_equal. apply set_eq. intros u.
    rewrite elem_of_list_to_set, list_elem_of_fmap, HS. split.
    + intros (r & -> & [Hp Hr]%list_elem_of_filter). by exists r.
    + intros (r & Hr & Hp & <-). exists r. split; [done|].
      by apply list_elem_of_filter.
  - apply NoDup_fmap_2_strong.
    + intros x y [Hpx Hx]%list_elem_of_filter [Hpy Hy]%list_elem_of_filter Hxy.
      pose proof (Ht x Hx Hpx) as Htx. pose proof (Ht y Hy Hpy) as Hty.
      apply list_elem_of_lookup in Hx as [i Hi], Hy as [j Hj].
      assert (i = j) as ->.
      { eapply (unique_lookup rows i j x y); [done..|]. unfold row_key. congruence. }
      congruence.
    + apply NoDup_filter. by eapply NoDup_fmap_1.
Qed.

Lemma get_sync_stats_run env (Hdb : no_db_fault env) t w ci config :
  enabled_config t (session w) = Some (ci, config) ->
  exists stats w',
    get_sync_stats env t w = (Return stats, w')
    /\ session w' = session w
    /\ stats !! "total_users"
       = Some (PyInt (Z.of_nat (length (filter (fun u => LdapUser.tenant_id u = t)
                                               (ldap_users (session w))))))
    /\ stats !! "enabled_users"
       = Some (PyInt (Z.of_nat (length (filter (fun u => LdapUser.tenant_id u = t
                                                         ∧ LdapUser.enabled u = true)
                                               (ldap_users (session w))))))
    /\ stats !! "disabled_users"
       = Some (PyInt (Z.of_nat (length (filter (fun u => LdapUser.tenant_id u = t)
                                               (ldap_users (session w))))
                      - Z.of_nat (length (filter (fun u => LdapUser.tenant_id u = t
                                                           ∧ LdapUser.enabled u = true)
                                                 (ldap_users (session w))))))
    /\ stats !! "last_sync_at"
       = Some (match LdapConfig.last_sync_at config with
               | Some t => PyStr (isoformat env t)
               | None => PyNone
               end).
Proof.
  intros Hcfg. unfold get_sync_stats, bind.
  rewrite get_ldap_config_ok by apply Hdb. rewrite Hcfg.
  rewrite !db_execute_ok by done. cbn [fst snd session set_db_stmts].
  eexists _, _. split; [reflexivity|]. split; [done|].
  split; [by rewrite lookup_insert_eq|].
  split; [rewrite lookup_insert_ne by done; by rewrite lookup_insert_eq|].
  split; [rewrite !lookup_insert_ne by done; by rewrite lookup_insert_eq|].
  rewrite !lookup_insert_ne by done. by rewrite lookup_insert_eq.
Qed.

(** After a run of [sync_ldap_users] that meets no failure, the enabled
    mirrored users of the tenant are exactly those the directory has: a
    row of the tenant is enabled if and only if its uid is the uid of a
    valid fetched record, every fetched uid has a row, and a row whose uid
    was fetched carries the email, the name and the distinguished name of
    the last fetched record with that uid. *)
Theorem sync_enables_exactly_the_fetched (env : Env) (tenant_id : string)
    (w : World) (ci : nat) (config : LdapConfig.t) (entries : list Entry)
    (Hdb : no_db_fault env)
    (Hcfg : enabled_config tenant_id (session w) = Some (ci, config))
    (Hfetch : fetch_succeeds env config entries)
    (Huniq : unique_tenant_ldap_user (ldap_users (session w))) :
  exists stats w',
    sync_ldap_users env tenant_id w = (Return stats, w')
    /\ (forall r, r ∈ tenant_rows tenant_id (session w') ->
          (LdapUser.enabled r = true
           <-> exists ud, ud ∈ user_data_of config <$> entries
                          /\ valid_user ud /\ uid ud = LdapUser.ldap_uid r))
    /\ (forall ud, ud ∈ user_data_of config <$> entries -> valid_user ud ->
          exists r ud',
            r ∈ tenant_rows tenant_id (session w')
            /\ LdapUser.ldap_uid r = uid ud
            /\ LdapUser.enabled r = true
            /\ last_with_uid (filter valid_user (user_data_of config <$> entries))
                 (uid ud) = Some ud'
            /\ LdapUser.email r = email ud'
            /\ LdapUser.name r = name ud'
            /\ LdapUser.ldap_dn r = dn ud').
Proof.
  destruct (sync_run_after env Hdb tenant_id w ci config entries Hcfg Hfetch Huniq)
    as (stats & w' & config' & Hrun & _ & _ & _ & _ & Hkeys & Hen & Hdata).
  set (recs := filter valid_user (user_data_of config <$> entries)) in *.
  exists stats, w'. split; [done|]. split.
  - intros r [Ht Hr]%list_elem_of_filter. rewrite (Hen r Hr Ht).
    rewrite elem_of_current_uids. split.
    + intros (ud & [Hv Hud]%list_elem_of_filter & Hu). by exists ud.
    + intros (ud & Hud & Hv & Hu). exists ud. split; [|done].
      by apply list_elem_of_filter.
  - intros ud Hud Hv.
    assert (Hin : ud ∈ recs) by by apply list_elem_of_filter.
    assert (Hcur : uid ud ∈ current_uids recs).
    { apply elem_of_current_uids. by exists ud. }
    pose proof (proj2 (Hkeys (uid ud)) (or_intror Hcur))
      as (r & Hk & Hr)%list_elem_of_fmap.
    injection Hk as Ht Hu. symmetry in Ht, Hu.
    destruct (last_with_uid recs (uid ud)) as [ud'|] eqn:Hlast.
    2:{ apply last_with_uid_None in Hlast. destruct Hlast.
        apply list_elem_of_fmap. by exists ud. }
    exists r, ud'. split; [by apply list_elem_of_filter|]. split; [done|].
    split; [apply (Hen r Hr Ht); by rewrite Hu|]. split; [done|].
    apply (Hdata r ud' Hr Ht). by rewrite Hu.
Qed.

Lemma sync_enables_exactly_the_fetched_witness :
  exists stats w',
    sync_ldap_users ex_env_sync "t1" (ex_world ex_db_accounts) = (Return stats, w')
    /\ exists r, r ∈ tenant_rows "t1" (session w')
                 /\ LdapUser.ldap_uid r = "u4" /\ LdapUser.enabled r = true.
Proof.
  destruct (sync_enables_exactly_the_fetched ex_env_sync "t1"
              (ex_world ex_db_accounts) 0%nat (ex_config "t1" true) ex_entries)
    as (stats & w' & Hrun & _ & Hall).
  - apply ex_no_db_fault.
  - reflexivity.
  - apply ex_fetch_succeeds.
  - apply ex_unique.
  - exists stats, w'. split; [exact Hrun|].
    destruct (Hall (mkUserData "u4" "d@x" "D" "uid=u4,dc=x"))
      as (r & ud' & Hr & Hu & He & _).
    + apply list_elem_of_fmap. exists (ex_entry "u4" "d@x" "D" "uid=u4,dc=x").
      split; [by vm_compute|]. unfold ex_entries.
      do 3 apply list_elem_of_further. apply list_elem_of_here.
    + by split.
    + by exists r.
Defined.

(** After a run of [sync_ldap_users] that meets no failure, an email that
    no valid fetched record carries cannot be used to log in, whatever the
    mirror said before the run: [authenticate_ldap_user] raises
    [LdapUserNotFoundError] for every password and does not ask the
    directory. *)
Theorem unlisted_email_cannot_authenticate (env : Env) (tenant_id : string)
    (w : World) (ci : nat) (config : LdapConfig.t) (entries : list Entry)
    (address : string)
    (Hdb : no_db_fault env)
    (Hcfg : enabled_config tenant_id (session w) = Some (ci, config))
    (Hfetch : fetch_succeeds env config entries)
    (Huniq : unique_tenant_ldap_user (ldap_users (session w)))
    (Hunlisted : address ∉ email <$> filter valid_user (user_data_of config <$> entries)) :
  exists stats w',
    sync_ldap_users env tenant_id w = (Return stats, w')
    /\ forall password, exists w2,
         authenticate_ldap_user env tenant_id address password w'
         = (Raise (mkExn LdapUserNotFoundError "LDAP 用户不存在或已被禁用"), w2)
         /\ ldap_log w2 = ldap_log w'
         /\ session w2 = session w'
         /\ committed w2 = committed w'.
Proof.
  destruct (sync_run_after env Hdb tenant_id w ci config entries Hcfg Hfetch Huniq)
    as (stats & w' & config' & Hrun & Hcfg' & _ & _ & _ & _ & Hen & Hdata).
  set (recs := filter valid_user (user_data_of config <$> entries)) in *.
  exists stats, w'. split; [done|]. intros password.
  exists (set_db_stmts (S (S (db_stmts w'))) w'). split; [|done].
  apply (authenticate_no_user env Hdb _ _ _ _ ci config'); [done|].
  apply list_find_None, Forall_forall. intros r Hr (Ht & He & Henabled).
  apply (Hen r Hr Ht) in Henabled.
  destruct (last_with_uid recs (LdapUser.ldap_uid r)) as [ud|] eqn:Hlast.
  2:{ apply last_with_uid_None in Hlast. destruct Hlast.
      unfold current_uids in Henabled. by apply elem_of_list_to_set in Henabled. }
  destruct (Hdata r ud Hr Ht Hlast) as (Hemail & _).
  apply last_with_uid_Some in Hlast as [Hud _].
  apply Hunlisted, list_elem_of_fmap. exists ud. split; [congruence|done].
Qed.

Lemma unlisted_email_cannot_authenticate_witness :
  exists stats w' w2,
    sync_ldap_users ex_env_sync "t1" (ex_world ex_db_accounts) = (Return stats, w')
    /\ authenticate_ldap_user ex_env_sync "t1" "a@x" "pw1" w'
       = (Raise (mkExn LdapUserNotFoundError "LDAP 用户不存在或已被禁用"), w2).
Proof.
  destruct (unlisted_email_cannot_authenticate ex_env_sync "t1"
              (ex_world ex_db_accounts) 0%nat (ex_config "t1" true) ex_entries "a@x")
    as (stats & w' & Hrun & Hauth).
  - apply ex_no_db_fault.
  - reflexivity.
  - apply ex_fetch_succeeds.
  - apply ex_unique.
  - apply (bool_decide_unpack
             ("a@x" ∉ email <$> filter valid_user
                                  (user_data_of (ex_config "t1" true) <$> ex_entries))).
    by vm_compute.
  - destruct (Hauth "pw1") as (w2 & H2 & _). by exists stats, w', w2.
Defined.

(** Right after a run of [sync_ldap_users] that meets no failure,
    [get_sync_stats] reports the directory: [enabled_users] is the number
    of distinct valid fetched uids, [total_users] the number of uids the
    tenant had or the directory has, [disabled_users] the number of uids
    the tenant had and the directory has not, and [last_sync_at] is the
    time the run stamped on the configuration, never [None]. *)
Theorem get_sync_stats_after_sync (env : Env) (tenant_id : string)
    (w : World) (ci : nat) (config : LdapConfig.t) (entries : list Entry)
    (Hdb : no_db_fault env)
    (Hcfg : enabled_config tenant_id (session w) = Some (ci, config))
    (Hfetch : fetch_succeeds env config entries)
    (Huniq : unique_tenant_ldap_user (ldap_users (session w))) :
  let fetched := current_uids (filter valid_user (user_data_of config <$> entries)) in
  let had := existing_uids tenant_id (session w) in
  exists run w' stats w2,
    sync_ldap_users env tenant_id w = (Return run, w')
    /\ get_sync_stats env tenant_id w' = (Return stats, w2)
    /\ stats !! "enabled_users" = Some (PyInt (Z.of_nat (size fetched)))
    /\ stats !! "total_users" = Some (PyInt (Z.of_nat (size (had ∪ fetched))))
    /\ stats !! "disabled_users" = Some (PyInt (Z.of_nat (size (had ∖ fetched))))
    /\ stats !! "last_sync_at"
       = Some (PyStr (isoformat env
                        (utc_clock env (Nat.pred (Nat.pred (clock_reads w')))))).
Proof.
  intros fetched had.
  destruct (sync_run_after env Hdb tenant_id w ci config entries Hcfg Hfetch Huniq)
    as (run & w' & config' & Hrun & Hcfg' & Hlast & _ & Huniq' & Hkeys & Hen & _).
  fold fetched had in Hkeys, Hen.
  destruct (get_sync_stats_run env Hdb tenant_id w' ci config' Hcfg')
    as (stats & w2 & Hstats & _ & Htot & Henab & Hdis & Hls).
  assert (Hn_en : length (filter (fun u => LdapUser.tenant_id u = tenant_id
                                           ∧ LdapUser.enabled u = true)
                                 (ldap_users (session w'))) = size fetched).
  { apply (uids_of_rows_size tenant_id); [done|by intros r _ [? _]|].
    intros u. split.
    - intros Hu. pose proof (proj2 (Hkeys u) (or_intror Hu))
        as (r & Hk & Hr)%list_elem_of_fmap.
      injection Hk as Ht Hur. symmetry in Ht, Hur. exists r.
      split; [done|]. split; [|done]. split; [done|].
      apply (Hen r Hr Ht). by rewrite Hur.
    - intros (r & Hr & [Ht He] & <-). by apply (Hen r Hr Ht). }
  assert (Hn_tot : length (filter (fun u => LdapUser.tenant_id u = tenant_id)
                                  (ldap_users (session w'))) = size (had ∪ fetched)).
  { apply (uids_of_rows_size tenant_id); [done|by intros r _ ?|].
    intros u. rewrite elem_of_union, <- Hkeys, list_elem_of_fmap. split.
    - intros (r & Hk & Hr). injection Hk as Ht Hur. by exists r.
    - intros (r & Hr & Ht & Hur). exists r. split; [|done].
      unfold row_key. by rewrite Ht, Hur. }
  exists run, w', stats, w2. split; [done|]. split; [done|].
  rewrite Henab, Htot, Hdis, Hls, Hlast, Hn_en, Hn_tot.
  split; [done|]. split; [done|]. split; [|done].
  do 2 f_equal.
  assert (Hsz : size (had ∪ fetched) = (size fetched + size (had ∖ fetched))%nat).
  { rewrite (union_comm_L had fetched). apply size_union_alt. }
  lia.
Qed.

Lemma get_sync_stats_after_sync_witness :
  exists run w' stats w2,
    sync_ldap_users ex_env_sync "t1" (ex_world ex_db_accounts) = (Return run, w')
    /\ get_sync_stats ex_env_sync "t1" w' = (Return stats, w2)
    /\ stats !! "enabled_users" = Some (PyInt 2)
    /\ stats !! "total_users" = Some (PyInt 4)
    /\ stats !! "disabled_users" = Some (PyInt 2).
Proof.
  destruct (get_sync_stats_after_sync ex_env_sync "t1" (ex_world ex_db_accounts)
              0%nat (ex_config "t1" true) ex_entries)
    as (run & w' & stats & w2 & Hrun & Hstats & He & Ht & Hd & _).
  - apply ex_no_db_fault.
  - reflexivity.
  - apply ex_fetch_succeeds.
  - apply ex_unique.
  - exists run, w', stats, w2. split; [exact Hrun|]. split; [exact Hstats|].
    rewrite He, Ht, Hd. split; [reflexivity|]. split; reflexivity.
Defined.

(** Switching a mirrored user off by hand lasts only until the next run
    when the directory still lists the user: after
    [update_ldap_user_status] has disabled the row and [sync_ldap_users]
    has then run without failure, the row is at the same place, with the
    same identifier, and enabled again. *)
Theorem status_switch_lasts_until_next_sync (env : Env)
    (tenant_id ldap_user_id : string) (w : World)
    (ci : nat) (config : LdapConfig.t) (entries : list Entry)
    (i : nat) (u : LdapUser.t)
    (Hdb : no_db_fault env)
    (Hcfg : enabled_config tenant_id (session w) = Some (ci, config))
    (Hfetch : fetch_succeeds env config entries)
    (Huniq : unique_tenant_ldap_user (ldap_users (session w)))
    (Hfind : find_user_by_id tenant_id ldap_user_id (ldap_users (session w))
             = Some (i, u))
    (Hlisted : LdapUser.ldap_uid u
               ∈ current_uids (filter valid_user (user_data_of config <$> entries))) :
  exists u1 w1 stats w2 r,
    update_ldap_user_status env tenant_id ldap_user_id false w = (Return u1, w1)
    /\ LdapUser.enabled u1 = false
    /\ sync_ldap_users env tenant_id w1 = (Return stats, w2)
    /\ ldap_users (session w2) !! i = Some r
    /\ LdapUser.id r = ldap_user_id
    /\ LdapUser.enabled r = true.
Proof.
  destruct (update_ldap_user_status_found env tenant_id ldap_user_id false w i u
              Hdb Hfind) as (w1 & Hupd & Hs1 & _).
  pose proof Hfind as (Hi & [Hid Ht] & _)%list_find_Some.
  set (u1 := LdapUser.set_updated_at (utc_clock env (clock_reads w))
               (LdapUser.set_enabled false u)) in *.
  assert (Hcfg1 : enabled_config tenant_id (session w1) = Some (ci, config)).
  { unfold enabled_config. by rewrite Hs1. }
  assert (Huniq1 : unique_tenant_ldap_user (ldap_users (session w1))).
  { unfold unique_tenant_ldap_user. rewrite Hs1. cbn.
    by rewrite (row_keys_insert _ i u u1). }
  assert (Hi1 : ldap_users (session w1) !! i = Some u1).
  { rewrite Hs1. cbn. apply list_lookup_insert_eq. by eapply lookup_lt_Some. }
  destruct (sync_run_after env Hdb tenant_id w1 ci config entries Hcfg1 Hfetch Huniq1)
    as (stats & w2 & config' & Hrun & _ & _ & _ & _ & _ & Hen & _).
  destruct (sync_run_keeps env Hdb tenant_id w1 ci config entries Hcfg1 Hfetch)
    as (stats' & w2' & rows' & news & Hrun' & Hrows & Hk & _).
  rewrite Hrun in Hrun'. injection Hrun' as <- <-.
  apply Forall2_same_length_lookup in Hk as [Hlen Hk].
  destruct (lookup_lt_is_Some_2 rows' i) as [r Hr].
  { rewrite <- Hlen. by eapply lookup_lt_Some. }
  destruct (Hk i u1 r Hi1 Hr) as (Hrid & Hrt & Hru & _).
  assert (Hr2 : ldap_users (session w2) !! i = Some r).
  { rewrite Hrows. by apply lookup_app_l_Some. }
  exists u1, w1, stats, w2, r. split; [done|]. split; [done|]. split; [done|].
  split; [done|]. split; [by rewrite Hrid|].
  apply (Hen r).
  - by eapply list_elem_of_lookup_2.
  - by rewrite Hrt.
  - by rewrite Hru.
Qed.

Lemma status_switch_lasts_until_next_sync_witness :
  exists u1 w1 stats w2 r,
    update_ldap_user_status ex_env_sync "t1" "r2" false (ex_world ex_db_accounts)
    = (Return u1, w1)
    /\ sync_ldap_users ex_env_sync "t1" w1 = (Return stats, w2)
    /\ ldap_users (session w2) !! 1%nat = Some r
    /\ LdapUser.enabled r = true.
Proof.
  destruct (status_switch_lasts_until_next_sync ex_env_sync "t1" "r2"
              (ex_world ex_db_accounts) 0%nat (ex_config "t1" true) ex_entries
              1%nat (ex_row "r2" "t1" "u2" "b@x" "B" true None))
    as (u1 & w1 & stats & w2 & r & Hupd & _ & Hrun & Hr & _ & Hen).
  - apply ex_no_db_fault.
  - reflexivity.
  - apply ex_fetch_succeeds.
  - apply ex_unique.
  - reflexivity.
  - apply (bool_decide_unpack
             ("u2" ∈ current_uids
                      (filter valid_user
                         (user_data_of (ex_config "t1" true) <$> ex_entries)))).
    by vm_compute.
  - by exists u1, w1, stats, w2, r.
Defined.

(** ** What a login does *)

Lemma log_keeps_ret {A} (a : A) : keeps_ldap_log (ret a).
Proof. by intros w. Qed.

Lemma log_keeps_raise {A} e : keeps_ldap_log (@raise A e).
Proof. by intros w. Qed.

Lemma log_keeps_bind {A B} (m : M A) (k : A -> M B) :
  keeps_ldap_log m -> (forall a, keeps_ldap_log (k a)) -> keeps_ldap_log (bind m k).
Proof.
  intros Hm Hk w. unfold bind. specialize (Hm w).
  destruct (m w) as [[a|e] w1]; simpl in *; [|done].
  by rewrite Hk.
Qed.

Lemma commits_last_keeps {A} (m : M A) : keeps_committed m -> commits_last m.
Proof.
  intros Hm w. specialize (Hm w). destruct (m w) as [[a|e] w1]; simpl in *; auto.
Qed.

Lemma commits_last_bind {A B} (m : M A) (k : A -> M B) :
  keeps_committed m -> (forall a, commits_last (k a)) -> commits_last (bind m k).
Proof.
  intros Hm Hk w. unfold bind. specialize (Hm w).
  destruct (m w) as [[a|e] w1]; simpl in *; [|done].
  specialize (Hk a w1). destruct (k a w1) as [[b|e] w2]; [|congruence].
  destruct Hk as [Hk|Hk]; [left; congruence|by right].
Qed.

Lemma raises_only_ret {A} (a : A) : raises_only_db_error (ret a).
Proof. by intros w e w'. Qed.

Lemma raises_only_modify f : raises_only_db_error (modify f).
Proof. by intros w e w'. Qed.

Lemma raises_only_bind {A B} (m : M A) (k : A -> M B) :
  raises_only_db_error m -> (forall a, raises_only_db_error (k a)) ->
  raises_only_db_error (bind m k).
Proof.
  intros Hm Hk w e w'. unfold bind. specialize (Hm w).
  destruct (m w) as [[a|e1] w1]; simpl.
  - apply Hk.
  - intros [= <- <-]. by eapply Hm.
Qed.

Section Login.
Variable env : Env.

Lemma db_execute_cases {A} (read : Database -> A) w :
  (db_fault env (db_stmts w) = false
   /\ db_execute env read w
      = (Return (read (session w)), set_db_stmts (S (db_stmts w)) w))
  \/ (db_fault env (db_stmts w) = true
      /\ db_execute env read w = (Raise db_error, set_db_stmts (S (db_stmts w)) w)).
Proof. unfold db_execute. destruct (db_fault env (db_stmts w)); auto. Qed.

Lemma log_keeps_db_execute {A} (read : Database -> A) :
  keeps_ldap_log (db_execute env read).
Proof. intros w. unfold db_execute. by destruct (db_fault env _). Qed.

Lemma log_keeps_commit : keeps_ldap_log (commit env).
Proof. intros w. unfold commit. by destruct (db_fault env _). Qed.

Lemma raises_only_db_execute {A} (read : Database -> A) :
  raises_only_db_error (db_execute env read).
Proof.
  intros w e w'. unfold db_execute. destruct (db_fault env _); [|done].
  by intros [= <- _].
Qed.

Lemma raises_only_commit : raises_only_db_error (commit env).
Proof.
  intros w e w'. unfold commit. destruct (db_fault env _); [|done].
  by intros [= <- _].
Qed.

Lemma commits_last_commit {A} (a : A) : commits_last (commit env ;; ret a).
Proof.
  intros w. unfold bind, commit, ret. destruct (db_fault env _); [done|by right].
Qed.

Ltac effects lem_bind :=
  repeat first
    [ apply lem_bind; [|intros ?]
    | apply log_keeps_db_execute | apply log_keeps_commit
    | apply log_keeps_ret | apply log_keeps_raise
    | apply raises_only_db_execute | apply raises_only_commit
    | apply raises_only_ret | apply raises_only_modify
    | apply keeps_db_execute | apply keeps_ret | apply keeps_naive_utc_now
    | apply keeps_setattr_ldap_user
    | done
    | match goal with
      | |- _ (match ?x with _ => _ end) => destruct x
      end ].

Lemma log_keeps_get_or_create lu t :
  keeps_ldap_log (_get_or_create_local_account env lu t).
Proof.
  destruct lu as [i u]. unfold _get_or_create_local_account, flush.
  effects @log_keeps_bind.
Qed.

Lemma raises_only_get_or_create lu t :
  raises_only_db_error (_get_or_create_local_account env lu t).
Proof.
  destruct lu as [i u]. unfold _get_or_create_local_account, flush.
  effects @raises_only_bind.
Qed.

Lemma commits_last_get_or_create lu t :
  commits_last (_get_or_create_local_account env lu t).
Proof.
  destruct lu as [i u]. unfold _get_or_create_local_account, flush.
  apply commits_last_bind.
  { destruct (LdapUser.account_id u) as [aid|]; [destruct (truthy aid)|];
      first [apply keeps_db_execute|apply keeps_ret]. }
  intros [a|]; [apply commits_last_keeps, keeps_ret|].
  apply commits_last_bind; [apply keeps_db_execute|].
  intros [a|].
  - do 3 (apply commits_last_bind;
          [first [apply keeps_setattr_ldap_user|apply keeps_naive_utc_now]
          |intros ?]).
    apply commits_last_commit.
  - apply commits_last_bind; [apply keeps_naive_utc_now|intros now].
    apply commits_last_bind; [by intros w|intros account].
    apply commits_last_bind; [apply keeps_db_execute|intros _].
    apply commits_last_bind; [apply keeps_setattr_ldap_user|intros _].
    apply commits_last_bind; [apply keeps_naive_utc_now|intros now2].
    apply commits_last_bind; [apply keeps_setattr_ldap_user|intros _].
    apply commits_last_bind; [by intros w|intros _].
    apply commits_last_commit.
Qed.

(** The course of [authenticate_ldap_user] up to the local account. *)
Lemma authenticate_cases t address password w :
  ((exists n, db_fault env n = true)
   /\ exists w', authenticate_ldap_user env t address password w = (Raise db_error, w')
                 /\ same_tables w w' /\ ldap_log w' = ldap_log w)
  \/ (enabled_config t (session w) = None
      /\ exists w', authenticate_ldap_user env t address password w
                    = (Raise (mkExn LdapServiceError "未找到启用的 LDAP 配置"), w')
                    /\ same_tables w w' /\ ldap_log w' = ldap_log w)
  \/ (exists ci config,
        enabled_config t (session w) = Some (ci, config)
        /\ ((enabled_user t address (session w) = None
             /\ exists w', authenticate_ldap_user env t address password w
                           = (Raise (mkExn LdapUserNotFoundError
                                       "LDAP 用户不存在或已被禁用"), w')
                           /\ same_tables w w' /\ ldap_log w' = ldap_log w)
            \/ exists i u,
                 enabled_user t address (session w) = Some (i, u)
                 /\ ((is_Some (ldap_bind env (LdapConfig.server_url config)
                                 (LdapUser.ldap_dn u) password)
                      /\ exists w', authenticate_ldap_user env t address password w
                                    = (Raise (mkExn LdapAuthError "LDAP 认证失败"), w')
                                    /\ same_tables w w'
                                    /\ ldap_log w'
                                       = ldap_log w ++ [user_bind config u password])
                     \/ (ldap_bind env (LdapConfig.server_url config)
                           (LdapUser.ldap_dn u) password = None
                         /\ exists w0,
                              authenticate_ldap_user env t address password w
                              = _get_or_create_local_account env (i, u) t w0
                              /\ same_tables w w0
                              /\ db_stmts w0 = S (S (db_stmts w))
                              /\ ldap_log w0
                                 = ldap_log w ++ [user_bind config u password;
                                                  OpUnbind])))).
Proof.
  unfold authenticate_ldap_user, get_ldap_config, bind.
  destruct (db_execute_cases
              (fun d => list_find (fun c => LdapConfig.tenant_id c = t
                                            ∧ LdapConfig.enabled c = true)
                          (ldap_configs d)) w) as [[_ ->]|[Hf ->]].
  2:{ left. split; [by eexists|]. by eexists. }
  fold (enabled_config t (session w)).
  destruct (enabled_config t (session w)) as [[ci config]|] eqn:Hcfg.
  2:{ right. left. split; [done|]. by eexists. }
  match goal with |- context [db_execute env ?f ?x] =>
    destruct (db_execute_cases f x) as [[_ ->]|[Hf ->]] end.
  2:{ left. split; [by eexists|]. by eexists. }
  right. right. exists ci, config. split; [done|].
  cbn [session set_db_stmts]. fold (enabled_user t address (session w)).
  destruct (enabled_user t address (session w)) as [[i u]|] eqn:Huser.
  2:{ left. split; [done|]. by eexists. }
  right. exists i, u. split; [done|]. cbn [snd].
  destruct (ldap_bind env (LdapConfig.server_url config) (LdapUser.ldap_dn u)
              password) as [er|] eqn:Hb.
  - left. split; [done|]. rewrite (bind_as_user_fails env _ _ _ _ er) by done.
    by eexists.
  - right. split; [done|]. rewrite (bind_as_user_ok env) by done.
    by eexists.
Qed.
End Login.

(** Whatever the database and the directory do, [authenticate_ldap_user]
    asks the directory at most once, and never searches it: it binds to
    the server of the enabled configuration with the distinguished name
    stored for the enabled mirrored user it found and the password it was
    given, and unbinds when the bind was accepted.  It returns an account
    only after the directory has accepted that bind. *)
Theorem authenticate_asks_directory_once (env : Env)
    (tenant_id address password : string) (w : World) :
  exists r w' ops,
    authenticate_ldap_user env tenant_id address password w = (r, w')
    /\ ldap_log w' = ldap_log w ++ ops
    /\ match r with
       | Return _ =>
           exists ci config i u,
             enabled_config tenant_id (session w) = Some (ci, config)
             /\ enabled_user tenant_id address (session w) = Some (i, u)
             /\ ldap_bind env (LdapConfig.server_url config) (LdapUser.ldap_dn u)
                  password = None
             /\ ops = [user_bind config u password; OpUnbind]
       | Raise e =>
           ops = []
           \/ exists ci config i u,
                enabled_config tenant_id (session w) = Some (ci, config)
                /\ enabled_user tenant_id address (session w) = Some (i, u)
                /\ ops = user_bind config u password
                         :: match ldap_bind env (LdapConfig.server_url config)
                                    (LdapUser.ldap_dn u) password with
                            | None => [OpUnbind]
                            | Some _ => []
                            end
       end.
Proof.
  destruct (authenticate_cases env tenant_id address password w)
    as [(_ & w' & -> & _ & Hl)
       |[(_ & w' & -> & _ & Hl)
        |(ci & config & Hcfg & [(_ & w' & -> & _ & Hl)
                               |(i & u & Hu & [([er Hb] & w' & -> & _ & Hl)
                                              |(Hb & w0 & -> & _ & _ & Hl)])])]].
  1-3: eexists _, w', []; rewrite app_nil_r; split; [reflexivity|];
       split; [done|]; by left.
  - eexists _, w', _. split; [reflexivity|]. split; [done|]. right.
    exists ci, config, i, u. by rewrite Hb.
  - pose proof (log_keeps_get_or_create env (i, u) tenant_id w0) as Hk.
    destruct (_get_or_create_local_account env (i, u) tenant_id w0) as [r w'].
    cbn in Hk. exists r, w', [user_bind config u password; OpUnbind].
    split; [done|]. split; [by rewrite Hk|].
    destruct r as [a|e].
    + by exists ci, config, i, u.
    + right. exists ci, config, i, u. by rewrite Hb.
Qed.

(** A login that fails leaves nothing behind.  Whatever the database and
    the directory do, when [authenticate_ldap_user] raises, the durable
    tables are those it started with; and unless what it raises is the
    failure of a statement, it is one of the three errors of the service
    and the session has not changed either: no row was written or added.
    When it returns, the durable tables are those it started with or the
    view of the session. *)
Theorem authenticate_failure_is_harmless (env : Env)
    (tenant_id address password : string) (w : World) :
  match authenticate_ldap_user env tenant_id address password w with
  | (Raise e, w') =>
      committed w' = committed w
      /\ (e = db_error
          \/ (session w' = session w
              /\ inserts w' = inserts w
              /\ e ∈ [mkExn LdapServiceError "未找到启用的 LDAP 配置";
                      mkExn LdapUserNotFoundError "LDAP 用户不存在或已被禁用";
                      mkExn LdapAuthError "LDAP 认证失败"]))
  | (Return _, w') => committed w' = committed w \/ committed w' = session w'
  end.
Proof.
  destruct (authenticate_cases env tenant_id address password w)
    as [(_ & w' & -> & (_ & Hc & _) & _)
       |[(_ & w' & -> & (Hs & Hc & Hi & _) & _)
        |(ci & config & Hcfg & [(_ & w' & -> & (Hs & Hc & Hi & _) & _)
                               |(i & u & Hu & [(_ & w' & -> & (Hs & Hc & Hi & _) & _)
                                              |(_ & w0 & -> & (Hs & Hc & _) & _)])])]].
  - split; [done|by left].
  - split; [done|]. right. split; [done|]. split; [done|]. set_solver.
  - split; [done|]. right. split; [done|]. split; [done|]. set_solver.
  - split; [done|]. right. split; [done|]. split; [done|]. set_solver.
  - pose proof (commits_last_get_or_create env (i, u) tenant_id w0) as Hk.
    pose proof (raises_only_get_or_create env (i, u) tenant_id w0) as Hr.
    destruct (_get_or_create_local_account env (i, u) tenant_id w0) as [[a|e] w'].
    + destruct Hk as [Hk|Hk]; [left; congruence|by right].
    + split; [congruence|]. left. by eapply Hr.
Qed.

Lemma list_find_insert_same {A} (P : A -> Prop) `{!forall x, Decision (P x)}
    (l : list A) i x y :
  list_find P l = Some (i, x) -> P y -> list_find P (<[i := y]> l) = Some (i, y).
Proof.
  intros (Hi & Hp & Hlt)%list_find_Some Hy. apply list_find_Some.
  split; [apply list_lookup_insert_eq; by eapply lookup_lt_Some|]. split; [done|].
  intros j z Hj Hji. rewrite list_lookup_insert_ne in Hj by lia. by eapply Hlt.
Qed.

Lemma alter_alter_insert {A} (f g : A -> A) (l : list A) i x :
  l !! i = Some x -> alter f i (alter g i l) = <[i := f (g x)]> l.
Proof.
  intros Hi. apply list_eq. intros j. destruct (decide (i = j)) as [<-|Hne].
  - rewrite !list_lookup_alter_eq, list_lookup_insert_eq by (by eapply lookup_lt_Some).
    by rewrite Hi.
  - by rewrite !list_lookup_alter_ne, list_lookup_insert_ne.
Qed.

Section LoginAgain.
Variable env : Env.
Hypothesis Hdb : no_db_fault env.

(** What [_get_or_create_local_account] leaves when it returns: the row
    of the user is linked to the account returned, which exists. *)
Lemma get_or_create_post i u t w a w1 :
  ldap_users (session w) !! i = Some u ->
  _get_or_create_local_account env (i, u) t w = (Return a, w1) ->
  exists u1,
    ldap_users (session w1) = <[i := u1]> (ldap_users (session w))
    /\ LdapUser.account_id u1 = Some (Account.id a)
    /\ LdapUser.tenant_id u1 = LdapUser.tenant_id u
    /\ LdapUser.email u1 = LdapUser.email u
    /\ LdapUser.enabled u1 = LdapUser.enabled u
    /\ LdapUser.ldap_dn u1 = LdapUser.ldap_dn u
    /\ a ∈ accounts (session w1)
    /\ ldap_configs (session w1) = ldap_configs (session w).
Proof.
  intros Hi Hrun.
  destruct (linked_account (session w) u) as [a0|] eqn:Hl.
  - rewrite (get_or_create_linked env Hdb i u t w a0 Hl) in Hrun.
    injection Hrun as -> <-. exists u. cbn [session set_db_stmts].
    split; [by rewrite list_insert_id|].
    unfold linked_account in Hl.
    destruct (LdapUser.account_id u) as [aid|] eqn:Haid; [|done].
    destruct (truthy aid); [|done].
    apply list_find_snd_elem_of in Hl as [Hin Hid]. by rewrite Hid.
  - destruct (account_by_email (session w) (LdapUser.email u)) as [a0|] eqn:He.
    + destruct (get_or_create_by_email env Hdb i u t w a0 Hl He)
        as (w' & Hrun' & Hs & _).
      rewrite Hrun in Hrun'. injection Hrun' as -> ->.
      apply list_find_snd_elem_of in He as [Hin _].
      eexists. rewrite Hs. cbn [ldap_users ldap_configs accounts set_ldap_users].
      split; [by apply alter_alter_insert|]. done.
    + destruct (get_or_create_new env Hdb i u t w Hl He) as (w' & Hrun' & Hs & _).
      rewrite Hrun in Hrun'. injection Hrun' as -> ->.
      eexists. rewrite Hs. cbn [ldap_users ldap_configs accounts].
      split; [by apply alter_alter_insert|].
      repeat split. apply elem_of_app. right. by apply list_elem_of_singleton.
Qed.
End LoginAgain.

(** Logging in again changes nothing.  When [authenticate_ldap_user] has
    returned an account whose identifier is not empty and is called again
    with the same tenant, email and password, no statement failing, it
    returns an account with the same identifier (the same account, when
    identifiers of accounts are unique) and writes nothing: the session
    and the durable tables are as the first call left them and no row is
    added. *)
Theorem authenticate_again_changes_nothing (env : Env)
    (tenant_id address password : string) (w : World)
    (a : Account.t) (w1 : World)
    (Hdb : no_db_fault env)
    (Hfirst : authenticate_ldap_user env tenant_id address password w
              = (Return a, w1))
    (Hid : Account.id a <> "") :
  exists a2 w2,
    authenticate_ldap_user env tenant_id address password w1 = (Return a2, w2)
    /\ Account.id a2 = Account.id a
    /\ a2 ∈ accounts (session w1)
    /\ (NoDup (Account.id <$> accounts (session w1)) -> a2 = a)
    /\ session w2 = session w1
    /\ committed w2 = committed w1
    /\ inserts w2 = inserts w1.
Proof.
  destruct (authenticate_cases env tenant_id address password w)
    as [(_ & w' & Hr & _)
       |[(_ & w' & Hr & _)
        |(ci & config & Hcfg & [(_ & w' & Hr & _)
                               |(i & u & Hu & [(_ & w' & Hr & _)
                                              |(Hb & w0 & Hr & (Hs0 & _) & _)])])]];
    rewrite Hr in Hfirst; try discriminate Hfirst.
  pose proof Hu as (Hi & (Ht & He & Hen) & _)%list_find_Some.
  rewrite <- Hs0 in Hi.
  destruct (get_or_create_post env Hdb i u tenant_id w0 a w1 Hi Hfirst)
    as (u1 & Hrows & Hacc & Ht1 & He1 & Hen1 & Hdn1 & Hin & Hcfgs).
  rewrite Hs0 in Hrows, Hcfgs.
  assert (Hcfg1 : enabled_config tenant_id (session w1) = Some (ci, config)).
  { unfold enabled_config in *. by rewrite Hcfgs. }
  assert (Hu1 : enabled_user tenant_id address (session w1) = Some (i, u1)).
  { unfold enabled_user in *. rewrite Hrows.
    apply (list_find_insert_same _ _ i u); [done|]. by rewrite Ht1, He1, Hen1. }
  destruct (list_find (fun x => Account.id x = Account.id a) (accounts (session w1)))
    as [[j a2]|] eqn:Hfind.
  2:{ apply list_find_None in Hfind.
      by destruct (proj1 (Forall_forall _ _) Hfind a Hin). }
  pose proof Hfind as (Hj & Hid2 & _)%list_find_Some.
  assert (Hin2 : a2 ∈ accounts (session w1)) by by eapply list_elem_of_lookup_2.
  destruct (authenticate_cases env tenant_id address password w1)
    as [([n Hn] & _)
       |[(Hn & _)
        |(ci' & config' & Hcfg' & [(Hn & _)
                                  |(i' & u' & Hu' & [([er Hb'] & _)
                                                    |(_ & w3 & Hr1 & (Hs3 & Hc3 & Hi3 & _)
                                                      & _)])])]].
  - by rewrite Hdb in Hn.
  - by rewrite Hcfg1 in Hn.
  - by rewrite Hu1 in Hn.
  - rewrite Hcfg1 in Hcfg'. rewrite Hu1 in Hu'.
    injection Hcfg' as <- <-. injection Hu' as <- <-.
    rewrite Hdn1, Hb in Hb'. discriminate Hb'.
  - rewrite Hu1 in Hu'. injection Hu' as <- <-.
    rewrite Hr1.
    rewrite (get_or_create_linked env Hdb i u1 tenant_id w3 a2).
    2:{ unfold linked_account. rewrite Hacc, Hs3.
        unfold truthy. rewrite bool_decide_eq_false_2 by done. cbn.
        by rewrite Hfind. }
    exists a2, (set_db_stmts (S (db_stmts w3)) w3). split; [done|].
    split; [done|]. split; [done|]. split; [|done].
    intros Hnd. apply list_elem_of_lookup in Hin as [k Hk].
    assert (j = k) as ->.
    { eapply (NoDup_lookup (Account.id <$> accounts (session w1)) j k);
        [done|by rewrite list_lookup_fmap, Hj|].
      rewrite list_lookup_fmap, Hk. cbn. by rewrite Hid2. }
    congruence.
Qed.

Lemma authenticate_again_changes_nothing_witness :
  exists a2 w2,
    authenticate_ldap_user ex_env_login "t1" "c@x" "pw3" ex_login1.2
    = (Return a2, w2)
    /\ Account.id a2 = "uuid-0"
    /\ session w2 = session ex_login1.2.
Proof.
  destruct (authenticate_again_changes_nothing ex_env_login "t1" "c@x" "pw3"
              (ex_world ex_db_accounts)
              (Account.mk "uuid-0" "C" "c@x" ACTIVE (Some 100)) ex_login1.2)
    as (a2 & w2 & Hrun & Hid & _ & _ & Hs & _).
  - apply ex_no_db_fault.
  - by vm_compute.
  - discriminate.
  - by exists a2, w2.
Defined.

(** ** The bulk task *)







Lemma same_but_stamps_fields c c' :
  same_but_stamps c c' ->
  LdapConfig.tenant_id c' = LdapConfig.tenant_id c
  /\ LdapConfig.enabled c' = LdapConfig.enabled c
  /\ forall env, fetched_total env c' = fetched_total env c.
Proof.
  unfold same_but_stamps, unstamped. destruct c, c'. cbn. intros [= -> -> -> -> -> -> -> -> -> -> -> -> ->].
  done.
Qed.

Lemma same_but_stamps_stamped t1 t2 c :
  same_but_stamps c
    (LdapConfig.set_updated_at t2 (LdapConfig.set_last_sync_at t1 c)).
Proof. done. Qed.

Lemma fetched_total_Some env c n :
  fetched_total env c = Some n ->
  exists entries,
    fetch_succeeds env c entries
    /\ n = Z.of_nat (length (filter valid_user (user_data_of c <$> entries))).
Proof.
  unfold fetched_total, fetch_succeeds.
  destruct (ldap_bind env _ _ _); [done|].
  destruct (search_answer env c) as [e|entries]; [done|].
  intros [= <-]. by exists entries.
Qed.

Lemma fetched_total_None env c : fetched_total env c = None -> fetch_fails env c.
Proof.
  unfold fetched_total, fetch_fails, unreachable.
  destruct (ldap_bind env _ _ _) as [e|]; [by left|].
  destruct (search_answer env c) as [e|entries]; [|done].
  right. by exists e.
Qed.

Lemma run_keeps_tenant_rows t other (rows rows' news : list LdapUser.t) :
  other <> t ->
  Forall2 (run_keeps t) rows rows' -> Forall (run_adds t) news ->
  filter (fun u => LdapUser.tenant_id u = other) (rows' ++ news)
  = filter (fun u => LdapUser.tenant_id u = other) rows.
Proof.
  intros Hne Hk Hn. rewrite filter_app.
  assert (Hnone : filter (fun u => LdapUser.tenant_id u = other) news = []).
  { rewrite <- (filter_none news). apply filter_ext_elem. intros x Hx.
    destruct (proj1 (Forall_forall _ _) Hn x Hx) as [Ht _].
    split; [congruence|done]. }
  rewrite Hnone, app_nil_r.
  induction Hk as [|x y l l' Hxy _ IH]; [done|].
  destruct Hxy as (_ & Ht & _ & _ & _ & Hsame). rewrite !filter_cons.
  destruct (decide (LdapUser.tenant_id x = other)) as [Hx|Hx].
  - rewrite Hsame by congruence. rewrite decide_True by done. by rewrite IH.
  - rewrite decide_False by congruence. done.
Qed.

Section Task.
Variable env : Env.
Hypothesis Hdb : no_db_fault env.

(** The configuration a run for the tenant of [c] finds, when the
    table holds those of [cs0] with other timestamps. *)
Lemma enabled_config_same_but_stamps cs0 d c :
  unique_tenant_ldap_config cs0 ->
  Forall2 same_but_stamps cs0 (ldap_configs d) ->
  c ∈ cs0 -> LdapConfig.enabled c = true ->
  exists ci c',
    enabled_config (LdapConfig.tenant_id c) d = Some (ci, c')
    /\ same_but_stamps c c'.
Proof.
  intros Hnd HF [k Hk]%list_elem_of_lookup Hen.
  apply Forall2_same_length_lookup in HF as [Hlen HF].
  destruct (lookup_lt_is_Some_2 (ldap_configs d) k) as [c' Hc'].
  { rewrite <- Hlen. by eapply lookup_lt_Some. }
  pose proof (HF k c c' Hk Hc') as HR.
  destruct (same_but_stamps_fields c c' HR) as (Ht & He & _).
  exists k, c'. split; [|done]. apply list_find_Some.
  split; [done|]. split; [split; congruence|].
  intros j y Hj Hjk [Hty _].
  destruct (lookup_lt_is_Some_2 cs0 j) as [y0 Hy0].
  { rewrite Hlen. by eapply lookup_lt_Some. }
  destruct (same_but_stamps_fields y0 y (HF j y0 y Hy0 Hj)) as (Hty0 & _).
  assert (j = k); [|lia].
  eapply (NoDup_lookup (LdapConfig.tenant_id <$> cs0) j k); [done|..].
  - by rewrite list_lookup_fmap, Hy0.
  - rewrite list_lookup_fmap, Hk. cbn. congruence.
Qed.

Lemma task_one_run c c' ci counters w :
  enabled_config (LdapConfig.tenant_id c) (session w) = Some (ci, c') ->
  exists w',
    task_one env c counters w
    = (Return match fetched_total env c' with
              | Some n => (counters.1 + n, counters.2)
              | None => (counters.1, counters.2 + 1)
              end, w')
    /\ accounts (session w') = accounts (session w)
    /\ tenant_account_joins (session w') = tenant_account_joins (session w)
    /\ match fetched_total env c' with
       | Some n =>
           Forall2 same_but_stamps (ldap_configs (session w))
             (ldap_configs (session w'))
           /\ forall other, other <> LdapConfig.tenant_id c ->
                tenant_rows other (session w') = tenant_rows other (session w)
       | None => session w' = session w
       end.
Proof.
  intros Hcfg. unfold task_one, task_handler, orm_getattr, try_except, bind.
  rewrite db_execute_ok by done.
  set (w0 := set_db_stmts (S (db_stmts w)) w).
  assert (Hcfg0 : enabled_config (LdapConfig.tenant_id c) (session w0)
                  = Some (ci, c')) by done.
  destruct (fetched_total env c') as [n|] eqn:Hft.
  - apply fetched_total_Some in Hft as (entries & Hfetch & ->).
    destruct (sync_ldap_users_ok env Hdb _ w0 ci c' entries Hcfg0 Hfetch)
      as (w1 & Hrun & _).
    destruct (sync_run_keeps env Hdb _ w0 ci c' entries Hcfg0 Hfetch)
      as (stats & w' & rows' & news & Hrun' & Hrows & Hk & Hn & Hcs & Ha & Hj & _).
    rewrite Hrun in Hrun'. injection Hrun' as <- <-. rewrite Hrun. cbn.
    rewrite db_execute_ok by done. cbn.
    exists (set_db_stmts (S (db_stmts w1)) w1). subst w0.
    cbn [session set_db_stmts] in *.
    split; [done|]. split; [done|]. split; [done|]. split.
    + rewrite Hcs. apply Forall2_same_length_lookup_2; [by rewrite !length_alter|].
      intros j x y Hx Hy. destruct (decide (ci = j)) as [<-|Hne].
      * rewrite !list_lookup_alter_eq, Hx in Hy. cbn in Hy. injection Hy as <-.
        apply same_but_stamps_stamped.
      * rewrite !list_lookup_alter_ne in Hy by done. rewrite Hx in Hy.
        by injection Hy as <-.
    + intros other Hne. unfold tenant_rows. rewrite Hrows.
      by apply (run_keeps_tenant_rows (LdapConfig.tenant_id c)).
  - apply fetched_total_None in Hft.
    destruct (search_ldap_users_fails env c' (set_db_stmts (S (db_stmts w0)) w0) Hft)
      as (e & w1 & Hsearch & Hs & _).
    rewrite (sync_ldap_users_propagates env Hdb _ w0 ci c' e w1 Hcfg0 Hsearch). cbn.
    rewrite db_execute_ok by done. cbn.
    exists (set_db_stmts (S (db_stmts w1)) w1). cbn [session set_db_stmts].
    by rewrite Hs.
Qed.

Lemma task_loop_run cs0 (Hnd : unique_tenant_ldap_config cs0) configs :
  forall counters w,
    (forall c, c ∈ configs -> c ∈ cs0 /\ LdapConfig.enabled c = true) ->
    Forall2 same_but_stamps cs0 (ldap_configs (session w)) ->
    exists w',
      task_loop env configs counters w
      = (Return (counters.1 + (task_report env configs).1,
                 counters.2 + (task_report env configs).2), w')
      /\ accounts (session w') = accounts (session w)
      /\ tenant_account_joins (session w') = tenant_account_joins (session w)
      /\ (forall other,
            (forall c, c ∈ configs -> LdapConfig.tenant_id c = other ->
                       fetched_total env c = None) ->
            tenant_rows other (session w') = tenant_rows other (session w)).
Proof.
  induction configs as [|c rest IH]; intros counters w Hin HF.
  - exists w. split; [|done]. destruct counters as [s e]. cbn.
    by rewrite !Z.add_0_r.
  - destruct (Hin c) as [Hc Hen]; [by left|].
    destruct (enabled_config_same_but_stamps cs0 (session w) c Hnd HF Hc Hen)
      as (ci & c' & Hcfg & HR).
    destruct (same_but_stamps_fields c c' HR) as (_ & _ & Hft).
    destruct (task_one_run c c' ci counters w Hcfg)
      as (w1 & Hone & Ha1 & Hj1 & Hcase).
    rewrite Hft in Hone, Hcase.
    assert (HF1 : Forall2 same_but_stamps cs0 (ldap_configs (session w1))).
    { destruct (fetched_total env c).
      - destruct Hcase as [HF' _].
        clear -HF HF'. revert HF'. generalize (ldap_configs (session w1)).
        induction HF as [|x y l l' Hxy _ IH']; intros l1 H1; inversion H1; subst;
          constructor; [unfold same_but_stamps in *; congruence|auto].
      - by rewrite Hcase. }
    set (counters1 := match fetched_total env c with
                      | Some n => (counters.1 + n, counters.2)
                      | None => (counters.1, counters.2 + 1)
                      end) in *.
    destruct (IH counters1 w1 (fun x Hx => Hin x (list_elem_of_further _ _ _ Hx)) HF1)
      as (w' & Hloop & Ha & Hj & Hrows).
    exists w'. cbn [task_loop]. unfold bind. rewrite Hone, Hloop.
    split; [|split; [congruence|split; [congruence|]]].
    + do 2 f_equal. unfold task_report. cbn [foldr fst snd].
      rewrite filter_cons.
      destruct (fetched_total env c) as [n|] eqn:Hn; subst counters1;
        cbn [default from_option fst snd]; unfold id.
      * rewrite decide_False by done. f_equal; lia.
      * rewrite decide_True by done. cbn [length]. f_equal; lia.
    + intros other Hother.
      rewrite Hrows by (intros x Hx; apply Hother; by right).
      destruct (fetched_total env c) as [n|] eqn:Hn.
      * destruct Hcase as [_ Hrows1]. apply Hrows1. intros ->.
        by rewrite (Hother c) in Hn by (done || by left).
      * by rewrite Hcase.
Qed.
End Task.

(** When no statement fails and every tenant has at most one
    configuration, [sync_ldap_users_task] visits every enabled
    configuration, whatever happened to those before it: the totals it
    reports are the number of valid records of the directories that
    answered and the number of directories that did not.  The mirrored
    users of a tenant whose directory did not answer, or that has no
    enabled configuration, are not touched, and no account or membership
    is. *)
Theorem sync_ldap_users_task_report (env : Env) (w : World)
    (Hdb : no_db_fault env)
    (Huniq : unique_tenant_ldap_config (ldap_configs (session w))) :
  exists w',
    sync_ldap_users_task env w
    = (Return match enabled_configs (session w) with
              | [] => None
              | _ => Some (task_report env (enabled_configs (session w)))
              end, w')
    /\ accounts (session w') = accounts (session w)
    /\ tenant_account_joins (session w') = tenant_account_joins (session w)
    /\ (forall other,
          (forall c, c ∈ enabled_configs (session w) ->
                     LdapConfig.tenant_id c = other -> fetched_total env c = None) ->
          tenant_rows other (session w') = tenant_rows other (session w)).
Proof.
  unfold sync_ldap_users_task, try_except, bind.
  rewrite db_execute_ok by done. fold (enabled_configs (session w)).
  destruct (enabled_configs (session w)) as [|c rest] eqn:Hcs.
  { by eexists. }
  destruct (task_loop_run env Hdb (ldap_configs (session w)) Huniq (c :: rest) (0, 0)
              (set_db_stmts (S (db_stmts w)) w)) as (w' & -> & Ha & Hj & Hrows).
  - intros x Hx. rewrite <- Hcs in Hx. unfold enabled_configs in Hx.
    apply list_elem_of_filter in Hx as [Hen Hx]. done.
  - cbn. apply Forall2_same_length_lookup_2; [done|].
    intros j x y Hx Hy. rewrite Hx in Hy. by injection Hy as <-.
  - exists w'. cbn. split; [|done]. do 2 f_equal.
Qed.

Lemma sync_ldap_users_task_report_witness :
  exists w',
    sync_ldap_users_task ex_env_sync (ex_world ex_db) = (Return (Some (2, 0)), w')
    /\ tenant_rows "t2" (session w') = tenant_rows "t2" ex_db.
Proof.
  destruct (sync_ldap_users_task_report ex_env_sync (ex_world ex_db))
    as (w' & Hrun & _ & _ & Hrows).
  - apply ex_no_db_fault.
  - apply (bool_decide_unpack (unique_tenant_ldap_config (ldap_configs ex_db))).
    by vm_compute.
  - exists w'. split; [exact Hrun|]. apply (Hrows "t2").
    intros c Hc Ht. cbn in Hc. apply list_elem_of_singleton in Hc as ->.
    discriminate Ht.
Defined.

(** ** The console *)

Lemma python_slice_nonneg {A} (l : list A) (start stop : Z) :
  0 <= start <= stop ->
  python_slice l start stop
  = take (Z.to_nat (stop - start)) (drop (Z.to_nat start) l).
Proof.
  intros [Hs He]. unfold python_slice, slice_index.
  destruct (Z.ltb_spec start 0) as [?|_]; [lia|].
  destruct (Z.ltb_spec stop 0) as [?|_]; [lia|].
  destruct (Z_le_gt_dec (Z.of_nat (length l)) start) as [Hge|Hlt].
  - rewrite !(drop_ge l) by lia. by rewrite !take_nil.
  - rewrite (Z.min_l start) by lia.
    destruct (Z_le_gt_dec stop (Z.of_nat (length l))) as [Hle|Hgt].
    + by rewrite Z.min_l by lia.
    + rewrite Z.min_r by lia.
      rewrite !take_ge; [done|rewrite length_drop; lia..].
Qed.

Lemma python_slice_subseteq {A} (l : list A) (start stop : Z) x :
  x ∈ python_slice l start stop -> x ∈ l.
Proof.
  unfold python_slice. intros Hx.
  apply subseteq_take in Hx. by apply subseteq_drop in Hx.
Qed.

Section Console.
Variable env : Env.
Variable order_by_name : list LdapUser.t -> list LdapUser.t.

Lemma get_ldap_users_ok t only w :
  db_fault env (db_stmts w) = false ->
  get_ldap_users env order_by_name t only w
  = (Return (listed_users order_by_name t only (session w)),
     set_db_stmts (S (db_stmts w)) w).
Proof. intros Hf. unfold get_ldap_users, db_execute. by rewrite Hf. Qed.

Lemma ldap_users_get_ok cu args w :
  is_admin_or_owner cu = true ->
  db_fault env (db_stmts w) = false ->
  let all := listed_users order_by_name (current_tenant_id cu)
               (arg_enabled_only args) (session w) in
  let start := (arg_page args - 1) * arg_limit args in
  ldap_users_get env order_by_name cu args w
  = (Return (inr (UsersPage.mk
                    (user_json env <$> python_slice all start (start + arg_limit args))
                    (Z.of_nat (length all)) (arg_page args) (arg_limit args)
                    (bool_decide (start + arg_limit args < Z.of_nat (length all))))),
     set_db_stmts (S (db_stmts w)) w).
Proof.
  intros Ha Hf. unfold ldap_users_get, try_except, bind. rewrite Ha. cbn [negb].
  by rewrite get_ldap_users_ok.
Qed.
End Console.

(** A page of [LdapUsersResource.get].  For an administrator, a page
    number from 1 on and a limit that is not negative, the statement not
    failing, the page holds the users that come after the
    [(page - 1) * limit] first ones of the list, at most [limit] of them
    and in the order of the list; [total] is the length of the whole
    list; and [has_more] is true exactly when users are left after this
    page.  Nothing is written. *)
Theorem ldap_users_get_page (env : Env)
    (order_by_name : list LdapUser.t -> list LdapUser.t)
    (current_user : CurrentUser) (args : UsersArgs) (w : World)
    (Hadmin : is_admin_or_owner current_user = true)
    (Hdb : db_fault env (db_stmts w) = false)
    (Hpage : 1 <= arg_page args)
    (Hlimit : 0 <= arg_limit args) :
  let all := listed_users order_by_name (current_tenant_id current_user)
               (arg_enabled_only args) (session w) in
  let skip := (Z.to_nat (arg_page args - 1) * Z.to_nat (arg_limit args))%nat in
  exists page w',
    ldap_users_get env order_by_name current_user args w = (Return (inr page), w')
    /\ UsersPage.users page
       = user_json env <$> take (Z.to_nat (arg_limit args)) (drop skip all)
    /\ UsersPage.total page = Z.of_nat (length all)
    /\ (UsersPage.has_more page = true
        <-> drop (skip + Z.to_nat (arg_limit args)) all <> [])
    /\ session w' = session w /\ committed w' = committed w.
Proof.
  intros all skip.
  rewrite (ldap_users_get_ok env order_by_name current_user args w Hadmin Hdb).
  fold all. eexists _, _. split; [reflexivity|]. cbn.
  set (start := (arg_page args - 1) * arg_limit args).
  assert (Hstart : Z.to_nat start = skip) by (unfold start, skip; nia).
  assert (Hstart0 : 0 <= start) by (unfold start; nia).
  clearbody start skip.
  split; [|split; [done|split; [|done]]].
  - rewrite python_slice_nonneg by lia.
    rewrite Hstart. do 3 f_equal. lia.
  - rewrite bool_decide_eq_true. split.
    + intros Hlt Hnil. apply (f_equal length) in Hnil.
      rewrite length_drop in Hnil. cbn [length] in Hnil. lia.
    + intros Hne. destruct (Z_lt_ge_dec (start + arg_limit args)
                              (Z.of_nat (length all))) as [|Hge]; [done|].
      destruct Hne. apply drop_ge. lia.
Qed.

Lemma ldap_users_get_page_witness :
  exists page w',
    ldap_users_get ex_env_sync id ex_owner (mkUsersArgs false 2 2)
      (ex_world ex_db_accounts) = (Return (inr page), w')
    /\ UserJson.id <$> UsersPage.users page = ["r3"]
    /\ UsersPage.total page = 3.
Proof.
  destruct (ldap_users_get_page ex_env_sync id ex_owner (mkUsersArgs false 2 2)
              (ex_world ex_db_accounts))
    as (page & w' & Hrun & Husers & Htotal & _).
  - reflexivity.
  - reflexivity.
  - simpl. lia.
  - simpl. lia.
  - exists page, w'. split; [exact Hrun|]. rewrite Husers, Htotal.
    split; reflexivity.
Defined.

(** Page numbers below 1 are not refused by [LdapUsersResource.get].
    For an administrator and a positive limit, the statement not failing:
    page 0 is an empty page that still promises more whenever the list is
    not empty, and a negative page is a window counted from the end of
    the list (Python's negative slice indices) that always promises
    more. *)
Theorem ldap_users_get_page_below_one (env : Env)
    (order_by_name : list LdapUser.t -> list LdapUser.t)
    (current_user : CurrentUser) (args : UsersArgs) (w : World)
    (Hadmin : is_admin_or_owner current_user = true)
    (Hdb : db_fault env (db_stmts w) = false)
    (Hpage : arg_page args <= 0)
    (Hlimit : 0 < arg_limit args) :
  let all := listed_users order_by_name (current_tenant_id current_user)
               (arg_enabled_only args) (session w) in
  exists page w',
    ldap_users_get env order_by_name current_user args w = (Return (inr page), w')
    /\ (arg_page args = 0 ->
        UsersPage.users page = []
        /\ (UsersPage.has_more page = true <-> all <> []))
    /\ (arg_page args < 0 ->
        UsersPage.has_more page = true
        /\ UsersPage.users page
           = user_json env <$>
               take (Z.to_nat (Z.max (Z.of_nat (length all)
                                      + arg_page args * arg_limit args) 0)
                     - Z.to_nat (Z.max (Z.of_nat (length all)
                                        + (arg_page args - 1) * arg_limit args) 0))
                 (drop (Z.to_nat (Z.max (Z.of_nat (length all)
                                         + (arg_page args - 1) * arg_limit args) 0))
                    all)).
Proof.
  intros all.
  rewrite (ldap_users_get_ok env order_by_name current_user args w Hadmin Hdb).
  fold all. eexists _, _. split; [reflexivity|]. cbn.
  set (start := (arg_page args - 1) * arg_limit args).
  split.
  - intros H0. assert (Hs : start = - arg_limit args) by (unfold start; nia).
    rewrite Hs. replace (- arg_limit args + arg_limit args) with 0 by lia. split.
    + unfold python_slice, slice_index.
      destruct (Z.ltb_spec (- arg_limit args) 0) as [_|?]; [|lia].
      rewrite (proj2 (Z.ltb_ge 0 0)) by lia.
      rewrite Z.min_l by lia.
      replace (Z.to_nat (0 - _)) with 0%nat by lia. done.
    + rewrite bool_decide_eq_true. destruct all; cbn; split; (done || lia).
  - intros Hneg. split.
    + apply bool_decide_eq_true. unfold start. nia.
    + unfold python_slice, slice_index.
      destruct (Z.ltb_spec start 0) as [_|?]; [|unfold start in *; nia].
      destruct (Z.ltb_spec (start + arg_limit args) 0) as [_|?];
        [|unfold start in *; nia].
      do 2 f_equal; [unfold start; lia|f_equal; lia].
Qed.

Lemma ldap_users_get_page_below_one_witness :
  exists page w',
    ldap_users_get ex_env_sync id ex_owner (mkUsersArgs false 0 2)
      (ex_world ex_db_accounts) = (Return (inr page), w')
    /\ UsersPage.users page = []
    /\ UsersPage.has_more page = true.
Proof.
  destruct (ldap_users_get_page_below_one ex_env_sync id ex_owner
              (mkUsersArgs false 0 2) (ex_world ex_db_accounts))
    as (page & w' & Hrun & H0 & _).
  - reflexivity.
  - reflexivity.
  - simpl. lia.
  - simpl. lia.
  - destruct (H0 eq_refl) as [Hu Hm].
    exists page, w'. split; [exact Hrun|]. split; [exact Hu|].
    apply Hm. discriminate.
Defined.

(** [LdapUsersResource.get] shows an administrator the mirrored users
    of the tenant of the caller only, whatever page and limit are asked
    for, given that the ordering of the database only reorders: every
    entry of the page is the rendering of a row of that tenant, an
    enabled one when [enabled_only] is set. *)
Theorem ldap_users_get_tenant_scoped (env : Env)
    (order_by_name : list LdapUser.t -> list LdapUser.t)
    (current_user : CurrentUser) (args : UsersArgs) (w : World)
    (Horder : forall l, order_by_name l ≡ₚ l)
    (Hdb : db_fault env (db_stmts w) = false) :
  exists r w',
    ldap_users_get env order_by_name current_user args w = (Return r, w')
    /\ session w' = session w
    /\ match r with
       | inl e => e = NoPermissionError /\ is_admin_or_owner current_user = false
       | inr page =>
           is_admin_or_owner current_user = true
           /\ forall j, j ∈ UsersPage.users page ->
                exists u, u ∈ ldap_users (session w)
                          /\ j = user_json env u
                          /\ LdapUser.tenant_id u = current_tenant_id current_user
                          /\ (arg_enabled_only args = true ->
                              LdapUser.enabled u = true)
       end.
Proof.
  destruct (is_admin_or_owner current_user) eqn:Hadmin.
  - rewrite (ldap_users_get_ok env order_by_name current_user args w Hadmin Hdb).
    eexists _, _. split; [reflexivity|]. split; [done|]. split; [done|].
    cbn. intros j (u & -> & Hu)%list_elem_of_fmap.
    apply python_slice_subseteq in Hu. unfold listed_users in Hu.
    rewrite Horder in Hu. exists u. unfold tenant_rows in Hu.
    destruct (arg_enabled_only args).
    + apply list_elem_of_filter in Hu as [He [Ht Hu]%list_elem_of_filter]. done.
    + apply list_elem_of_filter in Hu as [Ht Hu]. done.
  - unfold ldap_users_get. rewrite Hadmin. by eexists _, _.
Qed.

Lemma ldap_users_get_tenant_scoped_witness :
  exists r w',
    ldap_users_get ex_env_sync id ex_owner (mkUsersArgs true 1 20) (ex_world ex_db)
    = (Return r, w')
    /\ session w' = ex_db.
Proof.
  destruct (ldap_users_get_tenant_scoped ex_env_sync id ex_owner
              (mkUsersArgs true 1 20) (ex_world ex_db))
    as (r & w' & Hrun & Hs & _).
  - done.
  - reflexivity.
  - by exists r, w'.
Defined.

(** The console checks the role before anything else: for a caller who
    is neither administrator nor owner, the handlers of the user list,
    of the status of a user and of the statistics answer
    [NoPermissionError] without sending a statement, asking the
    directory or changing anything. *)
Theorem console_requires_admin (env : Env)
    (order_by_name : list LdapUser.t -> list LdapUser.t)
    (current_user : CurrentUser) (args : UsersArgs) (user_id : string)
    (enabled : bool) (w : World)
    (Hrole : is_admin_or_owner current_user = false) :
  ldap_users_get env order_by_name current_user args w
  = (Return (inl NoPermissionError), w)
  /\ ldap_user_status_put env current_user user_id enabled w
     = (Return (inl NoPermissionError), w)
  /\ ldap_stats_get env current_user w = (Return (inl NoPermissionError), w).
Proof.
  unfold ldap_users_get, ldap_user_status_put, ldap_stats_get.
  by rewrite Hrole.
Qed.

Lemma console_requires_admin_witness :
  ldap_user_status_put ex_env_sync ex_member "r1" false (ex_world ex_db)
  = (Return (inl NoPermissionError), ex_world ex_db).
Proof.
  apply (console_requires_admin ex_env_sync id ex_member (mkUsersArgs false 1 20)
           "r1" false (ex_world ex_db)).
  reflexivity.
Defined.

(** [LdapUserStatusResource.put] reaches only the tenant of the caller.
    For an administrator, no statement failing: when the tenant of the
    caller has no row with the identifier (it is unknown, or it belongs
    to another tenant), the answer is a [BadRequest] that carries the
    message of [LdapUserNotFoundError], and nothing has changed;
    otherwise the answer renders that row with the status asked for. *)
Theorem ldap_user_status_put_scoped (env : Env)
    (current_user : CurrentUser) (user_id : string) (enabled : bool) (w : World)
    (Hadmin : is_admin_or_owner current_user = true)
    (Hdb : no_db_fault env) :
  exists r w',
    ldap_user_status_put env current_user user_id enabled w = (Return r, w')
    /\ match find_user_by_id (current_tenant_id current_user) user_id
               (ldap_users (session w)) with
       | None =>
           r = inl (BadRequest "更新用户状态失败: LDAP 用户不存在")
           /\ session w' = session w /\ committed w' = committed w
       | Some (i, u) =>
           exists json,
             r = inr json
             /\ UserJson.id json = user_id
             /\ UserJson.enabled json = enabled
             /\ UserJson.ldap_uid json = LdapUser.ldap_uid u
             /\ UserJson.email json = LdapUser.email u
             /\ UserJson.account_id json = LdapUser.account_id u
             /\ LdapUser.tenant_id u = current_tenant_id current_user
             /\ (LdapUser.enabled <$> ldap_users (session w') !! i) = Some enabled
             /\ committed w' = session w'
       end.
Proof.
  unfold ldap_user_status_put, try_except, bind. rewrite Hadmin. cbn [negb].
  destruct (find_user_by_id (current_tenant_id current_user) user_id
              (ldap_users (session w))) as [[i u]|] eqn:Hfind.
  - destruct (update_ldap_user_status_found env (current_tenant_id current_user)
                user_id enabled w i u Hdb Hfind) as (w' & -> & Hs & Hc & _).
    apply list_find_Some in Hfind as (Hi & [Hid Ht] & _).
    eexists _, w'. split; [reflexivity|]. eexists. split; [reflexivity|].
    cbn. split; [done|]. split; [done|]. split; [done|]. split; [done|].
    split; [done|]. split; [done|]. split; [|done].
    rewrite Hs. cbn. rewrite list_lookup_insert_eq by (by eapply lookup_lt_Some).
    done.
  - rewrite (update_ldap_user_status_missing env _ _ _ _ (Hdb _) Hfind).
    by eexists _, _.
Qed.

Lemma ldap_user_status_put_scoped_witness :
  exists w',
    ldap_user_status_put ex_env_sync ex_owner "r2" true (ex_world ex_db)
    = (Return (inl (BadRequest "更新用户状态失败: LDAP 用户不存在")), w')
    /\ session w' = ex_db.
Proof.
  destruct (ldap_user_status_put_scoped ex_env_sync ex_owner "r2" true
              (ex_world ex_db)) as (r & w' & Hrun & Hcase).
  - reflexivity.
  - apply ex_no_db_fault.
  - change (find_user_by_id (current_tenant_id ex_owner) "r2"
              (ldap_users (session (ex_world ex_db)))) with (@None (nat * LdapUser.t))
      in Hcase.
    destruct Hcase as (-> & Hs & _). by exists w'.
Defined.

(** [LdapStatsResource.get] never fails for want of a configuration:
    for an administrator, no statement failing, it answers with a
    dictionary, which is empty exactly when the tenant of the caller has
    no enabled configuration, and it changes nothing. *)
Theorem ldap_stats_get_empty_iff_no_config (env : Env)
    (current_user : CurrentUser) (w : World)
    (Hadmin : is_admin_or_owner current_user = true)
    (Hdb : no_db_fault env) :
  exists stats w',
    ldap_stats_get env current_user w = (Return (inr stats), w')
    /\ (stats = ∅
        <-> enabled_config (current_tenant_id current_user) (session w) = None)
    /\ session w' = session w /\ committed w' = committed w.
Proof.
  unfold ldap_stats_get, try_except, bind. rewrite Hadmin. cbn [negb].
  unfold get_sync_stats, bind. rewrite get_ldap_config_ok by apply Hdb.
  destruct (enabled_config (current_tenant_id current_user) (session w))
    as [[ci config]|] eqn:Hcfg.
  - rewrite !db_execute_ok by done. cbn [fst snd session set_db_stmts].
    eexists _, _. split; [reflexivity|]. split; [|done]. split; [|done].
    intros Hempty. apply (f_equal (fun m => m !! "total_users")) in Hempty.
    by rewrite lookup_insert_eq, lookup_empty in Hempty.
  - eexists _, _. split; [reflexivity|]. done.
Qed.

Lemma ldap_stats_get_empty_iff_no_config_witness :
  exists w',
    ldap_stats_get ex_env_sync (mkCurrentUser true "t2") (ex_world ex_db)
    = (Return (inr ∅), w').
Proof.
  destruct (ldap_stats_get_empty_iff_no_config ex_env_sync
              (mkCurrentUser true "t2") (ex_world ex_db))
    as (stats & w' & Hrun & Hiff & _).
  - reflexivity.
  - apply ex_no_db_fault.
  - exists w'. rewrite Hrun. by rewrite (proj2 Hiff eq_refl).
Defined.

(** ** What a run asks of the directory *)

Section RunTraffic.
Variable env : Env.

Lemma search_ldap_users_log config w :
  exists r w',
    search_ldap_users env config w = (r, w')
    /\ ldap_log w'
       = ldap_log w
         ++ admin_bind config
            :: match ldap_bind env (LdapConfig.server_url config)
                       (LdapConfig.bind_dn config)
                       (LdapConfig.bind_password config) with
               | Some _ => []
               | None => [OpSearch (LdapConfig.base_dn config)
                            (search_filter_of config) (search_attributes config);
                          OpUnbind]
               end
    /\ (forall recs, r = Return recs ->
          ldap_bind env (LdapConfig.server_url config) (LdapConfig.bind_dn config)
            (LdapConfig.bind_password config) = None).
Proof.
  unfold search_ldap_users, _create_ldap_connection, conn_search,
    try_finally, try_except, bind, log_ldap, modify, ret, raise, admin_bind.
  destruct (ldap_bind env _ _ _) as [e|]; cbn.
  - by eexists _, _.
  - destruct (ldap_search env _ _ _ _) as [e|entries]; cbn;
      eexists _, _; (split; [done|]); cbn; by rewrite <- !app_assoc.
Qed.

Ltac log_effects :=
  repeat first
    [ apply log_keeps_bind; [|intros ?]
    | apply log_keeps_db_execute | apply log_keeps_commit
    | apply log_keeps_ret | apply log_keeps_raise
    | by intros ?
    | match goal with
      | |- keeps_ldap_log (match ?x with _ => _ end) => destruct x
      end ].

Lemma log_keeps_sync_loop t recs : forall st, keeps_ldap_log (sync_loop env t recs st).
Proof.
  induction recs as [|ud rest IH]; intros st; cbn [sync_loop].
  - apply log_keeps_ret.
  - apply log_keeps_bind; [|done]. unfold sync_one. log_effects.
Qed.

Lemma log_keeps_disable_loop t us :
  forall st, keeps_ldap_log (disable_loop env t us st).
Proof.
  induction us as [|u rest IH]; intros st; cbn [disable_loop].
  - apply log_keeps_ret.
  - apply log_keeps_bind; [|done]. unfold disable_one. log_effects.
Qed.

Lemma sync_ldap_users_after_fetch t :
  exists K : nat -> LdapConfig.t -> list UserData -> M Stats,
    (forall ci config recs, keeps_ldap_log (K ci config recs))
    /\ sync_ldap_users env t
       = (let* config := get_ldap_config env t in
          match config with
          | None => raise (mkExn LdapServiceError "未找到启用的 LDAP 配置")
          | Some (ci, config) =>
              let* recs := search_ldap_users env config in K ci config recs
          end).
Proof.
  eexists. split; cycle 1.
  - unfold sync_ldap_users. reflexivity.
  - intros ci config recs. cbn beta.
    apply log_keeps_bind; [unfold query_existing_users; apply log_keeps_db_execute|].
    intros existing.
    apply log_keeps_bind; [apply log_keeps_sync_loop|intros st1].
    apply log_keeps_bind; [apply log_keeps_disable_loop|intros st2].
    log_effects.
Qed.
End RunTraffic.

(** Whatever the database and the directory do, a run of
    [sync_ldap_users] opens at most one connection to the directory,
    with the credentials of the enabled configuration of the tenant,
    makes one search on it, for the base and the filter of that
    configuration, and closes it before it touches a row; nothing else is
    asked of the directory, and without an enabled configuration nothing
    at all.  The run returns only when the bind was accepted. *)
Theorem sync_ldap_users_asks_directory_once (env : Env) (tenant_id : string)
    (w : World) :
  exists r w' ops,
    sync_ldap_users env tenant_id w = (r, w')
    /\ ldap_log w' = ldap_log w ++ ops
    /\ (ops = []
        \/ exists ci config,
             enabled_config tenant_id (session w) = Some (ci, config)
             /\ ops = admin_bind config
                      :: match ldap_bind env (LdapConfig.server_url config)
                                 (LdapConfig.bind_dn config)
                                 (LdapConfig.bind_password config) with
                         | Some _ => []
                         | None => [OpSearch (LdapConfig.base_dn config)
                                      (search_filter_of config)
                                      (search_attributes config);
                                    OpUnbind]
                         end)
    /\ (forall stats, r = Return stats ->
          exists ci config,
            enabled_config tenant_id (session w) = Some (ci, config)
            /\ ops = [admin_bind config;
                      OpSearch (LdapConfig.base_dn config) (search_filter_of config)
                        (search_attributes config);
                      OpUnbind]).
Proof.
  destruct (sync_ldap_users_after_fetch env tenant_id) as (K & HK & ->).
  unfold get_ldap_config, bind.
  match goal with |- context [db_execute env ?f w] =>
    destruct (db_execute_cases env f w) as [[_ ->]|[_ ->]] end.
  2:{ eexists _, _, []. rewrite app_nil_r. split; [reflexivity|].
      split; [done|]. split; [by left|]. intros stats [=]. }
  fold (enabled_config tenant_id (session w)).
  destruct (enabled_config tenant_id (session w)) as [[ci config]|] eqn:Hcfg.
  2:{ eexists _, _, []. rewrite app_nil_r. split; [reflexivity|].
      split; [done|]. split; [by left|]. intros stats [=]. }
  destruct (search_ldap_users_log env config (set_db_stmts (S (db_stmts w)) w))
    as (r1 & w1 & -> & Hlog & Hret).
  cbn [ldap_log set_db_stmts] in Hlog.
  destruct r1 as [recs|e].
  - pose proof (HK ci config recs w1) as Hk.
    destruct (K ci config recs w1) as [r w'] eqn:HKrun. cbn in Hk.
    rewrite (Hret recs eq_refl) in Hlog.
    eexists r, w', _. split; [reflexivity|]. rewrite Hk. split; [exact Hlog|].
    split.
    + right. exists ci, config. split; [done|]. by rewrite (Hret recs eq_refl).
    + intros stats _. by exists ci, config.
  - eexists _, w1, _. split; [reflexivity|]. split; [exact Hlog|]. split.
    + right. by exists ci, config.
    + intros stats [=].
Qed.

(** ** From a run to a login *)

Section RunThenLogin.
Variable env : Env.
Hypothesis Hdb : no_db_fault env.

Lemma get_or_create_returns i u t w :
  exists a w', _get_or_create_local_account env (i, u) t w = (Return a, w').
Proof.
  destruct (linked_account (session w) u) as [a|] eqn:Hl.
  - rewrite (get_or_create_linked env Hdb i u t w a Hl). by eexists _, _.
  - destruct (account_by_email (session w) (LdapUser.email u)) as [a|] eqn:He.
    + destruct (get_or_create_by_email env Hdb i u t w a Hl He) as (w' & -> & _).
      by eexists _, _.
    + destruct (get_or_create_new env Hdb i u t w Hl He) as (w' & -> & _).
      by eexists _, _.
Qed.

Lemma authenticate_accepted t address password w ci config i u :
  enabled_config t (session w) = Some (ci, config) ->
  enabled_user t address (session w) = Some (i, u) ->
  ldap_bind env (LdapConfig.server_url config) (LdapUser.ldap_dn u) password = None ->
  exists a w',
    authenticate_ldap_user env t address password w = (Return a, w')
    /\ a ∈ accounts (session w')
    /\ (LdapUser.account_id <$> ldap_users (session w') !! i)
       = Some (Some (Account.id a)).
Proof.
  intros Hcfg Hu Hb.
  destruct (authenticate_cases env t address password w)
    as [([n Hn] & _)
       |[(Hn & _)
        |(ci' & config' & Hcfg' & [(Hn & _)
                                  |(i' & u' & Hu' & [([er Hb'] & _)
                                                    |(_ & w0 & Hr & (Hs0 & _) & _)])])]].
  - by rewrite Hdb in Hn.
  - by rewrite Hcfg in Hn.
  - by rewrite Hu in Hn.
  - rewrite Hcfg in Hcfg'. rewrite Hu in Hu'.
    injection Hcfg' as <- <-. injection Hu' as <- <-. by rewrite Hb in Hb'.
  - rewrite Hu in Hu'. injection Hu' as <- <-. rewrite Hr.
    destruct (get_or_create_returns i u t w0) as (a & w' & Hrun).
    pose proof Hu as (Hi & _ & _)%list_find_Some. rewrite <- Hs0 in Hi.
    destruct (get_or_create_post env Hdb i u t w0 a w' Hi Hrun)
      as (u1 & Hrows & Hacc & _ & _ & _ & _ & Hin & _).
    exists a, w'. split; [done|]. split; [done|].
    rewrite Hrows, list_lookup_insert_eq by (by eapply lookup_lt_Some).
    cbn. by rewrite Hacc.
Qed.

Lemma sync_run_config_fields t w ci config entries stats w' :
  enabled_config t (session w) = Some (ci, config) ->
  fetch_succeeds env config entries ->
  sync_ldap_users env t w = (Return stats, w') ->
  exists config',
    enabled_config t (session w') = Some (ci, config')
    /\ same_but_stamps config config'.
Proof.
  intros Hcfg Hfetch Hrun.
  destruct (sync_ldap_users_ok env Hdb t w ci config entries Hcfg Hfetch)
    as (w'' & Hrun' & Hs & _).
  rewrite Hrun in Hrun'. injection Hrun' as _ <-.
  unfold enabled_config in *. rewrite Hs. cbn [ldap_configs].
  match goal with
  | |- context [alter (LdapConfig.set_updated_at ?t2) ci
                  (alter (LdapConfig.set_last_sync_at ?t1) ci _)] =>
      exists (LdapConfig.set_updated_at t2 (LdapConfig.set_last_sync_at t1 config))
  end.
  split; [|done].
  apply (list_find_alter_same _ (LdapConfig.set_updated_at _)); [done|].
  by apply (list_find_alter_same _ (LdapConfig.set_last_sync_at _)).
Qed.
End RunThenLogin.

(** A user the directory lists can log in after a run.  After a run of
    [sync_ldap_users] that meets no failure, for every valid fetched
    record that is the last one with its uid, [authenticate_ldap_user]
    finds for the email of the record an enabled mirrored user of the
    tenant whose uid was fetched and who carries that email; and when
    the directory accepts the password for the distinguished name stored
    for that user, the login returns an account, which exists and to
    which that user is then linked. *)
Theorem synced_user_can_authenticate (env : Env) (tenant_id : string)
    (w : World) (ci : nat) (config : LdapConfig.t) (entries : list Entry)
    (ud : UserData) (password : string)
    (Hdb : no_db_fault env)
    (Hcfg : enabled_config tenant_id (session w) = Some (ci, config))
    (Hfetch : fetch_succeeds env config entries)
    (Huniq : unique_tenant_ldap_user (ldap_users (session w)))
    (Hud : last_with_uid (filter valid_user (user_data_of config <$> entries))
             (uid ud) = Some ud) :
  exists stats w' i u,
    sync_ldap_users env tenant_id w = (Return stats, w')
    /\ enabled_user tenant_id (email ud) (session w') = Some (i, u)
    /\ LdapUser.ldap_uid u
       ∈ current_uids (filter valid_user (user_data_of config <$> entries))
    /\ (ldap_bind env (LdapConfig.server_url config) (LdapUser.ldap_dn u) password
        = None ->
        exists a w2,
          authenticate_ldap_user env tenant_id (email ud) password w'
          = (Return a, w2)
          /\ a ∈ accounts (session w2)
          /\ (LdapUser.account_id <$> ldap_users (session w2) !! i)
             = Some (Some (Account.id a))).
Proof.
  destruct (sync_run_after env Hdb tenant_id w ci config entries Hcfg Hfetch Huniq)
    as (stats & w' & config0 & Hrun & _ & _ & _ & _ & Hkeys & Hen & Hdata).
  destruct (sync_run_config_fields env Hdb tenant_id w ci config entries stats w'
              Hcfg Hfetch Hrun) as (config' & Hcfg' & HR).
  set (recs := filter valid_user (user_data_of config <$> entries)) in *.
  pose proof (last_with_uid_Some _ _ _ Hud) as [Hin _].
  assert (Hcur : uid ud ∈ current_uids recs).
  { apply elem_of_current_uids. by exists ud. }
  pose proof (proj2 (Hkeys (uid ud)) (or_intror Hcur))
    as (r & Hk & Hr)%list_elem_of_fmap.
  injection Hk as Ht Hu. symmetry in Ht, Hu.
  assert (Hr_en : LdapUser.enabled r = true) by (apply (Hen r Hr Ht); by rewrite Hu).
  destruct (Hdata r ud Hr Ht) as (Hr_email & _); [by rewrite Hu|].
  destruct (enabled_user tenant_id (email ud) (session w')) as [[i u]|] eqn:Huser.
  2:{ apply list_find_None in Huser.
      by destruct (proj1 (Forall_forall _ _) Huser r Hr). }
  pose proof Huser as (Hi & (Hut & Hue & Huen) & _)%list_find_Some.
  assert (Hu_in : u ∈ ldap_users (session w')) by by eapply list_elem_of_lookup_2.
  exists stats, w', i, u. split; [done|]. split; [done|].
  split; [by apply (Hen u Hu_in Hut)|].
  intros Hbind.
  apply (authenticate_accepted env Hdb tenant_id (email ud) password w' ci config'
           i u); [done..|].
  unfold same_but_stamps, unstamped in HR.
  assert (Hurl : LdapConfig.server_url config' = LdapConfig.server_url config).
  { change (LdapConfig.server_url
              (LdapConfig.set_updated_at 0 (LdapConfig.set_last_sync_at None config'))
            = LdapConfig.server_url
                (LdapConfig.set_updated_at 0 (LdapConfig.set_last_sync_at None config))).
    by rewrite HR. }
  by rewrite Hurl.
Qed.

Lemma synced_user_can_authenticate_witness :
  exists stats w' i u,
    sync_ldap_users ex_env_sync "t1" (ex_world ex_db_accounts) = (Return stats, w')
    /\ enabled_user "t1" "d@x" (session w') = Some (i, u)
    /\ LdapUser.ldap_uid u
       ∈ current_uids (filter valid_user
                         (user_data_of (ex_config "t1" true) <$> ex_entries)).
Proof.
  destruct (synced_user_can_authenticate ex_env_sync "t1" (ex_world ex_db_accounts)
              0%nat (ex_config "t1" true) ex_entries
              (mkUserData "u4" "d@x" "D" "uid=u4,dc=x") "pw4")
    as (stats & w' & i & u & Hrun & Hu & Hcur & _).
  - apply ex_no_db_fault.
  - reflexivity.
  - apply ex_fetch_succeeds.
  - apply ex_unique.
  - by vm_compute.
  - by exists stats, w', i, u.
Defined.
